(** * Sandbox Session Manager (container-manager/main.py)

    A shallow embedding of the container manager: the registry gate, the
    session table [active_containers], the lazily initialised engine
    client, the request handlers and the TTL reaper.

    Conventions of the embedding.
    - Python [int] is [Z]; a naive [datetime] is the number of microseconds
      since 1970-01-01T00:00 (a [Z]); the ISO string stored in a record is
      identified with the datetime it denotes, since
      [fromisoformat (isoformat t) = t].  [timedelta(seconds=n)] and
      [datetime + timedelta] raise [OverflowError] outside the ranges of
      [timedelta] and [datetime], as in Python.
    - A Python [dict] whose keys are fixed is a record; a key that may be
      absent is an [option] field.  [active_containers] is an association
      list in insertion order with unique keys.
    - The registry is what [yaml.safe_load] returns for the file: a
      mapping, whose ["containers"] key (if present) holds a mapping from
      profile name to profile, or a value that is not a mapping at either
      place ([None] for an empty file or a key without value, a scalar, a
      list), on which [.get] raises [AttributeError].  A file that cannot
      be read or parsed is replaced by the empty catalog.  Every profile
      is a mapping (a name whose value is [None] is a name without
      profile, as it is for [is_container_allowed]).
    - The [bytes] of an exec's output streams are looked at only through
      their truth value and [.decode()]: a stream is the UTF-8 encoding of
      a text, or is not valid UTF-8.
    - The container engine is the environment: its containers are a finite
      map from (short) container id to status, every call to it is written
      to a log, and every call may raise the exception the environment
      chooses for it ([Env]).  The clock and the uuid generator are read
      from the same environment.  Handlers run one at a time.
    - [raise]/[try]/[except] are an exception-and-state monad [M]; what
      the framework answers for a handler is [serve]. *)

From Stdlib Require Import ZArith String List Bool Lia.
From stdpp Require Import base option gmap strings list.

Local Open Scope Z_scope.
Local Open Scope string_scope.

(** ** CONFIG *)

Definition MAX_OUTPUT_LENGTH : Z := 10000.
Definition DEFAULT_SESSION_TTL : Z := 300.
Definition MAX_SESSION_TTL : Z := 3600.
Definition CLEANUP_INTERVAL : Z := 30.

(** ** Time *)

(** [timedelta(seconds=n)] in microseconds. *)
Definition timedelta_seconds (n : Z) : Z := n * 1000000.

(** [timedelta(seconds=n)]: [OverflowError] ([None]) unless the days of
    the normalised result, [n // 86400], have magnitude at most
    999999999. *)
Definition timedelta_of_seconds (n : Z) : option Z :=
  if Z.leb (-999999999) (n / 86400) && Z.leb (n / 86400) 999999999
  then Some (timedelta_seconds n) else None.

(** [datetime.min] (0001-01-01T00:00:00) and [datetime.max]
    (9999-12-31T23:59:59.999999). *)
Definition DATETIME_MIN : Z := -62135596800000000.
Definition DATETIME_MAX : Z := 253402300799999999.

(** [dt + td]: [OverflowError] ([None]) when the result is not a
    [datetime]. *)
Definition datetime_add (dt td : Z) : option Z :=
  if Z.leb DATETIME_MIN (dt + td) && Z.leb (dt + td) DATETIME_MAX
  then Some (dt + td) else None.

(** [td.seconds]: the seconds field of a normalised [timedelta], whose
    [days] field holds the whole days (floor) and whose [seconds] field is
    in [0, 86399]. *)
Definition td_seconds (td : Z) : Z := (td mod 86400000000) / 1000000.

(** [td.days]. *)
Definition td_days (td : Z) : Z := td / 86400000000.

(** ** Exceptions and responses *)

Inductive Detail :=
| NotInRegistry        (* "Container '..' ist nicht in der Registry erlaubt!" *)
| DockerUnavailable    (* "Docker ist nicht verfügbar" *)
| ImageNotFoundDetail  (* "Image '..' nicht gefunden. Bitte erst bauen." *)
| StartFailed          (* "Container-Start fehlgeschlagen: .." *)
| NotTracked           (* "Container '..' nicht gefunden oder nicht aktiv" *)
| NoLongerExists       (* "Container '..' existiert nicht mehr" *)
| ExecFailed           (* "Exec fehlgeschlagen: .." *)
| SessionNotFound      (* "Session '..' not found" *)
| InternalServerError. (* an exception no handler caught *)

(** The exception classes the handlers distinguish.  In docker.errors,
    [ImageNotFound] is a subclass of [NotFound], which is a subclass of
    [APIError]. *)
Inductive Exc :=
| ImageNotFound
| NotFound
| APIError
| HTTPException (status_code : Z) (detail : Detail)
| OtherError (type_name : string).

Definition is_ImageNotFound (e : Exc) : bool :=
  match e with ImageNotFound => true | _ => false end.

Definition is_NotFound (e : Exc) : bool :=
  match e with ImageNotFound | NotFound => true | _ => false end.

Definition is_APIError (e : Exc) : bool :=
  match e with ImageNotFound | NotFound | APIError => true | _ => false end.

Fixpoint str_contains (needle hay : string) : bool :=
  if String.prefix needle hay then true
  else match hay with
       | EmptyString => false
       | String _ hay' => str_contains needle hay'
       end.

(** ["NotFound" in str(type(e))] *)
Definition type_name_has_NotFound (e : Exc) : bool :=
  match e with
  | ImageNotFound | NotFound => true
  | APIError => false
  | HTTPException _ _ => false
  | OtherError n => str_contains "NotFound" n
  end.

(** What the framework sends back. *)
Inductive Response (A : Type) :=
| OK (body : A)
| HTTPError (status_code : Z) (detail : Detail).
Arguments OK {A} body.
Arguments HTTPError {A} status_code detail.

Definition http_status {A} (r : Response A) : Z :=
  match r with OK _ => 200 | HTTPError c _ => c end.

(** ** MODELS *)

Module ContainerStartRequest.
Record t := mk {
  container_name : string;
  code : option string;
  command : option string;
  timeout : option Z;
  keep_alive : bool;
  ttl_seconds : option Z;
  enable_ttyd : bool }.
(** The pydantic defaults. *)
Definition default (container_name : string) : t :=
  mk container_name None None (Some 60) false (Some 300) false.
End ContainerStartRequest.

Module ContainerExecRequest.
Record t := mk {
  container_id : string;
  command : string;
  timeout : option Z }.
End ContainerExecRequest.

Module SessionExtendRequest.
Record t := mk {
  session_id : string;
  extend_seconds : Z }.
End SessionExtendRequest.

(** The ["execution_result"] of a start, and the body of an exec. *)
Module ExecutionResult.
Record t := mk {
  exit_code : Z;
  stdout : string;
  stderr : string }.
End ExecutionResult.

(** The ["session"] object of a start response. *)
Module StartSession.
Record t := mk {
  session_id : option string;
  persistent : bool;
  ttl_seconds : option Z;
  ttyd_url : option string }.
End StartSession.

Module StartResponse.
Record t := mk {
  status : string;
  container_id : string;
  container_name : string;
  execution_result : option ExecutionResult.t;
  session : option StartSession.t }.
End StartResponse.

Module ExecResponse.
Record t := mk {
  container_id : string;
  command : string;
  result : ExecutionResult.t }.
End ExecResponse.

(** The ["session"] object of a status entry. *)
Module StatusSession.
Record t := mk {
  session_id : option string;
  ttl_seconds : Z;
  remaining_seconds : Z }.
End StatusSession.

Module StatusEntry.
Record t := mk {
  container_id : string;
  name : string;
  status : string;
  started_at : option Z;
  persistent : bool;
  session : option StatusSession.t }.
End StatusEntry.

(** An entry of [list_sessions]; [get_session] returns the same fields. *)
Module SessionEntry.
Record t := mk {
  session_id : option string;
  container_id : string;
  name : string;
  started_at : option Z;
  last_activity : option Z;
  ttl_seconds : Z;
  remaining_seconds : Z;
  ttyd_enabled : bool }.
End SessionEntry.

Module ExtendResponse.
Record t := mk {
  session_id : string;
  extended_by : Z;
  new_ttl : Z }.
End ExtendResponse.

Module CloseResponse.
Record t := mk {
  session_id : string;
  container_id : string;
  status : string }.
End CloseResponse.

Module CleanupResponse.
Record t := mk {
  stopped : list string;
  count : Z;
  cleared_tracking : option Z }.
End CleanupResponse.

(** The body of a stop; the free-text ["message"] is left out. *)
Module StopResponse.
Record t := mk {
  status : string;
  container_id : string }.
End StopResponse.

(** ** Registry *)

Record Security := {
  network_mode : option string;
  read_only : bool;
  needs_confirm : bool }.

Record Resources := {
  memory : option string;
  cpus : option string }.

(** One profile of the registry; a missing ["security"] or ["resources"]
    is the record with every key absent. *)
Record Config := {
  description : option string;
  image : option string;
  build_context : option string;
  security : Security;
  resources : Resources }.

(** A YAML value at a place where the code calls [.get] on it. *)
Inductive Yaml (A : Type) :=
| mapping (a : A)
| not_a_mapping.    (* null, a scalar, a list: [.get] raises AttributeError *)
Arguments mapping {A} a.
Arguments not_a_mapping {A}.

(** The registry document; [containers] is [None] when the key is absent. *)
Record Registry := {
  containers : option (Yaml (gmap string Config)) }.

(** ** Session records *)

Record SessionInfo := {
  name : string;
  config : Config;
  persistent : bool;
  ttl_seconds : option Z;
  session_id : option string;
  started_at : option Z;
  last_activity : option Z;
  ttyd_port : option string;
  ttyd_enabled : bool;
  ttyd_url : option string }.

Definition set_session_id (v : string) (i : SessionInfo) : SessionInfo :=
  {| name := name i; config := config i; persistent := persistent i;
     ttl_seconds := ttl_seconds i; session_id := Some v;
     started_at := started_at i; last_activity := last_activity i;
     ttyd_port := ttyd_port i; ttyd_enabled := ttyd_enabled i;
     ttyd_url := ttyd_url i |}.

Definition set_started_at (v : Z) (i : SessionInfo) : SessionInfo :=
  {| name := name i; config := config i; persistent := persistent i;
     ttl_seconds := ttl_seconds i; session_id := session_id i;
     started_at := Some v; last_activity := last_activity i;
     ttyd_port := ttyd_port i; ttyd_enabled := ttyd_enabled i;
     ttyd_url := ttyd_url i |}.

Definition set_last_activity (v : Z) (i : SessionInfo) : SessionInfo :=
  {| name := name i; config := config i; persistent := persistent i;
     ttl_seconds := ttl_seconds i; session_id := session_id i;
     started_at := started_at i; last_activity := Some v;
     ttyd_port := ttyd_port i; ttyd_enabled := ttyd_enabled i;
     ttyd_url := ttyd_url i |}.

Definition set_ttl_seconds (v : Z) (i : SessionInfo) : SessionInfo :=
  {| name := name i; config := config i; persistent := persistent i;
     ttl_seconds := Some v; session_id := session_id i;
     started_at := started_at i; last_activity := last_activity i;
     ttyd_port := ttyd_port i; ttyd_enabled := ttyd_enabled i;
     ttyd_url := ttyd_url i |}.

Definition set_ttyd (port url : option string) (i : SessionInfo) : SessionInfo :=
  {| name := name i; config := config i; persistent := persistent i;
     ttl_seconds := ttl_seconds i; session_id := session_id i;
     started_at := started_at i; last_activity := last_activity i;
     ttyd_port := port; ttyd_enabled := true;
     ttyd_url := url |}.

(** ** Python dicts in insertion order *)

Section Dict.
Context {V : Type}.

(** [d.get(k)] *)
Fixpoint dict_get (k : string) (d : list (string * V)) : option V :=
  match d with
  | [] => None
  | (k', v) :: d' => if String.eqb k k' then Some v else dict_get k d'
  end.

(** [k in d] *)
Definition dict_in (k : string) (d : list (string * V)) : bool :=
  match dict_get k d with Some _ => true | None => false end.

(** [d[k] = v]: an existing key keeps its place, a new key goes last. *)
Fixpoint dict_set (k : string) (v : V) (d : list (string * V))
  : list (string * V) :=
  match d with
  | [] => [(k, v)]
  | (k', v') :: d' =>
      if String.eqb k k' then (k', v) :: d' else (k', v') :: dict_set k v d'
  end.

(** [del d[k]] *)
Fixpoint dict_del (k : string) (d : list (string * V)) : list (string * V) :=
  match d with
  | [] => []
  | (k', v') :: d' =>
      if String.eqb k k' then dict_del k d' else (k', v') :: dict_del k d'
  end.
End Dict.

(** ** The engine and the process globals *)

(** [container.status] *)
Inductive Status :=
| created | restarting | running | removing | paused | exited | dead.

Record ContainerOptions := {
  opt_image : string;
  opt_detach : bool;
  opt_remove : bool;
  opt_tty : bool;
  opt_stdin_open : bool;
  opt_network_mode : option string;
  opt_ports : option (string * option Z);
  opt_mem_limit : option string;
  opt_cpu_period : option Z;
  opt_cpu_quota : option Z;
  opt_read_only : option bool }.

Inductive Command :=
| ShellCommand (cmd : string)
| Argv (argv : list string).

(** The calls made to the engine, as they are logged in [calls]. *)
Inductive EngineCall :=
| CallFromEnv
| CallPing
| CallBuild (path tag : string)
| CallRun (options : ContainerOptions)
| CallGet (container_id : string)
| CallStop (container_id : string) (timeout : Z)
| CallRemove (container_id : string)
| CallExecRun (container_id : string) (cmd : Command) (detach : bool)
| CallReload (container_id : string)
| CallPutArchive (container_id : string) (path : string) (file_name data : string).

Record World := {
  registry_file : option (Yaml Registry);   (* None: unreadable or unparsable *)
  _docker_client : bool;             (* [_docker_client is not None] *)
  _docker_available : option bool;
  active_containers : list (string * SessionInfo);
  engine : gmap string Status;
  calls : list EngineCall }.

Definition set_docker (c : bool) (a : option bool) (w : World) : World :=
  {| registry_file := registry_file w; _docker_client := c;
     _docker_available := a; active_containers := active_containers w;
     engine := engine w; calls := calls w |}.

Definition set_active_containers (t : list (string * SessionInfo)) (w : World)
  : World :=
  {| registry_file := registry_file w; _docker_client := _docker_client w;
     _docker_available := _docker_available w; active_containers := t;
     engine := engine w; calls := calls w |}.

Definition set_engine (g : gmap string Status) (w : World) : World :=
  {| registry_file := registry_file w; _docker_client := _docker_client w;
     _docker_available := _docker_available w;
     active_containers := active_containers w;
     engine := g; calls := calls w |}.

Definition log_call (c : EngineCall) (w : World) : World :=
  {| registry_file := registry_file w; _docker_client := _docker_client w;
     _docker_available := _docker_available w;
     active_containers := active_containers w;
     engine := engine w; calls := calls w ++ [c] |}.

Definition set_registry_file (r : option (Yaml Registry)) (w : World) : World :=
  {| registry_file := r; _docker_client := _docker_client w;
     _docker_available := _docker_available w;
     active_containers := active_containers w;
     engine := engine w; calls := calls w |}.

(** The world of a fresh process. *)
Definition initial_world (r : option (Yaml Registry)) (g : gmap string Status)
  : World :=
  {| registry_file := r; _docker_client := false; _docker_available := None;
     active_containers := []; engine := g; calls := [] |}.

(** ** The environment of one request *)

(** A [bytes] value: the UTF-8 encoding of a text (the empty text for
    [b""]), or a byte string that is not valid UTF-8. *)
Inductive Bytes :=
| utf8 (text : string)
| not_utf8.

(** [exec_run(..., demux=True)]: the exit code and the two streams, each
    [None] or [bytes]. *)
Record ExecRunResult := {
  exit_code : Z;
  output : option Bytes * option Bytes }.

(** Everything a handler reads from outside the process while it serves
    one request: the clock ([clock n] is the value of [datetime.now()] at
    the n-th place the handler reads it), the uuid generator, and for each
    engine call the exception it raises, if any. *)
Record Env := {
  clock : nat -> Z;
  uuid4 : string;
  from_env_fault : option Exc;
  ping_fault : option Exc;
  build_fault : option Exc;
  run_result : Exc + string;
  get_fault : string -> option Exc;
  stop_fault : string -> option Exc;
  remove_fault : string -> option Exc;
  ttyd_exec_fault : option Exc;
  reload_fault : option Exc;
  port_info : option (list string);
  put_archive_fault : option Exc;
  exec_run_result : Exc + ExecRunResult }.

(** ** Exceptions and state *)

Inductive outcome (A : Type) :=
| Ret (a : A)
| Raise (e : Exc).
Arguments Ret {A} a.
Arguments Raise {A} e.

Definition M (A : Type) : Type := World -> outcome A * World.

Definition ret {A} (a : A) : M A := fun w => (Ret a, w).

Definition raise {A} (e : Exc) : M A := fun w => (Raise e, w).

Definition bind {A B} (m : M A) (k : A -> M B) : M B :=
  fun w =>
    match m w with
    | (Ret a, w') => k a w'
    | (Raise e, w') => (Raise e, w')
    end.

(** [try: m  except Exception as e: h e] *)
Definition try_except {A} (m : M A) (h : Exc -> M A) : M A :=
  fun w =>
    match m w with
    | (Ret a, w') => (Ret a, w')
    | (Raise e, w') => h e w'
    end.

Definition get_world : M World := fun w => (Ret w, w).

Definition modify (f : World -> World) : M unit := fun w => (Ret tt, f w).

Notation "'let!' x ':=' m 'in' k" := (bind m (fun x => k))
  (at level 10, x name, m at level 100, k at level 200).
Notation "m ';;' k" := (bind m (fun _ => k))
  (at level 100, k at level 200, right associativity).

(** [for x in xs: body x] *)
Fixpoint for_each {A} (xs : list A) (body : A -> M unit) : M unit :=
  match xs with
  | [] => ret tt
  | x :: xs' => body x ;; for_each xs' body
  end.

(** What the framework makes of a handler: a raised [HTTPException] is
    its status code, any other exception is a 500. *)
Definition serve {A} (handler : M A) (w : World) : Response A * World :=
  match handler w with
  | (Ret a, w') => (OK a, w')
  | (Raise (HTTPException c d), w') => (HTTPError c d, w')
  | (Raise _, w') => (HTTPError 500 InternalServerError, w')
  end.

(** ** Engine client *)

Definition engine_call (c : EngineCall) (fault : option Exc) : M unit :=
  fun w =>
    match fault with
    | Some e => (Raise e, log_call c w)
    | None => (Ret tt, log_call c w)
    end.

(** [container.id[:12]] *)
Definition short_id (full : string) : string := String.substring 0 12 full.

(** [docker_client.containers.get(container_id)]; the handle carries the
    status the engine had at that moment. *)
Definition docker_containers_get (env : Env) (container_id : string) : M Status :=
  engine_call (CallGet container_id) (get_fault env container_id) ;;
  let! w := get_world in
  match engine w !! container_id with
  | Some st => ret st
  | None => raise NotFound
  end.

(** [container.stop(timeout=t)] *)
Definition docker_stop (env : Env) (container_id : string) (t : Z) : M unit :=
  engine_call (CallStop container_id t) (stop_fault env container_id) ;;
  let! w := get_world in
  match engine w !! container_id with
  | Some _ => modify (fun w => set_engine (<[container_id := exited]> (engine w)) w)
  | None => raise NotFound
  end.

(** [container.remove()] *)
Definition docker_remove (env : Env) (container_id : string) : M unit :=
  engine_call (CallRemove container_id) (remove_fault env container_id) ;;
  let! w := get_world in
  match engine w !! container_id with
  | Some _ => modify (fun w => set_engine (delete container_id (engine w)) w)
  | None => raise NotFound
  end.

(** [docker_client.containers.run( **options )]; returns [container.id]. *)
Definition docker_run (env : Env) (options : ContainerOptions) : M string :=
  fun w =>
    let w := log_call (CallRun options) w in
    match run_result env with
    | inl e => (Raise e, w)
    | inr full =>
        (Ret full, set_engine (<[short_id full := running]> (engine w)) w)
    end.

(** [get_docker_client()]: whether a client (not [None]) is returned. *)
Definition get_docker_client (env : Env) : M bool :=
  fun w =>
    match _docker_available w with
    | Some false => (Ret false, w)
    | _ =>
        if negb (_docker_client w) then
          let w := log_call CallFromEnv w in
          match from_env_fault env with
          | Some _ => (Ret false, set_docker false (Some false) w)
          | None =>
              let w := log_call CallPing (set_docker true (_docker_available w) w) in
              match ping_fault env with
              | Some _ => (Ret false, set_docker true (Some false) w)
              | None => (Ret true, set_docker true (Some true) w)
              end
          end
        else (Ret true, w)
    end.

(** ** Session table *)

Definition track_container (env : Env) (container_id : string)
    (info : SessionInfo) : M unit :=
  let info :=
    match session_id info with
    | None => set_session_id (uuid4 env) info
    | Some _ => info
    end in
  let info :=
    match started_at info with
    | None => set_started_at (clock env 0) info
    | Some _ => info
    end in
  let info :=
    match last_activity info with
    | None => set_last_activity (clock env 1) info
    | Some _ => info
    end in
  modify (fun w =>
    set_active_containers (dict_set container_id info (active_containers w)) w).

Definition update_container_activity (env : Env) (container_id : string)
  : M bool :=
  let! w := get_world in
  match dict_get container_id (active_containers w) with
  | Some info =>
      modify (set_active_containers
                (dict_set container_id (set_last_activity (clock env 0) info)
                   (active_containers w))) ;;
      ret true
  | None => ret false
  end.

Definition get_container_session (container_id : string)
  : M (option SessionInfo) :=
  let! w := get_world in ret (dict_get container_id (active_containers w)).

Definition untrack_container (container_id : string) : M bool :=
  let! w := get_world in
  if dict_in container_id (active_containers w) then
    modify (set_active_containers
              (dict_del container_id (active_containers w))) ;;
    ret true
  else ret false.

Definition is_container_tracked (container_id : string) : M bool :=
  let! w := get_world in ret (dict_in container_id (active_containers w)).

Definition get_tracked_containers : M (list (string * SessionInfo)) :=
  let! w := get_world in ret (active_containers w).

(** ** HELPERS *)

Definition load_registry : M (Yaml Registry) :=
  let! w := get_world in
  match registry_file w with
  | Some r => ret r
  | None => ret (mapping {| containers := Some (mapping ∅) |})
  end.

(** [registry.get("containers", {}).get(name)] *)
Definition get_container_config (name : string) : M (option Config) :=
  let! registry := load_registry in
  match registry with
  | not_a_mapping => raise (OtherError "AttributeError")
  | mapping registry =>
      match default (mapping ∅) (containers registry) with
      | not_a_mapping => raise (OtherError "AttributeError")
      | mapping containers => ret (containers !! name)
      end
  end.

Definition is_container_allowed (name : string) : M bool :=
  let! c := get_container_config name in
  ret (match c with Some _ => true | None => false end).

(** Truthiness of an optional string. *)
Definition truthy (s : option string) : bool :=
  match s with
  | Some s => negb (String.eqb s "")
  | None => false
  end.

Definition build_image_if_needed (env : Env) (container_name : string)
    (config : Config) : M string :=
  let image_name :=
    default ("jarvis-" ++ container_name ++ ":latest") (image config) in
  let! client := get_docker_client env in
  if negb client then ret image_name
  else
    (if truthy (build_context config) then
       try_except
         (engine_call (CallBuild ("/app/containers/" ++ container_name) image_name)
            (build_fault env))
         (fun _ => ret tt)
     else ret tt) ;;
    ret image_name.

(** [container.exec_run(cmd, workdir="/workspace", demux=True)] *)
Definition docker_exec_run (env : Env) (container_id : string) (cmd : Command)
  : M ExecRunResult :=
  fun w =>
    let w := log_call (CallExecRun container_id cmd false) w in
    match exec_run_result env with
    | inl e => (Raise e, w)
    | inr r => (Ret r, w)
    end.

(** [s[:MAX_OUTPUT_LENGTH]] *)
Definition truncate_output (s : string) : string :=
  String.substring 0 (Z.to_nat MAX_OUTPUT_LENGTH) s.

(** [b.decode() if b else ""]; [None] and [b""] are falsy, and [b""]
    decodes to [""] as well. *)
Definition decode_stream (b : option Bytes) : M string :=
  match b with
  | Some (utf8 text) => ret text
  | Some not_utf8 => raise (OtherError "UnicodeDecodeError")
  | None => ret ""
  end.

(** The result dict built from an [exec_run] result. *)
Definition execution_result_of (r : ExecRunResult) : M ExecutionResult.t :=
  let! stdout := decode_stream (fst (output r)) in
  let! stderr := decode_stream (snd (output r)) in
  ret (ExecutionResult.mk (exit_code r)
         (truncate_output stdout) (truncate_output stderr)).

(** [x or d] on an optional integer: [None] and [0] are falsy. *)
Definition py_or (x : option Z) (d : Z) : Z :=
  match x with
  | Some v => if Z.eqb v 0 then d else v
  | None => d
  end.

Section Manager.

(** [int(float(cpus) * 100000)] for the registry's ["cpus"] value;
    [None] when [float] raises [ValueError]. *)
Variable cpu_quota_of : string -> option Z.

(** *** TOOL: container_start *)

(** The options passed to [containers.run]. *)
Definition container_options (request : ContainerStartRequest.t)
    (config : Config) (image_name : string) : M ContainerOptions :=
  let security := security config in
  let resources := resources config in
  let network_mode := default "none" (network_mode security) in
  let opt_network :=
    if String.eqb network_mode "none" then Some "none" else None in
  let opt_network :=
    if ContainerStartRequest.enable_ttyd request then
      (if String.eqb network_mode "none" then None else opt_network)
    else opt_network in
  let ports :=
    if ContainerStartRequest.enable_ttyd request
    then Some ("7681/tcp", None) else None in
  let mem_limit :=
    if truthy (memory resources) then memory resources else None in
  let! cpu :=
    (if truthy (cpus resources) then
       match cpu_quota_of (default "" (cpus resources)) with
       | Some q => ret (Some 100000, Some q)
       | None => raise (OtherError "ValueError")
       end
     else ret (None, None)) in
  ret {| opt_image := image_name; opt_detach := true; opt_remove := false;
         opt_tty := true; opt_stdin_open := true;
         opt_network_mode := opt_network; opt_ports := ports;
         opt_mem_limit := mem_limit;
         opt_cpu_period := fst cpu; opt_cpu_quota := snd cpu;
         opt_read_only := if read_only security then Some true else None |}.

(** Starting ttyd in the container; the published host port, if any.
    Every exception is printed and dropped. *)
Definition start_ttyd (env : Env) (container_id : string)
  : M (option string) :=
  try_except
    (engine_call
       (CallExecRun container_id (ShellCommand "ttyd -W -p 7681 bash") true)
       (ttyd_exec_fault env) ;;
     engine_call (CallReload container_id) (reload_fault env) ;;
     ret (match port_info env with
          | Some (host_port :: _) => Some host_port
          | _ => None
          end))
    (fun _ => ret None).

(** Writing the code to /workspace/code.py and running it. *)
Definition run_code (env : Env) (container_id : string) (code : string)
  : M ExecutionResult.t :=
  engine_call (CallPutArchive container_id "/workspace" "code.py" code)
    (put_archive_fault env) ;;
  let! exec_result :=
    docker_exec_run env container_id (Argv ["python"; "/workspace/code.py"]) in
  execution_result_of exec_result.

(** The body of the [try] of [container_start]. *)
Definition container_start_try (env : Env) (request : ContainerStartRequest.t)
    (config : Config) (options : ContainerOptions) : M StartResponse.t :=
  let container_name := ContainerStartRequest.container_name request in
  let keep_alive := ContainerStartRequest.keep_alive request in
  let! docker_client := get_docker_client env in
  (if negb docker_client
   then raise (HTTPException 503 DockerUnavailable) else ret tt) ;;
  let! full := docker_run env options in
  let container_id := short_id full in
  let session_info :=
    {| name := container_name; config := config; persistent := keep_alive;
       ttl_seconds :=
         Some (Z.min (py_or (ContainerStartRequest.ttl_seconds request)
                        DEFAULT_SESSION_TTL) MAX_SESSION_TTL);
       session_id := None; started_at := None; last_activity := None;
       ttyd_port := None; ttyd_enabled := false; ttyd_url := None |} in
  let! session_info :=
    (if ContainerStartRequest.enable_ttyd request then
       let! host_port := start_ttyd env container_id in
       ret (set_ttyd host_port
              (option_map (fun p => "http://localhost:" ++ p) host_port)
              session_info)
     else ret session_info) in
  track_container env container_id session_info ;;
  let! tracked := get_container_session container_id in
  let! session_id :=
    match tracked with
    | Some info =>
        match session_id info with
        | Some sid => ret (Some sid)
        | None => raise (OtherError "TypeError")      (* session_id[:8] *)
        end
    | None => raise (OtherError "AttributeError")
    end in
  let! result :=
    (if truthy (ContainerStartRequest.code request) then
       let! r := run_code env container_id
                   (default "" (ContainerStartRequest.code request)) in
       ret (Some r)
     else ret None) in
  (if negb keep_alive && bool_decide (is_Some result) then
     try_except
       (docker_stop env container_id 5 ;;
        docker_remove env container_id ;;
        untrack_container container_id ;;
        ret tt)
       (fun _ => ret tt)
   else ret tt) ;;
  ret (StartResponse.mk "started" container_id container_name result
         (if keep_alive then
            Some (StartSession.mk session_id keep_alive
                    (ttl_seconds session_info) (ttyd_url session_info))
          else None)).

Definition container_start (env : Env) (request : ContainerStartRequest.t)
  : M StartResponse.t :=
  let container_name := ContainerStartRequest.container_name request in
  let! allowed := is_container_allowed container_name in
  if negb allowed then raise (HTTPException 403 NotInRegistry)
  else
    let! config := get_container_config container_name in
    match config with
    | None => raise (OtherError "AttributeError")       (* config.get *)
    | Some config =>
        let! image_name := build_image_if_needed env container_name config in
        let! options := container_options request config image_name in
        try_except
          (container_start_try env request config options)
          (fun e =>
             if is_ImageNotFound e
             then raise (HTTPException 404 ImageNotFoundDetail)
             else raise (HTTPException 500 StartFailed))
    end.

(** *** TOOL: container_exec *)

(** The body of the [try] of [container_exec]. *)
Definition container_exec_try (env : Env) (request : ContainerExecRequest.t)
  : M ExecResponse.t :=
  let container_id := ContainerExecRequest.container_id request in
  let! docker_client := get_docker_client env in
  (if negb docker_client
   then raise (HTTPException 503 DockerUnavailable) else ret tt) ;;
  docker_containers_get env container_id ;;
  let! exec_result :=
    docker_exec_run env container_id
      (ShellCommand (ContainerExecRequest.command request)) in
  let! result := execution_result_of exec_result in
  ret (ExecResponse.mk container_id
         (ContainerExecRequest.command request) result).

(** The [except Exception as e] of [container_exec]. *)
Definition container_exec_except (container_id : string) (e : Exc)
  : M ExecResponse.t :=
  if type_name_has_NotFound e then
    untrack_container container_id ;;
    raise (HTTPException 404 NoLongerExists)
  else raise (HTTPException 500 ExecFailed).

Definition container_exec (env : Env) (request : ContainerExecRequest.t)
  : M ExecResponse.t :=
  let container_id := ContainerExecRequest.container_id request in
  let! tracked := is_container_tracked container_id in
  if negb tracked then raise (HTTPException 404 NotTracked)
  else
    update_container_activity env container_id ;;
    try_except (container_exec_try env request)
      (container_exec_except container_id).

(** *** TOOL: container_stop *)

Definition container_stop (env : Env) (container_id : string)
  : M StopResponse.t :=
  let! docker_client := get_docker_client env in
  if negb docker_client then
    untrack_container container_id ;;
    ret (StopResponse.mk "no_docker" container_id)
  else
    try_except
      (let! status := docker_containers_get env container_id in
       (match status with
        | exited | dead =>
            try_except (docker_remove env container_id) (fun _ => ret tt)
        | _ =>
            docker_stop env container_id 5 ;;
            docker_remove env container_id
        end) ;;
       untrack_container container_id ;;
       ret (StopResponse.mk "stopped" container_id))
      (fun e =>
         if is_NotFound e then
           untrack_container container_id ;;
           ret (StopResponse.mk "already_stopped" container_id)
         else if is_APIError e then
           untrack_container container_id ;;
           ret (StopResponse.mk "error_but_cleaned" container_id)
         else
           untrack_container container_id ;;
           ret (StopResponse.mk "error_but_cleaned" container_id)).

End Manager.

(** *** Session arithmetic shared by the reaper and the read endpoints *)

(** [info.get("last_activity", info.get("started_at"))] *)
Definition last_activity_of (info : SessionInfo) : option Z :=
  match last_activity info with
  | Some t => Some t
  | None => started_at info
  end.

(** [info.get("ttl_seconds", DEFAULT_SESSION_TTL)] *)
Definition ttl_of (info : SessionInfo) : Z :=
  default DEFAULT_SESSION_TTL (ttl_seconds info).

(** [max(0, ttl - (now - last_activity_dt).seconds)] *)
Definition remaining_seconds (now last_activity_dt ttl : Z) : Z :=
  Z.max 0 (ttl - td_seconds (now - last_activity_dt)).

(** [last_activity + timedelta(seconds=ttl)]; [None] is [OverflowError]. *)
Definition expires_at (last_activity_dt ttl : Z) : option Z :=
  match timedelta_of_seconds ttl with
  | Some td => datetime_add last_activity_dt td
  | None => None
  end.

(** [now > expires_at], for an [expires_at] that could be computed. *)
Definition expired (now last_activity_dt ttl : Z) : bool :=
  Z.ltb (last_activity_dt + timedelta_seconds ttl) now.

Definition status_name (s : Status) : string :=
  match s with
  | created => "created" | restarting => "restarting" | running => "running"
  | removing => "removing" | paused => "paused" | exited => "exited"
  | dead => "dead"
  end.

(** The first record, in table order, whose session id is [sid]. *)
Fixpoint find_session (sid : string) (d : list (string * SessionInfo))
  : option (string * SessionInfo) :=
  match d with
  | [] => None
  | (container_id, info) :: d' =>
      if bool_decide (session_id info = Some sid)
      then Some (container_id, info)
      else find_session sid d'
  end.

(** *** Reaper *)

(** Stop and remove through a fresh handle; used where the source wraps
    [get]/[stop(timeout=5)]/[remove] in one [try]. *)
Definition docker_get_stop_remove (env : Env) (container_id : string) : M unit :=
  docker_containers_get env container_id ;;
  docker_stop env container_id 5 ;;
  docker_remove env container_id.

(** The body of the loop of [cleanup_expired_sessions], for one record of
    the snapshot. *)
Definition expire_session (env : Env) (now : Z) (container_id : string)
    (info : SessionInfo) : M unit :=
  if negb (persistent info) then ret tt
  else
    match last_activity_of info with
    | None => raise (OtherError "TypeError")   (* None + timedelta *)
    | Some last_activity =>
        match expires_at last_activity (ttl_of info) with
        | None => raise (OtherError "OverflowError")
        | Some _ =>
            if expired now last_activity (ttl_of info) then
              try_except (docker_get_stop_remove env container_id)
                (fun _ => ret tt) ;;
              untrack_container container_id ;;
              ret tt
            else ret tt
        end
    end.

Definition cleanup_expired_sessions (env : Env) : M unit :=
  let! docker_client := get_docker_client env in
  if negb docker_client then ret tt
  else
    let now := clock env 0 in
    let! tracked := get_tracked_containers in
    for_each tracked (fun '(container_id, info) =>
      expire_session env now container_id info).

(** One wake-up of the background task: [cleanup_expired_sessions()]
    inside the [try] of the loop, which prints and drops any exception. *)
Definition reaper_tick (env : Env) : M unit :=
  try_except (cleanup_expired_sessions env) (fun _ => ret tt).

(** The background task: one [Env] per wake-up (each after a sleep of
    [CLEANUP_INTERVAL]); the list ends where the task is cancelled. *)
Fixpoint session_cleanup_loop (ticks : list Env) : M unit :=
  match ticks with
  | [] => ret tt
  | env :: ticks' => reaper_tick env ;; session_cleanup_loop ticks'
  end.

(** *** health *)

Definition health (env : Env) : M string :=
  let! docker_client := get_docker_client env in
  ret (if docker_client then "connected" else "unavailable").

(** *** TOOL: container_status *)

(** The session object of a persistent record; [now] is read per record. *)
Definition status_session (now : Z) (info : SessionInfo)
  : M (option StatusSession.t) :=
  if persistent info then
    match last_activity_of info with
    | None => raise (OtherError "TypeError")      (* datetime - None *)
    | Some last_activity_dt =>
        let ttl := ttl_of info in
        ret (Some (StatusSession.mk (session_id info) ttl
                     (remaining_seconds now last_activity_dt ttl)))
    end
  else ret None.

(** [n] counts the readings of the clock so far: [datetime.now()] is
    read once for every persistent record whose container was found. *)
Fixpoint container_status_loop (env : Env) (n : nat)
    (tracked : list (string * SessionInfo)) : M (list StatusEntry.t) :=
  match tracked with
  | [] => ret []
  | (container_id, info) :: tracked' =>
      let! entry :=
        try_except
          (let! status := docker_containers_get env container_id in
           let! session_info := status_session (clock env n) info in
           ret (Some (StatusEntry.mk container_id (name info)
                        (status_name status) (started_at info)
                        (persistent info) session_info)))
          (fun e =>
             if is_NotFound e then untrack_container container_id ;; ret None
             else raise e) in
      let n' :=
        match entry with
        | Some _ => if persistent info then S n else n
        | None => n
        end in
      let! result := container_status_loop env n' tracked' in
      ret (match entry with Some e => e :: result | None => result end)
  end.

(** [None] is the body with ["error": "Docker not available"]. *)
Definition container_status (env : Env) : M (option (list StatusEntry.t)) :=
  let! docker_client := get_docker_client env in
  if negb docker_client then ret None
  else
    let! tracked := get_tracked_containers in
    let! result := container_status_loop env 0 tracked in
    ret (Some result).

(** *** CLEANUP *)

Fixpoint container_cleanup_loop (env : Env) (ids : list string)
  : M (list string) :=
  match ids with
  | [] => ret []
  | container_id :: ids' =>
      let! ok :=
        try_except (docker_get_stop_remove env container_id ;; ret true)
          (fun _ => ret false) in
      untrack_container container_id ;;
      let! stopped := container_cleanup_loop env ids' in
      ret (if ok : bool then container_id :: stopped else stopped)
  end.

Definition container_cleanup (env : Env) : M CleanupResponse.t :=
  let! docker_client := get_docker_client env in
  if negb docker_client then
    let! w := get_world in
    let count := Z.of_nat (length (active_containers w)) in
    modify (set_active_containers []) ;;
    ret (CleanupResponse.mk [] 0 (Some count))
  else
    let! tracked := get_tracked_containers in
    let! stopped := container_cleanup_loop env (map fst tracked) in
    ret (CleanupResponse.mk stopped (Z.of_nat (length stopped)) None).

(** *** SESSION MANAGEMENT *)

Definition session_entry (now : Z) (container_id : string) (info : SessionInfo)
  : M SessionEntry.t :=
  match last_activity_of info with
  | None => raise (OtherError "TypeError")
  | Some last_activity_dt =>
      let ttl := ttl_of info in
      ret (SessionEntry.mk (session_id info) container_id (name info)
             (started_at info) (last_activity info) ttl
             (remaining_seconds now last_activity_dt ttl) (ttyd_enabled info))
  end.

(** [n] counts the readings of the clock so far: [datetime.now()] is
    read once for every persistent record. *)
Fixpoint list_sessions_loop (env : Env) (n : nat)
    (tracked : list (string * SessionInfo)) : M (list SessionEntry.t) :=
  match tracked with
  | [] => ret []
  | (container_id, info) :: tracked' =>
      if persistent info then
        let! e := session_entry (clock env n) container_id info in
        let! sessions := list_sessions_loop env (S n) tracked' in
        ret (e :: sessions)
      else list_sessions_loop env n tracked'
  end.

Definition list_sessions (env : Env) : M (list SessionEntry.t) :=
  let! tracked := get_tracked_containers in
  list_sessions_loop env 0 tracked.

Definition get_session (env : Env) (sid : string) : M SessionEntry.t :=
  let! tracked := get_tracked_containers in
  match find_session sid tracked with
  | Some (container_id, info) => session_entry (clock env 0) container_id info
  | None => raise (HTTPException 404 SessionNotFound)
  end.

Definition extend_session (env : Env) (sid : string)
    (request : SessionExtendRequest.t) : M ExtendResponse.t :=
  let! w := get_world in
  match find_session sid (active_containers w) with
  | Some (container_id, info) =>
      let info := set_last_activity (clock env 0) info in
      let new_ttl :=
        Z.min (ttl_of info + SessionExtendRequest.extend_seconds request)
          MAX_SESSION_TTL in
      let info := set_ttl_seconds new_ttl info in
      modify (set_active_containers
                (dict_set container_id info (active_containers w))) ;;
      ret (ExtendResponse.mk sid
             (SessionExtendRequest.extend_seconds request) new_ttl)
  | None => raise (HTTPException 404 SessionNotFound)
  end.

Definition close_session (env : Env) (sid : string) : M CloseResponse.t :=
  let! docker_client := get_docker_client env in
  let! tracked := get_tracked_containers in
  match find_session sid tracked with
  | Some (container_id, _) =>
      (if docker_client : bool then
         try_except (docker_get_stop_remove env container_id) (fun _ => ret tt)
       else ret tt) ;;
      untrack_container container_id ;;
      ret (CloseResponse.mk sid container_id "closed")
  | None => raise (HTTPException 404 SessionNotFound)
  end.

(** ** The reachable worlds *)

(** One step of the system: a handler serves a request, the background
    task wakes up, or the environment changes the engine's containers or
    the registry file. *)
Inductive step : World -> World -> Prop :=
| step_start cpu env req w : step w (snd (container_start cpu env req w))
| step_exec env req w : step w (snd (container_exec env req w))
| step_stop env cid w : step w (snd (container_stop env cid w))
| step_status env w : step w (snd (container_status env w))
| step_cleanup env w : step w (snd (container_cleanup env w))
| step_list_sessions env w : step w (snd (list_sessions env w))
| step_get_session env sid w : step w (snd (get_session env sid w))
| step_extend env sid req w : step w (snd (extend_session env sid req w))
| step_close env sid w : step w (snd (close_session env sid w))
| step_health env w : step w (snd (health env w))
| step_reaper env w : step w (snd (reaper_tick env w))
| step_engine g w : step w (set_engine g w)
| step_registry r w : step w (set_registry_file r w).

Inductive reachable : World -> Prop :=
| reachable_initial r g : reachable (initial_world r g)
| reachable_step w w' : reachable w -> step w w' -> reachable w'.

(** ** Invariants of the table and the engine client *)

(** A client is cached and was not marked unavailable. *)
Definition docker_ok (w : World) : Prop :=
  _docker_client w = true /\ _docker_available w <> Some false.

(** A record has the keys [track_container] fills in. *)
Definition record_ok (i : SessionInfo) : Prop :=
  is_Some (last_activity i) /\ is_Some (session_id i) /\
  is_Some (started_at i).

Definition table_ok (t : list (string * SessionInfo)) : Prop :=
  NoDup (map fst t) /\ (forall k i, (k, i) ∈ t -> record_ok i).

Definition wf (w : World) : Prop :=
  table_ok (active_containers w) /\
  (active_containers w <> [] -> docker_ok w).

(** ** A program logic for [M] *)

Definition triple {A} (P : World -> Prop) (m : M A)
    (Q : A -> World -> Prop) (E : Exc -> World -> Prop) : Prop :=
  forall w, P w ->
    match m w with
    | (Ret a, w') => Q a w'
    | (Raise e, w') => E e w'
    end.

(** [m] keeps [I], however it ends. *)
Definition keeps {A} (I : World -> Prop) (m : M A) : Prop :=
  triple I m (fun _ => I) (fun _ => I).

(** [wf] together with a usable engine client: what holds from the moment
    [get_docker_client] has returned a client. *)
Definition wfd (w : World) : Prop := wf w /\ docker_ok w.

(** An invariant that does not look at the engine or at the call log; it
    is kept by every call to the engine. *)
Definition engine_blind (I : World -> Prop) : Prop :=
  (forall w c, I w -> I (log_call c w)) /\
  (forall w g, I w -> I (set_engine g w)).

(** The assertion that holds of every world. *)
Definition any : World -> Prop := fun _ => True.

(** The four statuses a stop can answer. *)
Definition stop_status (s : string) : Prop :=
  s = "stopped" \/ s = "already_stopped" \/ s = "error_but_cleaned" \/
  s = "no_docker".

(** ** Concrete environments and worlds for the examples *)

(** An engine that never fails: every call succeeds, [run] hands out the
    container [0123456789abcdef], the executed code prints [4]. *)
Definition quiet_env : Env :=
  {| clock := fun _ => 1000000;
     uuid4 := "6f1c2e0a-0000-4000-8000-000000000001";
     from_env_fault := None; ping_fault := None; build_fault := None;
     run_result := inr "0123456789abcdef";
     get_fault := fun _ => None;
     stop_fault := fun _ => None;
     remove_fault := fun _ => None;
     ttyd_exec_fault := None; reload_fault := None; port_info := None;
     put_archive_fault := None;
     exec_run_result :=
       inr {| exit_code := 0; output := (Some (utf8 "4"), None) |} |}.

(** [quiet_env] read at time [t]. *)
Definition env_at (t : Z) : Env :=
  {| clock := fun _ => t;
     uuid4 := uuid4 quiet_env;
     from_env_fault := None; ping_fault := None; build_fault := None;
     run_result := run_result quiet_env;
     get_fault := fun _ => None;
     stop_fault := fun _ => None;
     remove_fault := fun _ => None;
     ttyd_exec_fault := None; reload_fault := None; port_info := None;
     put_archive_fault := None;
     exec_run_result := exec_run_result quiet_env |}.

(** An engine whose [stop] raises an API error. *)
Definition stop_fails_env : Env :=
  {| clock := clock quiet_env;
     uuid4 := uuid4 quiet_env;
     from_env_fault := None; ping_fault := None; build_fault := None;
     run_result := run_result quiet_env;
     get_fault := fun _ => None;
     stop_fault := fun _ => Some APIError;
     remove_fault := fun _ => None;
     ttyd_exec_fault := None; reload_fault := None; port_info := None;
     put_archive_fault := None;
     exec_run_result := exec_run_result quiet_env |}.

(** An engine that cannot be reached. *)
Definition no_docker_env : Env :=
  {| clock := clock quiet_env;
     uuid4 := uuid4 quiet_env;
     from_env_fault := Some (OtherError "DockerException");
     ping_fault := None; build_fault := None;
     run_result := run_result quiet_env;
     get_fault := fun _ => None;
     stop_fault := fun _ => None;
     remove_fault := fun _ => None;
     ttyd_exec_fault := None; reload_fault := None; port_info := None;
     put_archive_fault := None;
     exec_run_result := exec_run_result quiet_env |}.

Definition python_sandbox : Config :=
  {| description := Some "Python sandbox";
     image := Some "jarvis-python-sandbox:latest";
     build_context := None;
     security := {| network_mode := Some "none"; read_only := false;
                    needs_confirm := false |};
     resources := {| memory := Some "512m"; cpus := None |} |}.

(** A registry with the one profile ["python-sandbox"]. *)
Definition sample_registry : Registry :=
  {| containers := Some (mapping {[ "python-sandbox" := python_sandbox ]}) |}.

(** A fresh process with that registry and an engine without containers. *)
Definition fresh_world : World :=
  initial_world (Some (mapping sample_registry)) ∅.

(** Whether [b.decode()] returns, and what [b.decode() if b else ""] is
    then. *)
Definition decodable (b : option Bytes) : bool :=
  match b with Some not_utf8 => false | _ => true end.

Definition text_of (b : option Bytes) : string :=
  match b with Some (utf8 text) => text | _ => "" end.

(** How building the result dict from an [exec_run] result ends. *)
Definition execution_outcome (r : ExecRunResult) : outcome ExecutionResult.t :=
  if decodable (fst (output r)) && decodable (snd (output r))
  then Ret (ExecutionResult.mk (exit_code r)
              (truncate_output (text_of (fst (output r))))
              (truncate_output (text_of (snd (output r)))))
  else Raise (OtherError "UnicodeDecodeError").

(** A fresh process whose registry file is empty: [yaml.safe_load]
    returns [None]. *)
Definition empty_registry_world : World := initial_world (Some not_a_mapping) ∅.

(** A fresh process whose engine already runs a container the manager
    never started. *)
Definition foreign_world : World :=
  initial_world (Some (mapping sample_registry))
    {[ "feedfacecafe" := running ]}.

(** No [cpus] value is read in the examples. *)
Definition no_cpu_quota : string -> option Z := fun _ => None.

(** The calls a stop makes for a container the engine has in state [st]. *)
Definition stop_calls (cid : string) (st : Status) : list EngineCall :=
  match st with
  | exited | dead => [CallGet cid; CallRemove cid]
  | _ => [CallGet cid; CallStop cid 5; CallRemove cid]
  end.

(** Whether the registry file holds mappings where the code calls
    [.get]: [get_container_config] raises otherwise. *)
Definition registry_ok (w : World) : bool :=
  match registry_file w with
  | Some (mapping r) =>
      match containers r with
      | Some not_a_mapping => false
      | _ => true
      end
  | Some not_a_mapping => false
  | None => true
  end.

(** The catalog the registry file holds; an unreadable file is the empty
    catalog, and so is, here, a file that is not well-formed. *)
Definition registry_profiles (w : World) : gmap string Config :=
  match registry_file w with
  | Some (mapping r) =>
      match containers r with
      | Some (mapping m) => m
      | _ => ∅
      end
  | _ => ∅
  end.

(** The handler of the [try] of [container_start]. *)
Definition start_handler (e : Exc) : M StartResponse.t :=
  if is_ImageNotFound e
  then raise (HTTPException 404 ImageNotFoundDetail)
  else raise (HTTPException 500 StartFailed).

(** The TTL [container_start] stores for a requested value. *)
Definition stored_ttl (request : ContainerStartRequest.t) : Z :=
  Z.min (py_or (ContainerStartRequest.ttl_seconds request) DEFAULT_SESSION_TTL)
    MAX_SESSION_TTL.

(** The record [track_container] stores for [info]. *)
Definition tracked_info (env : Env) (info : SessionInfo) : SessionInfo :=
  let info :=
    match session_id info with
    | None => set_session_id (uuid4 env) info
    | Some _ => info
    end in
  let info :=
    match started_at info with
    | None => set_started_at (clock env 0) info
    | Some _ => info
    end in
  match last_activity info with
  | None => set_last_activity (clock env 1) info
  | Some _ => info
  end.

(** A persistent start of the sample profile with the given TTL. *)
Definition request_ttl (ttl : option Z) : ContainerStartRequest.t :=
  ContainerStartRequest.mk "python-sandbox" None None (Some 60) true ttl false.

(** A one-shot start that carries code. *)
Definition code_request : ContainerStartRequest.t :=
  ContainerStartRequest.mk "python-sandbox" (Some "print(2+2)") None (Some 60)
    false (Some 300) false.

(** The world after [update_container_activity] on a tracked record. *)
Definition touched (env : Env) (cid : string) (info : SessionInfo) (w : World)
  : World :=
  set_active_containers
    (dict_set cid (set_last_activity (clock env 0) info) (active_containers w)) w.

(** The world after a persistent start of the sample profile with a TTL
    of 120 s, at time 1 s. *)
Definition persistent_world : World :=
  snd (serve (container_start no_cpu_quota quiet_env (request_ttl (Some 120)))
         fresh_world).

Definition echo_request : ContainerExecRequest.t :=
  ContainerExecRequest.mk "0123456789ab" "echo hi" (Some 30).

(** The record [extend_session] writes back. *)
Definition extended (env : Env) (delta : Z) (info : SessionInfo) : SessionInfo :=
  set_ttl_seconds (Z.min (ttl_of info + delta) MAX_SESSION_TTL)
    (set_last_activity (clock env 0) info).

(** An extension of the session of [persistent_world]. *)
Definition extend_request (delta : Z) : SessionExtendRequest.t :=
  SessionExtendRequest.mk "6f1c2e0a-0000-4000-8000-000000000001" delta.

(** A record the reaper evicts at time [now], if its loop gets to it. *)
Definition record_expired (now : Z) (info : SessionInfo) : bool :=
  persistent info &&
  match last_activity_of info with
  | Some la =>
      match expires_at la (ttl_of info) with
      | Some _ => expired now la (ttl_of info)
      | None => false
      end
  | None => false
  end.

(** A record at which the loop of the reaper raises: a persistent record
    without a last activity, or whose [expires_at] cannot be computed. *)
Definition record_aborts (info : SessionInfo) : bool :=
  persistent info &&
  match last_activity_of info with
  | Some la =>
      match expires_at la (ttl_of info) with
      | Some _ => false
      | None => true
      end
  | None => true
  end.

(** Whether the snapshot [l] makes the reaper evict the key [k]: the loop
    runs over [l] in order and ends at the first record at which it
    raises. *)
Fixpoint reaped (now : Z) (l : list (string * SessionInfo)) (k : string)
  : bool :=
  match l with
  | [] => false
  | (k0, i0) :: l' =>
      if record_aborts i0 then false
      else (String.eqb k k0 && record_expired now i0) || reaped now l' k
  end.

(** The session of [persistent_world] after an extension by minus
    10^14 seconds: its TTL is 120 - 10^14 s. *)
Definition stuck_world : World :=
  snd (serve (extend_session quiet_env (uuid4 quiet_env)
                (extend_request (-100000000000000))) persistent_world).

(** The streams of an execution result are within [MAX_OUTPUT_LENGTH]. *)
Definition output_bounded (r : ExecutionResult.t) : Prop :=
  (String.length (ExecutionResult.stdout r) <= Z.to_nat MAX_OUTPUT_LENGTH)%nat /\
  (String.length (ExecutionResult.stderr r) <= Z.to_nat MAX_OUTPUT_LENGTH)%nat.

(** An engine whose [containers.run] cannot find the image. *)
Definition image_missing_env : Env :=
  {| clock := clock quiet_env;
     uuid4 := uuid4 quiet_env;
     from_env_fault := None; ping_fault := None; build_fault := None;
     run_result := inl ImageNotFound;
     get_fault := fun _ => None;
     stop_fault := fun _ => None;
     remove_fault := fun _ => None;
     ttyd_exec_fault := None; reload_fault := None; port_info := None;
     put_archive_fault := None;
     exec_run_result := exec_run_result quiet_env |}.

(** The TTL of a record is set and at most [MAX_SESSION_TTL]. *)
Definition ttl_bounded (i : SessionInfo) : Prop :=
  exists t, ttl_seconds i = Some t /\ t <= MAX_SESSION_TTL.

Definition ttl_ok (w : World) : Prop :=
  forall k i, (k, i) ∈ active_containers w -> ttl_bounded i.

(** What a reported session entry satisfies for the record it was built
    from. *)
Definition entry_of (e : SessionEntry.t) (cid : string) (info : SessionInfo)
  : Prop :=
  SessionEntry.container_id e = cid /\
  SessionEntry.session_id e = session_id info /\
  SessionEntry.last_activity e = last_activity info /\
  SessionEntry.ttl_seconds e = ttl_of info /\
  0 <= SessionEntry.remaining_seconds e <= Z.max 0 (ttl_of info).

(** Whether the engine has a container under the id. *)
Definition engine_has (w : World) (container_id : string) : bool :=
  match engine w !! container_id with Some _ => true | None => false end.

(** A record as [container_start] builds it, before it is tracked. *)
Definition sample_info : SessionInfo :=
  {| name := "python-sandbox"; config := python_sandbox; persistent := true;
     ttl_seconds := Some 120; session_id := None; started_at := None;
     last_activity := None; ttyd_port := None; ttyd_enabled := false;
     ttyd_url := None |}.

(** The calls made since [w0] include a [containers.run] with the options
    [o]. *)
Definition ran_since (w0 : World) (o : ContainerOptions) (w : World) : Prop :=
  exists l1 l2, calls w = (calls w0 ++ l1 ++ CallRun o :: l2)%list.

(** The call log of [w] extends that of [w0]. *)
Definition calls_since (w0 w : World) : Prop :=
  exists l, calls w = (calls w0 ++ l)%list.

(** The engine's entry for the container [k] is [g]. *)
Definition engine_at (k : string) (g : option Status) (w : World) : Prop :=
  engine w !! k = g.

(** The environment [env] with the outcome of [images.build] replaced. *)
Definition with_build_fault (e : option Exc) (env : Env) : Env :=
  {| clock := clock env; uuid4 := uuid4 env;
     from_env_fault := from_env_fault env; ping_fault := ping_fault env;
     build_fault := e;
     run_result := run_result env; get_fault := get_fault env;
     stop_fault := stop_fault env; remove_fault := remove_fault env;
     ttyd_exec_fault := ttyd_exec_fault env; reload_fault := reload_fault env;
     port_info := port_info env; put_archive_fault := put_archive_fault env;
     exec_run_result := exec_run_result env |}.

(** * Properties *)

(** ** Dicts *)

Section DictFacts.
Context {V : Type}.
Implicit Types (d : list (string * V)) (k : string) (v : V).

Lemma dict_get_set_eq k v d : dict_get k (dict_set k v d) = Some v.
Proof.
  induction d as [|[k' v'] d IH]; simpl.
  - by rewrite String.eqb_refl.
  - destruct (String.eqb k k') eqn:E; simpl; rewrite E; auto.
Qed.

Lemma dict_get_set_ne k k' v d :
  k <> k' -> dict_get k' (dict_set k v d) = dict_get k' d.
Proof.
  intros Hne. induction d as [|[k0 v0] d IH]; simpl.
  - destruct (String.eqb_spec k' k); congruence.
  - destruct (String.eqb_spec k k0) as [->|]; simpl.
    + destruct (String.eqb_spec k' k0); congruence.
    + destruct (String.eqb_spec k' k0); auto.
Qed.

Lemma dict_get_del_eq k d : dict_get k (dict_del k d) = None.
Proof.
  induction d as [|[k0 v0] d IH]; simpl; auto.
  destruct (String.eqb k k0) eqn:E; simpl; auto. by rewrite E.
Qed.

Lemma dict_get_del_ne k k' d :
  k <> k' -> dict_get k' (dict_del k d) = dict_get k' d.
Proof.
  intros Hne. induction d as [|[k0 v0] d IH]; simpl; auto.
  destruct (String.eqb_spec k k0) as [->|]; simpl.
  - destruct (String.eqb_spec k' k0); congruence.
  - destruct (String.eqb_spec k' k0); auto.
Qed.

Lemma dict_in_del_eq k d : dict_in k (dict_del k d) = false.
Proof. unfold dict_in. by rewrite dict_get_del_eq. Qed.

Lemma dict_in_del k k' d :
  dict_in k' d = false -> dict_in k' (dict_del k d) = false.
Proof.
  unfold dict_in. intros H. destruct (String.eqb_spec k k') as [->|Hne].
  - by rewrite dict_get_del_eq.
  - by rewrite dict_get_del_ne.
Qed.

Lemma dict_get_elem k v d : dict_get k d = Some v -> (k, v) ∈ d.
Proof.
  induction d as [|[k0 v0] d IH]; simpl; [done|].
  destruct (String.eqb_spec k k0) as [->|]; intros H.
  - apply elem_of_cons. left. congruence.
  - apply elem_of_cons. right. auto.
Qed.

Lemma elem_keys k v d : (k, v) ∈ d -> k ∈ map fst d.
Proof.
  induction d as [|[k0 v0] d IH]; simpl.
  - intros H. by apply elem_of_nil in H.
  - intros H. apply elem_of_cons in H as [H|H]; apply elem_of_cons.
    + left. congruence.
    + right. auto.
Qed.

Lemma dict_get_None_keys k d : dict_get k d = None -> k ∉ map fst d.
Proof.
  induction d as [|[k0 v0] d IH]; simpl.
  - intros _ H. by apply elem_of_nil in H.
  - destruct (String.eqb_spec k k0) as [->|]; [done|].
    intros H Hin. apply elem_of_cons in Hin as [?|?]; [congruence|].
    by apply IH.
Qed.

Lemma elem_dict_get k v d :
  NoDup (map fst d) -> (k, v) ∈ d -> dict_get k d = Some v.
Proof.
  induction d as [|[k0 v0] d IH]; simpl.
  - intros _ H. by apply elem_of_nil in H.
  - intros Hnd Hin. apply NoDup_cons in Hnd as [Hk0 Hnd].
    apply elem_of_cons in Hin as [Heq|Hin].
    + inversion Heq; subst. by rewrite String.eqb_refl.
    + destruct (String.eqb_spec k k0) as [->|]; [|auto].
      exfalso. apply Hk0. eapply elem_keys; eauto.
Qed.

Lemma elem_dict_set k v k' v' d :
  (k', v') ∈ dict_set k v d -> (k', v') = (k, v) \/ (k', v') ∈ d.
Proof.
  induction d as [|[k0 v0] d IH]; simpl.
  - intros H. apply elem_of_cons in H as [H|H]; auto.
  - destruct (String.eqb_spec k k0) as [->|]; simpl; intros H;
      apply elem_of_cons in H as [H|H]; rewrite elem_of_cons; auto.
    destruct (IH H); auto.
Qed.

Lemma elem_dict_del k k' v' d : (k', v') ∈ dict_del k d -> (k', v') ∈ d.
Proof.
  induction d as [|[k0 v0] d IH]; simpl; [done|].
  destruct (String.eqb k k0); simpl; intros H; rewrite elem_of_cons; [auto|].
  apply elem_of_cons in H as [H|H]; auto.
Qed.

Lemma keys_dict_set k v d :
  map fst (dict_set k v d) =
  if dict_in k d then map fst d else (map fst d ++ [k])%list.
Proof.
  unfold dict_in. induction d as [|[k0 v0] d IH]; simpl; [done|].
  destruct (String.eqb_spec k k0) as [->|]; simpl; [done|].
  rewrite IH. by destruct (dict_get k d).
Qed.

Lemma elem_keys_dict_del k k' d :
  k' ∈ map fst (dict_del k d) -> k' ∈ map fst d.
Proof.
  induction d as [|[k0 v0] d IH]; simpl; [done|].
  destruct (String.eqb k k0); simpl; intros H; rewrite elem_of_cons; [auto|].
  apply elem_of_cons in H as [H|H]; auto.
Qed.

Lemma NoDup_dict_del k d : NoDup (map fst d) -> NoDup (map fst (dict_del k d)).
Proof.
  induction d as [|[k0 v0] d IH]; simpl; [done|].
  intros Hnd. apply NoDup_cons in Hnd as [Hk0 Hnd].
  destruct (String.eqb k k0); simpl; [auto|].
  apply NoDup_cons. split; [|auto].
  intros Hin. apply Hk0. eapply elem_keys_dict_del; eauto.
Qed.

Lemma NoDup_dict_set k v d : NoDup (map fst d) -> NoDup (map fst (dict_set k v d)).
Proof.
  intros Hnd. rewrite keys_dict_set. unfold dict_in.
  destruct (dict_get k d) eqn:E; [done|].
  apply NoDup_app. split; [done|]. split.
  - intros x Hx Hx'. apply dict_get_None_keys in E.
    apply elem_of_cons in Hx' as [->|Hx']; [done|].
    by apply elem_of_nil in Hx'.
  - apply NoDup_singleton.
Qed.
End DictFacts.

(** ** Rules of the program logic *)

Section Logic.
Context {A B : Type}.

Lemma triple_ret (P : World -> Prop) (a : A) Q E :
  (forall w, P w -> Q a w) -> triple P (ret a) Q E.
Proof. intros H w Hw. simpl. auto. Qed.

Lemma triple_raise (P : World -> Prop) (e : Exc) (Q : A -> World -> Prop) E :
  (forall w, P w -> E e w) -> triple P (raise e) Q E.
Proof. intros H w Hw. simpl. auto. Qed.

Lemma triple_bind P (m : M A) (k : A -> M B) R Q E :
  triple P m R E -> (forall a, triple (R a) (k a) Q E) ->
  triple P (bind m k) Q E.
Proof.
  intros Hm Hk w Hw. unfold bind. specialize (Hm w Hw).
  destruct (m w) as [[a|e] w']; [|done]. by apply Hk.
Qed.

Lemma triple_try P (m : M A) (h : Exc -> M A) Q R E :
  triple P m Q R -> (forall e, triple (R e) (h e) Q E) ->
  triple P (try_except m h) Q E.
Proof.
  intros Hm Hh w Hw. unfold try_except. specialize (Hm w Hw).
  destruct (m w) as [[a|e] w']; [done|]. by apply Hh.
Qed.

Lemma triple_conseq (P P' : World -> Prop) (m : M A)
    (Q Q' : A -> World -> Prop) (E E' : Exc -> World -> Prop) :
  triple P' m Q' E' ->
  (forall w, P w -> P' w) -> (forall a w, Q' a w -> Q a w) ->
  (forall e w, E' e w -> E e w) ->
  triple P m Q E.
Proof.
  intros Hm HP HQ HE w Hw. specialize (Hm w (HP w Hw)).
  destruct (m w) as [[a|e] w']; auto.
Qed.

Lemma keeps_ret I (a : A) : keeps I (ret a).
Proof. by apply triple_ret. Qed.

Lemma keeps_raise I e : keeps I (raise (A:=A) e).
Proof. by apply triple_raise. Qed.

Lemma keeps_bind I (m : M A) (k : A -> M B) :
  keeps I m -> (forall a, keeps I (k a)) -> keeps I (bind m k).
Proof. intros Hm Hk. eapply triple_bind; [exact Hm|exact Hk]. Qed.

Lemma keeps_try I (m : M A) (h : Exc -> M A) :
  keeps I m -> (forall e, keeps I (h e)) -> keeps I (try_except m h).
Proof. intros Hm Hh. eapply triple_try; [exact Hm|exact Hh]. Qed.

End Logic.

Lemma keeps_for_each {A} I (xs : list A) (body : A -> M unit) :
  (forall x, keeps I (body x)) -> keeps I (for_each xs body).
Proof.
  intros Hb. induction xs as [|x xs IH]; simpl.
  - apply keeps_ret.
  - apply keeps_bind; [apply Hb|]. intros _. apply IH.
Qed.

Lemma keeps_get_world I : keeps I get_world.
Proof. intros w Hw. simpl. auto. Qed.

Lemma keeps_modify (I : World -> Prop) f :
  (forall w, I w -> I (f w)) -> keeps I (modify f).
Proof. intros H w Hw. simpl. auto. Qed.

Section EngineBlind.
Variable I : World -> Prop.
Hypothesis HI : engine_blind I.

Lemma keeps_engine_call c f : keeps I (engine_call c f).
Proof.
  destruct HI as [Hl _]. intros w Hw. unfold engine_call.
  destruct f; simpl; auto.
Qed.

Lemma keeps_docker_containers_get env cid :
  keeps I (docker_containers_get env cid).
Proof.
  unfold docker_containers_get.
  apply keeps_bind; [apply keeps_engine_call|]. intros _.
  apply keeps_bind; [apply keeps_get_world|]. intros w.
  destruct (engine w !! cid); [apply keeps_ret|apply keeps_raise].
Qed.

Lemma keeps_docker_stop env cid t : keeps I (docker_stop env cid t).
Proof.
  destruct HI as [_ Hg]. unfold docker_stop.
  apply keeps_bind; [apply keeps_engine_call|]. intros _.
  apply keeps_bind; [apply keeps_get_world|]. intros w.
  destruct (engine w !! cid); [|apply keeps_raise].
  apply keeps_modify. auto.
Qed.

Lemma keeps_docker_remove env cid : keeps I (docker_remove env cid).
Proof.
  destruct HI as [_ Hg]. unfold docker_remove.
  apply keeps_bind; [apply keeps_engine_call|]. intros _.
  apply keeps_bind; [apply keeps_get_world|]. intros w.
  destruct (engine w !! cid); [|apply keeps_raise].
  apply keeps_modify. auto.
Qed.

Lemma keeps_docker_get_stop_remove env cid :
  keeps I (docker_get_stop_remove env cid).
Proof.
  unfold docker_get_stop_remove.
  apply keeps_bind; [apply keeps_docker_containers_get|]. intros _.
  apply keeps_bind; [apply keeps_docker_stop|]. intros _.
  apply keeps_docker_remove.
Qed.

Lemma keeps_docker_run env options : keeps I (docker_run env options).
Proof.
  destruct HI as [Hl Hg]. intros w Hw. unfold docker_run.
  destruct (run_result env); simpl; auto.
Qed.

Lemma keeps_docker_exec_run env cid cmd : keeps I (docker_exec_run env cid cmd).
Proof.
  destruct HI as [Hl Hg]. intros w Hw. unfold docker_exec_run.
  destruct (exec_run_result env); simpl; auto.
Qed.
End EngineBlind.

(** ** The table invariant is kept by every step *)

Lemma wf_engine_blind : engine_blind wf.
Proof. split; intros w x Hw; exact Hw. Qed.

Lemma wfd_engine_blind : engine_blind wfd.
Proof. split; intros w x Hw; exact Hw. Qed.

Lemma table_ok_del k t : table_ok t -> table_ok (dict_del k t).
Proof.
  intros [Hnd Hrec]. split; [by apply NoDup_dict_del|].
  intros k' i Hin. eapply Hrec, elem_dict_del, Hin.
Qed.

Lemma table_ok_set k i t : table_ok t -> record_ok i -> table_ok (dict_set k i t).
Proof.
  intros [Hnd Hrec] Hi. split; [by apply NoDup_dict_set|].
  intros k' i' Hin. apply elem_dict_set in Hin as [Heq|Hin]; [|eauto].
  by inversion Heq; subst.
Qed.

Lemma dict_set_nonempty {V} k (v : V) d : dict_set k v d <> [].
Proof. destruct d as [|[k0 v0] d]; simpl; [done|]. by destruct (String.eqb k k0). Qed.

Lemma dict_del_nonempty {V} k (d : list (string * V)) : dict_del k d <> [] -> d <> [].
Proof. by destruct d. Qed.

Lemma get_docker_client_spec env E :
  triple wf (get_docker_client env)
    (fun b w => wf w /\ (b = true -> docker_ok w)) E.
Proof.
  intros w Hw. pose proof Hw as [Ht Hd]. unfold get_docker_client.
  destruct (active_containers w) as [|p t] eqn:Et.
  - destruct (_docker_available w) as [[|]|] eqn:Ea;
      destruct (_docker_client w) eqn:Ec; simpl;
      try destruct (from_env_fault env); simpl;
      try destruct (ping_fault env); simpl;
      (split;
       [ split; simpl; rewrite ?Et; [exact Ht|done]
       | unfold docker_ok; simpl; rewrite ?Ec, ?Ea; try done;
         intros; split; congruence ]).
  - destruct Hd as [Hc Ha]; [done|]. rewrite Hc.
    destruct (_docker_available w) as [[|]|] eqn:Ea; simpl; try done;
      (split; [exact Hw | unfold docker_ok; rewrite Hc, Ea; done]).
Qed.

Lemma keeps_wf_get_docker_client env : keeps wf (get_docker_client env).
Proof.
  eapply triple_conseq;
    [apply (get_docker_client_spec env (fun _ => wf))|..]; simpl; tauto.
Qed.

Lemma keeps_wfd_get_docker_client env : keeps wfd (get_docker_client env).
Proof.
  intros w [Hw [Hc Ha]]. unfold get_docker_client. rewrite Hc.
  destruct (_docker_available w) as [[|]|] eqn:Ea; simpl; try done;
    split; try done; split; congruence.
Qed.

Lemma keeps_wf_untrack k : keeps wf (untrack_container k).
Proof.
  intros w [Ht Hd]. unfold untrack_container, bind, get_world, modify, ret.
  destruct (dict_in k (active_containers w)); simpl; [|by split].
  split; simpl; [by apply table_ok_del|].
  intros Hne. apply Hd. eapply dict_del_nonempty, Hne.
Qed.

Lemma keeps_wfd_untrack k : keeps wfd (untrack_container k).
Proof.
  intros w [Hw Hd]. pose proof (keeps_wf_untrack k w Hw) as H.
  unfold untrack_container, bind, get_world, modify, ret in *.
  destruct (dict_in k (active_containers w)); simpl in *; by split.
Qed.

Lemma record_ok_set_last_activity t i : record_ok i -> record_ok (set_last_activity t i).
Proof. intros (H1 & H2 & H3). repeat split; simpl; eauto. Qed.

Lemma record_ok_set_ttl_seconds t i : record_ok i -> record_ok (set_ttl_seconds t i).
Proof. intros (H1 & H2 & H3). repeat split; simpl; eauto. Qed.

Lemma keeps_wf_update_container_activity env k :
  keeps wf (update_container_activity env k).
Proof.
  intros w [Ht Hd].
  unfold update_container_activity, bind, get_world, modify, ret.
  destruct (dict_get k (active_containers w)) as [info|] eqn:E; simpl; [|by split].
  split; simpl.
  - apply table_ok_set; [done|]. apply record_ok_set_last_activity.
    destruct Ht as [_ Hrec]. eapply Hrec, dict_get_elem, E.
  - intros _. apply Hd. intros Hnil. by rewrite Hnil in E.
Qed.

Lemma keeps_wfd_track_container env k info :
  keeps wfd (track_container env k info).
Proof.
  intros w [[Ht Hd] Hok]. unfold track_container, modify. simpl.
  split; [split|]; simpl; try done.
  apply table_ok_set; [done|].
  destruct info as [n c p ttl sid st la tp te tu]; simpl in *.
  destruct sid, st, la; repeat split; simpl; eauto.
Qed.

(** Reading the world changes nothing. *)
Lemma keeps_reader {A} I (m : M A) : (forall w, snd (m w) = w) -> keeps I m.
Proof.
  intros H w Hw. specialize (H w). destruct (m w) as [[a|e] w']; simpl in *; by subst.
Qed.

Lemma get_container_session_reads k w : snd (get_container_session k w) = w.
Proof. reflexivity. Qed.

Lemma is_container_tracked_reads k w : snd (is_container_tracked k w) = w.
Proof. reflexivity. Qed.

Lemma get_tracked_containers_reads w : snd (get_tracked_containers w) = w.
Proof. reflexivity. Qed.

(** What the registry gate computes: the profile under the name, or
    [AttributeError] when the registry file is not well-formed. *)
Lemma get_container_config_eq name w :
  get_container_config name w =
  (if registry_ok w then Ret (registry_profiles w !! name)
   else Raise (OtherError "AttributeError"), w).
Proof.
  unfold get_container_config, load_registry, bind, get_world, ret, raise,
    registry_profiles, registry_ok.
  destruct (registry_file w) as [[[[[m|]|]]|]|]; simpl; try reflexivity.
Qed.

Lemma is_container_allowed_eq name w :
  is_container_allowed name w =
  (if registry_ok w
   then Ret (match registry_profiles w !! name with
             | Some _ => true | None => false end)
   else Raise (OtherError "AttributeError"), w).
Proof.
  unfold is_container_allowed, bind, ret.
  rewrite get_container_config_eq. by destruct (registry_ok w).
Qed.

Lemma registry_profiles_ok w name c :
  registry_profiles w !! name = Some c -> registry_ok w = true.
Proof.
  unfold registry_profiles, registry_ok.
  by destruct (registry_file w) as [[[[[m|]|]]|]|].
Qed.

Lemma get_container_config_reads n w : snd (get_container_config n w) = w.
Proof. by rewrite get_container_config_eq. Qed.

Lemma is_container_allowed_reads n w : snd (is_container_allowed n w) = w.
Proof. by rewrite is_container_allowed_eq. Qed.

(** Decoding the streams does not touch the world. *)
Lemma execution_result_of_eq r w :
  execution_result_of r w = (execution_outcome r, w).
Proof.
  unfold execution_result_of, execution_outcome, decode_stream, bind, ret, raise.
  by destruct (output r) as [[[?|]|] [[?|]|]].
Qed.

Lemma execution_result_of_world r w : snd (execution_result_of r w) = w.
Proof. by rewrite execution_result_of_eq. Qed.

Create HintDb keeps.

#[export] Hint Resolve wf_engine_blind wfd_engine_blind : keeps.
#[export] Hint Resolve keeps_engine_call keeps_docker_containers_get
  keeps_docker_stop keeps_docker_remove keeps_docker_get_stop_remove
  keeps_docker_run keeps_docker_exec_run
  keeps_wf_get_docker_client keeps_wfd_get_docker_client
  keeps_wf_untrack keeps_wfd_untrack keeps_wf_update_container_activity
  keeps_wfd_track_container keeps_get_world : keeps.
#[export] Hint Extern 1 (keeps _ (ret _)) => apply keeps_ret : keeps.
#[export] Hint Extern 1 (keeps _ (raise _)) => apply keeps_raise : keeps.
#[export] Hint Extern 1 (keeps _ (get_container_session _)) =>
  apply keeps_reader, get_container_session_reads : keeps.
#[export] Hint Extern 1 (keeps _ (is_container_tracked _)) =>
  apply keeps_reader, is_container_tracked_reads : keeps.
#[export] Hint Extern 1 (keeps _ get_tracked_containers) =>
  apply keeps_reader, get_tracked_containers_reads : keeps.
#[export] Hint Extern 1 (keeps _ (get_container_config _)) =>
  apply keeps_reader, get_container_config_reads : keeps.
#[export] Hint Extern 1 (keeps _ (is_container_allowed _)) =>
  apply keeps_reader, is_container_allowed_reads : keeps.
#[export] Hint Extern 1 (keeps _ (execution_result_of _)) =>
  apply keeps_reader, execution_result_of_world : keeps.

(** Walks down a handler: binds, handlers, loops and branches. *)
Ltac keeps_walk :=
  repeat first
    [ solve [eauto 3 with keeps]
    | apply keeps_bind; [|intros ?]
    | apply keeps_try; [|intros ?]
    | apply keeps_for_each; intros [? ?]
    | match goal with
      | |- keeps _ (if ?b then _ else _) => destruct b
      | |- keeps _ (match ?x with _ => _ end) => destruct x
      end ].

Lemma keeps_snd {A} (I : World -> Prop) (m : M A) w :
  keeps I m -> I w -> I (snd (m w)).
Proof. intros H Hw. specialize (H w Hw). by destruct (m w) as [[a|e] w']. Qed.

Lemma wfd_wf w : wfd w -> wf w.
Proof. by intros [H _]. Qed.

Lemma keeps_wfd_wf {A} (m : M A) :
  keeps wfd m -> triple wfd m (fun _ => wf) (fun _ => wf).
Proof.
  intros H. eapply triple_conseq; [exact H|auto|..]; intros ? ?; apply wfd_wf.
Qed.

Lemma find_session_elem sid t cid info :
  find_session sid t = Some (cid, info) ->
  (cid, info) ∈ t /\ session_id info = Some sid.
Proof.
  induction t as [|[k i] t IH]; simpl; [done|].
  case_bool_decide as Hs.
  - intros [= -> ->]. split; [apply elem_of_cons; by left|done].
  - intros H. destruct (IH H) as [Hin ?]. split; [|done].
    apply elem_of_cons. by right.
Qed.

Lemma find_session_None sid t :
  find_session sid t = None <->
  forall cid info, (cid, info) ∈ t -> session_id info <> Some sid.
Proof.
  induction t as [|[k i] t IH]; simpl.
  - split; [|done]. intros _ cid info H. by apply elem_of_nil in H.
  - case_bool_decide as Hs.
    + split; [done|]. intros H. exfalso. eapply H; [|exact Hs].
      apply elem_of_cons. by left.
    + rewrite IH. split.
      * intros H cid info Hin. apply elem_of_cons in Hin as [[= -> ->]|Hin]; eauto.
      * intros H cid info Hin. eapply H. apply elem_of_cons. by right.
Qed.

Section HandlersKeepWf.
Variable cpu_quota_of : string -> option Z.

Lemma keeps_build_image_if_needed env n c :
  keeps wf (build_image_if_needed env n c).
Proof. unfold build_image_if_needed. keeps_walk. Qed.

Lemma keeps_container_options (I : World -> Prop) req c img :
  keeps I (container_options cpu_quota_of req c img).
Proof. unfold container_options. keeps_walk. Qed.

Lemma keeps_wfd_start_ttyd env cid : keeps wfd (start_ttyd env cid).
Proof. unfold start_ttyd. keeps_walk. Qed.

Lemma keeps_wfd_run_code env cid code : keeps wfd (run_code env cid code).
Proof. unfold run_code. keeps_walk. Qed.

Lemma keeps_container_start_try env req c o :
  keeps wf (container_start_try env req c o).
Proof.
  unfold container_start_try.
  eapply triple_bind; [apply get_docker_client_spec|]. intros b.
  destruct b; simpl.
  - eapply triple_conseq with (P' := wfd);
      [apply keeps_wfd_wf| |auto|auto].
    + pose proof keeps_wfd_start_ttyd. pose proof keeps_wfd_run_code.
      keeps_walk.
    + intros w [Hw Hd]. split; auto.
  - intros w [Hw _]. exact Hw.
Qed.

Lemma keeps_container_start env req :
  keeps wf (container_start cpu_quota_of env req).
Proof.
  pose proof keeps_build_image_if_needed.
  pose proof (keeps_container_options wf).
  pose proof keeps_container_start_try.
  unfold container_start. keeps_walk.
Qed.
End HandlersKeepWf.

Lemma keeps_container_exec env req : keeps wf (container_exec env req).
Proof.
  unfold container_exec, container_exec_try, container_exec_except.
  keeps_walk.
Qed.

Lemma keeps_container_stop env cid : keeps wf (container_stop env cid).
Proof. unfold container_stop. keeps_walk. Qed.

Lemma keeps_status_session (I : World -> Prop) now info :
  keeps I (status_session now info).
Proof. unfold status_session. keeps_walk. Qed.

Lemma keeps_container_status_loop env n tracked :
  keeps wf (container_status_loop env n tracked).
Proof.
  revert n. induction tracked as [|[cid info] tracked IH]; intros n; simpl.
  - apply keeps_ret.
  - pose proof (keeps_status_session wf). keeps_walk.
Qed.

Lemma keeps_container_status env : keeps wf (container_status env).
Proof.
  pose proof keeps_container_status_loop.
  unfold container_status. keeps_walk.
Qed.

Lemma keeps_container_cleanup_loop env ids :
  keeps wf (container_cleanup_loop env ids).
Proof.
  induction ids as [|cid ids IH]; simpl.
  - apply keeps_ret.
  - keeps_walk.
Qed.

Lemma keeps_container_cleanup env : keeps wf (container_cleanup env).
Proof.
  pose proof keeps_container_cleanup_loop.
  unfold container_cleanup.
  apply keeps_bind; [eauto with keeps|]. intros [|]; simpl; [keeps_walk|].
  apply keeps_bind; [eauto with keeps|]. intros w0.
  apply keeps_bind; [|intros; apply keeps_ret].
  apply keeps_modify. intros w _. split; simpl; [|done].
  split; [apply NoDup_nil_2|]. intros k i Hk. by apply elem_of_nil in Hk.
Qed.

Lemma keeps_session_entry (I : World -> Prop) now cid info :
  keeps I (session_entry now cid info).
Proof. unfold session_entry. keeps_walk. Qed.

Lemma keeps_list_sessions_loop (I : World -> Prop) env n tracked :
  keeps I (list_sessions_loop env n tracked).
Proof.
  revert n. induction tracked as [|[cid info] tracked IH]; intros n; simpl.
  - apply keeps_ret.
  - pose proof (keeps_session_entry I). keeps_walk.
Qed.

Lemma keeps_list_sessions env : keeps wf (list_sessions env).
Proof.
  pose proof (keeps_list_sessions_loop wf).
  unfold list_sessions. keeps_walk.
Qed.

Lemma keeps_get_session env sid : keeps wf (get_session env sid).
Proof.
  pose proof (keeps_session_entry wf).
  unfold get_session. keeps_walk.
Qed.

Lemma keeps_extend_session env sid req : keeps wf (extend_session env sid req).
Proof.
  intros w [Ht Hd]. unfold extend_session, bind, get_world, modify, ret, raise.
  destruct (find_session sid (active_containers w)) as [[cid info]|] eqn:E;
    simpl; [|by split].
  apply find_session_elem in E as [Hin _].
  split; simpl.
  - apply table_ok_set; [done|].
    apply record_ok_set_ttl_seconds, record_ok_set_last_activity.
    destruct Ht as [_ Hrec]. eauto.
  - intros _. apply Hd. intros Hnil. rewrite Hnil in Hin.
    by apply elem_of_nil in Hin.
Qed.

Lemma keeps_close_session env sid : keeps wf (close_session env sid).
Proof. unfold close_session. keeps_walk. Qed.

Lemma keeps_health env : keeps wf (health env).
Proof. unfold health. keeps_walk. Qed.

Lemma keeps_cleanup_expired_sessions env : keeps wf (cleanup_expired_sessions env).
Proof. unfold cleanup_expired_sessions, expire_session. keeps_walk. Qed.

Lemma keeps_reaper_tick env : keeps wf (reaper_tick env).
Proof.
  pose proof keeps_cleanup_expired_sessions.
  unfold reaper_tick. keeps_walk.
Qed.

Lemma wf_initial r g : wf (initial_world r g).
Proof.
  split; simpl; [|done].
  split; [apply NoDup_nil_2|]. intros k i H. by apply elem_of_nil in H.
Qed.

Lemma step_wf w w' : wf w -> step w w' -> wf w'.
Proof.
  intros Hw Hs. destruct Hs; try exact Hw; apply keeps_snd; try done.
  - apply keeps_container_start.
  - apply keeps_container_exec.
  - apply keeps_container_stop.
  - apply keeps_container_status.
  - apply keeps_container_cleanup.
  - apply keeps_list_sessions.
  - apply keeps_get_session.
  - apply keeps_extend_session.
  - apply keeps_close_session.
  - apply keeps_health.
  - apply keeps_reaper_tick.
Qed.

(** Every reachable world has a well-formed table, and a usable engine
    client whenever the table is not empty. *)
Lemma reachable_wf w : reachable w -> wf w.
Proof.
  induction 1 as [r g|w w' _ IH Hs]; [apply wf_initial|].
  eapply step_wf; eauto.
Qed.

(** ** More rules: postconditions that hold of every run *)

Lemma triple_any {A} P (m : M A) : triple P m (fun _ => any) (fun _ => any).
Proof. intros w _. by destruct (m w) as [[a|e] w']. Qed.

(** [dict_del] of an absent key changes nothing. *)
Lemma dict_del_absent {V} k (d : list (string * V)) :
  dict_in k d = false -> dict_del k d = d.
Proof.
  unfold dict_in. induction d as [|[k0 v0] d IH]; simpl; [done|].
  destruct (String.eqb k k0); [done|]. intros H. by rewrite IH.
Qed.

Lemma set_active_containers_id w : set_active_containers (active_containers w) w = w.
Proof. by destruct w. Qed.

Lemma untrack_container_eq k w :
  untrack_container k w =
  (Ret (dict_in k (active_containers w)),
   set_active_containers (dict_del k (active_containers w)) w).
Proof.
  unfold untrack_container, bind, get_world, modify, ret.
  destruct (dict_in k (active_containers w)) eqn:E; simpl; [done|].
  by rewrite dict_del_absent, set_active_containers_id.
Qed.

(** The last two statements of every branch of [container_stop]. *)
Lemma untrack_then_ret {A} P k (r : A) E :
  triple P (untrack_container k ;; ret r)
    (fun r' w' => r' = r /\ dict_in k (active_containers w') = false) E.
Proof.
  intros w _. unfold bind. rewrite untrack_container_eq. simpl.
  split; [done|apply dict_in_del_eq].
Qed.

(** [get_docker_client] never raises. *)
Lemma get_docker_client_returns env w :
  exists b w', get_docker_client env w = (Ret b, w').
Proof.
  unfold get_docker_client.
  destruct (_docker_available w) as [[|]|]; destruct (_docker_client w); simpl;
    try destruct (from_env_fault env); try destruct (ping_fault env); eauto.
Qed.

Lemma triple_get_docker_client env P E :
  triple P (get_docker_client env) (fun _ => any) E.
Proof.
  intros w _. destruct (get_docker_client_returns env w) as (b & w' & ->). done.
Qed.

Lemma container_stop_spec env cid E :
  triple any (container_stop env cid)
    (fun r w' => stop_status (StopResponse.status r) /\
                 StopResponse.container_id r = cid /\
                 dict_in cid (active_containers w') = false) E.
Proof.
  unfold container_stop.
  eapply triple_bind; [apply triple_get_docker_client|]. intros b.
  assert (Hend : forall (P : World -> Prop) st E', stop_status st ->
    triple P (untrack_container cid ;; ret (StopResponse.mk st cid))
      (fun r w' => stop_status (StopResponse.status r) /\
                   StopResponse.container_id r = cid /\
                   dict_in cid (active_containers w') = false) E').
  { intros P st E' Hst. eapply triple_conseq; [apply untrack_then_ret|..];
      simpl; eauto. intros r w' [Hr Hd]. rewrite Hr. by repeat split. }
  destruct b; simpl.
  - eapply triple_try with (R := fun _ => any).
    + eapply triple_bind; [apply triple_any|]. intros st.
      eapply triple_bind; [apply triple_any|]. intros ?.
      apply Hend. unfold stop_status. auto.
    + intros e. destruct (is_NotFound e); [|destruct (is_APIError e)];
        apply Hend; unfold stop_status; auto.
  - apply Hend. unfold stop_status. auto.
Qed.

Lemma get_docker_client_true env w w' :
  get_docker_client env w = (Ret true, w') -> docker_ok w'.
Proof.
  unfold get_docker_client, docker_ok.
  destruct (_docker_available w) as [[|]|] eqn:Ea;
    destruct (_docker_client w) eqn:Ec; simpl;
    try destruct (from_env_fault env); try destruct (ping_fault env);
    intros [= <-]; simpl; rewrite ?Ea, ?Ec; by split.
Qed.

Lemma get_docker_client_ok env w :
  docker_ok w -> get_docker_client env w = (Ret true, w).
Proof.
  intros [Hc Ha]. unfold get_docker_client. rewrite Hc.
  by destruct (_docker_available w) as [[|]|].
Qed.

(** *** Running a handler by hand: what each primitive computes *)

Lemma engine_call_eq c f w :
  engine_call c f w =
  (match f with Some e => Raise e | None => Ret tt end, log_call c w).
Proof. unfold engine_call. by destruct f. Qed.

Lemma docker_containers_get_eq env cid w :
  docker_containers_get env cid w =
  (match get_fault env cid with
   | Some e => Raise e
   | None => match engine w !! cid with
             | Some st => Ret st
             | None => Raise NotFound
             end
   end, log_call (CallGet cid) w).
Proof.
  unfold docker_containers_get, bind, engine_call, get_world, ret, raise.
  destruct (get_fault env cid); simpl; [done|]. by destruct (engine w !! cid).
Qed.

Lemma docker_stop_eq env cid t w :
  docker_stop env cid t w =
  match stop_fault env cid with
  | Some e => (Raise e, log_call (CallStop cid t) w)
  | None =>
      match engine w !! cid with
      | Some _ => (Ret tt, set_engine (<[cid := exited]> (engine w))
                             (log_call (CallStop cid t) w))
      | None => (Raise NotFound, log_call (CallStop cid t) w)
      end
  end.
Proof.
  unfold docker_stop, bind, engine_call, get_world, modify, ret, raise.
  destruct (stop_fault env cid); simpl; [done|]. by destruct (engine w !! cid).
Qed.

Lemma docker_remove_eq env cid w :
  docker_remove env cid w =
  match remove_fault env cid with
  | Some e => (Raise e, log_call (CallRemove cid) w)
  | None =>
      match engine w !! cid with
      | Some _ => (Ret tt, set_engine (delete cid (engine w))
                             (log_call (CallRemove cid) w))
      | None => (Raise NotFound, log_call (CallRemove cid) w)
      end
  end.
Proof.
  unfold docker_remove, bind, engine_call, get_world, modify, ret, raise.
  destruct (remove_fault env cid); simpl; [done|]. by destruct (engine w !! cid).
Qed.

Ltac world_simpl_in H :=
  cbn [engine calls active_containers _docker_client _docker_available
       registry_file log_call set_engine set_active_containers set_docker
       set_registry_file negb fst snd] in H.

(** One step of pushing the world through the primitives of [H]. *)
Ltac exec1_in H :=
  first
    [ progress cbv beta iota in H
    | progress world_simpl_in H
    | rewrite docker_containers_get_eq in H
    | rewrite docker_stop_eq in H
    | rewrite docker_remove_eq in H
    | rewrite untrack_container_eq in H
    | rewrite execution_result_of_eq in H
    | rewrite engine_call_eq in H
    | progress rewrite ?lookup_insert_eq, ?lookup_delete_eq in H ].

Ltac exec_in H := repeat exec1_in H.

(** Case analysis on an innermost scrutinee of [H]. *)
Ltac destruct_match_in H :=
  match type of H with
  | context [match ?x with _ => _ end] =>
      lazymatch x with
      | context [match _ with _ => _ end] => fail
      | _ => destruct x eqn:?
      end
  end.

(** A stop that answers ["stopped"] and whose [remove] did not raise
    leaves the engine without the container, and the client usable. *)
Lemma container_stop_stopped env cid w r w' :
  container_stop env cid w = (Ret r, w') ->
  StopResponse.status r = "stopped" ->
  remove_fault env cid = None ->
  engine w' !! cid = None /\ docker_ok w'.
Proof.
  intros Hrun Hst Hrm. unfold container_stop in Hrun. unfold bind at 1 in Hrun.
  destruct (get_docker_client env w) as [[[|]|e] w0] eqn:G; cbn [negb] in Hrun.
  - apply get_docker_client_true in G.
    unfold try_except, bind, ret in Hrun.
    repeat first [exec1_in Hrun | rewrite Hrm in Hrun | destruct_match_in Hrun];
      injection Hrun as <- <-; try discriminate;
      (split; [cbn; rewrite ?lookup_delete_eq; try done|exact G]).
  - unfold bind, ret in Hrun. exec_in Hrun.
    injection Hrun as <- <-. discriminate.
  - discriminate.
Qed.

(** With a usable client, a stop of an id the engine does not have, whose
    lookup does not fail otherwise, answers ["already_stopped"]. *)
Lemma container_stop_gone env cid w :
  docker_ok w -> engine w !! cid = None -> get_fault env cid = None ->
  exists w', container_stop env cid w =
             (Ret (StopResponse.mk "already_stopped" cid), w').
Proof.
  intros Hd Hg Hf. unfold container_stop. unfold bind at 1.
  rewrite (get_docker_client_ok env w Hd). cbn [negb].
  unfold try_except, bind, ret. rewrite docker_containers_get_eq, Hf, Hg.
  cbv beta iota. cbn [is_NotFound]. cbv beta iota.
  rewrite untrack_container_eq. eauto.
Qed.

Lemma serve_Ret {A} (m : M A) w a w' : m w = (Ret a, w') -> serve m w = (OK a, w').
Proof. intros H. unfold serve. by rewrite H. Qed.

Lemma serve_OK {A} (m : M A) w a w' : serve m w = (OK a, w') -> m w = (Ret a, w').
Proof.
  unfold serve. destruct (m w) as [[b|e] w0]; [by intros [= -> ->]|].
  by destruct e.
Qed.

(** C2, as amended.  A stop never raises: for every id, world and engine
    behaviour it answers 200 with one of the statuses stopped,
    already_stopped, error_but_cleaned, no_docker, and the session table
    does not contain the id on return.  A second stop of the same id again
    answers one of the four; it answers already_stopped when the first
    answered stopped, the first one's [remove] did not raise, and the
    second one's lookup meets no other fault. *)
Theorem stop_twice env1 env2 cid w :
  exists b1 w1 b2 w2,
    serve (container_stop env1 cid) w = (OK b1, w1) /\
    serve (container_stop env2 cid) w1 = (OK b2, w2) /\
    stop_status (StopResponse.status b1) /\
    stop_status (StopResponse.status b2) /\
    dict_in cid (active_containers w1) = false /\
    dict_in cid (active_containers w2) = false /\
    (StopResponse.status b1 = "stopped" ->
     remove_fault env1 cid = None -> get_fault env2 cid = None ->
     StopResponse.status b2 = "already_stopped").
Proof.
  pose proof (container_stop_spec env1 cid (fun _ _ => False) w I) as H1.
  destruct (container_stop env1 cid w) as [[b1|e1] w1] eqn:E1; [|done].
  pose proof (container_stop_spec env2 cid (fun _ _ => False) w1 I) as H2.
  destruct (container_stop env2 cid w1) as [[b2|e2] w2] eqn:E2; [|done].
  destruct H1 as (S1 & _ & T1). destruct H2 as (S2 & _ & T2).
  exists b1, w1, b2, w2. repeat split; try done; try by apply serve_Ret.
  intros Hst Hrm Hget.
  destruct (container_stop_stopped _ _ _ _ _ E1 Hst Hrm) as [Hg Hd].
  destruct (container_stop_gone env2 cid w1 Hd Hg Hget) as [w' E].
  rewrite E in E2. by injection E2 as <- <-.
Qed.

(** The second stop of [stop_twice] does answer already_stopped: a running
    container, a faultless engine. *)
Lemma stop_twice_witness :
  exists b1 w1 b2 w2,
    serve (container_stop quiet_env "feedfacecafe") foreign_world = (OK b1, w1) /\
    serve (container_stop quiet_env "feedfacecafe") w1 = (OK b2, w2) /\
    StopResponse.status b1 = "stopped" /\
    StopResponse.status b2 = "already_stopped".
Proof.
  destruct (stop_twice quiet_env quiet_env "feedfacecafe" foreign_world)
    as (b1 & w1 & b2 & w2 & H1 & H2 & _ & _ & _ & _ & H).
  exists b1, w1, b2, w2.
  assert (Hb : StopResponse.status b1 = "stopped").
  { vm_compute in H1. by injection H1 as <- _. }
  repeat split; try done. by apply H.
Defined.

(** C2 as stated fails: the engine's [stop] raises an API error at the
    first stop, which answers error_but_cleaned and leaves the container
    running; the second stop, on a faultless engine, finds it, stops it and
    answers stopped, not already_stopped. *)
Lemma second_stop_not_already_stopped :
  let r1 := serve (container_stop stop_fails_env "feedfacecafe") foreign_world in
  let r2 := serve (container_stop quiet_env "feedfacecafe") (snd r1) in
  fst r1 = OK (StopResponse.mk "error_but_cleaned" "feedfacecafe") /\
  fst r2 = OK (StopResponse.mk "stopped" "feedfacecafe") /\
  forall b2, fst r2 = OK b2 -> StopResponse.status b2 <> "already_stopped".
Proof.
  vm_compute. repeat split. intros b2 [= <-]. discriminate.
Qed.

(** ** Stop does not look at the table *)

Ltac world_simpl :=
  cbn [engine calls active_containers _docker_client _docker_available
       registry_file log_call set_engine set_active_containers set_docker
       set_registry_file negb fst snd].

(** One step of pushing the world through the primitives of the goal. *)
Ltac exec1 :=
  first
    [ progress cbv beta iota
    | progress world_simpl
    | rewrite docker_containers_get_eq
    | rewrite docker_stop_eq
    | rewrite docker_remove_eq
    | rewrite untrack_container_eq
    | rewrite execution_result_of_eq
    | rewrite engine_call_eq
    | progress rewrite ?lookup_insert_eq, ?lookup_delete_eq ].

Ltac exec := repeat exec1.

(** Initialising the client touches neither the engine's containers nor
    the table nor the registry. *)
Lemma get_docker_client_frame env w b w' :
  get_docker_client env w = (Ret b, w') ->
  engine w' = engine w /\ active_containers w' = active_containers w /\
  registry_file w' = registry_file w /\
  exists l, calls w' = (calls w ++ l)%list.
Proof.
  unfold get_docker_client.
  destruct (_docker_available w) as [[|]|]; destruct (_docker_client w); simpl;
    try destruct (from_env_fault env); try destruct (ping_fault env);
    intros [= <- <-]; simpl; repeat split; try done;
    first [ by exists []; rewrite app_nil_r | by rewrite <- ?app_assoc; eauto ].
Qed.

(** C10.  The stop endpoint does not require the id to be tracked: for
    every id it answers 200 with one of the four stop statuses (so never
    a SessionNotFound), and for an id that is not in the session table but
    names a container of the engine it looks the container up, stops it
    (unless it has exited or is dead) and removes it. *)
Theorem stop_never_requires_tracking env cid w :
  (exists body w', serve (container_stop env cid) w = (OK body, w') /\
                   stop_status (StopResponse.status body)) /\
  (forall st,
     dict_in cid (active_containers w) = false ->
     fst (get_docker_client env w) = Ret true ->
     engine w !! cid = Some st ->
     get_fault env cid = None -> stop_fault env cid = None ->
     remove_fault env cid = None ->
     exists w',
       serve (container_stop env cid) w =
         (OK (StopResponse.mk "stopped" cid), w') /\
       engine w' !! cid = None /\
       active_containers w' = active_containers w /\
       calls w' = (calls (snd (get_docker_client env w)) ++ stop_calls cid st)%list).
Proof.
  split.
  - pose proof (container_stop_spec env cid (fun _ _ => False) w I) as H.
    destruct (container_stop env cid w) as [[b|e] w'] eqn:E; [|done].
    exists b, w'. split; [by apply serve_Ret|tauto].
  - intros st Hin Hc Hg Hf1 Hf2 Hf3.
    destruct (get_docker_client env w) as [o w0] eqn:G. simpl in Hc. subst o.
    destruct (get_docker_client_frame _ _ _ _ G) as (Eg & Et & _ & _).
    rewrite <- Eg in Hg. rewrite <- Et in Hin |- *. clear Eg Et.
    assert (Hrun : exists w', container_stop env cid w =
        (Ret (StopResponse.mk "stopped" cid), w') /\
        engine w' !! cid = None /\
        active_containers w' = active_containers w0 /\
        calls w' = (calls w0 ++ stop_calls cid st)%list).
    { unfold container_stop. unfold bind at 1. rewrite G.
      cbn [negb]. unfold try_except, bind, ret. exec. rewrite Hf1, Hg. exec.
      destruct st; exec; rewrite ?Hf2, ?Hf3, ?Hg; exec; rewrite ?Hf3; exec;
        (eexists; split; [reflexivity|]); world_simpl;
        rewrite ?lookup_delete_eq, (dict_del_absent _ _ Hin);
        cbn [stop_calls]; rewrite <- ?app_assoc; done. }
    destruct Hrun as (w' & E & ?). exists w'. split; [by apply serve_Ret|done].
Qed.

(** A container the manager never started, stopped through the endpoint. *)
Lemma stop_never_requires_tracking_witness :
  exists w',
    serve (container_stop quiet_env "feedfacecafe") foreign_world =
      (OK (StopResponse.mk "stopped" "feedfacecafe"), w') /\
    engine w' !! "feedfacecafe" = None /\
    active_containers w' = [] /\
    calls w' = [CallFromEnv; CallPing; CallGet "feedfacecafe";
                CallStop "feedfacecafe" 5; CallRemove "feedfacecafe"].
Proof.
  destruct (stop_never_requires_tracking quiet_env "feedfacecafe" foreign_world)
    as [_ H].
  apply (H running); reflexivity.
Defined.

(** ** Start: the registry gate and the outcomes *)

Lemma get_docker_client_false env w w' :
  get_docker_client env w = (Ret false, w') ->
  forall env', get_docker_client env' w' = (Ret false, w').
Proof.
  unfold get_docker_client.
  destruct (_docker_available w) as [[|]|] eqn:Ea;
    destruct (_docker_client w) eqn:Ec; simpl;
    try destruct (from_env_fault env); try destruct (ping_fault env);
    intros [= <-] env'; simpl; rewrite ?Ea; done.
Qed.

Lemma build_image_if_needed_eq env n c w b w0 :
  get_docker_client env w = (Ret b, w0) ->
  build_image_if_needed env n c w =
  (Ret (default ("jarvis-" ++ n ++ ":latest") (image c)),
   if b && truthy (build_context c)
   then log_call (CallBuild ("/app/containers/" ++ n)
                    (default ("jarvis-" ++ n ++ ":latest") (image c))) w0
   else w0).
Proof.
  intros G. unfold build_image_if_needed. unfold bind at 1. rewrite G.
  destruct b; cbn [negb andb]; [|done].
  destruct (truthy (build_context c)); unfold bind, try_except, ret;
    rewrite ?engine_call_eq; [|done].
  by destruct (build_fault env).
Qed.

Lemma container_options_cases cpu req c img w :
  (exists o, container_options cpu req c img w = (Ret o, w)) \/
  container_options cpu req c img w = (Raise (OtherError "ValueError"), w).
Proof.
  unfold container_options, bind, ret, raise.
  destruct (truthy (cpus (resources c))); [|eauto].
  destruct (cpu _); eauto.
Qed.

(** What the handler of the [try] of [container_start] lets through. *)
Lemma start_handler_cases {A} (m : M A) w :
  let r := try_except m
    (fun e => if is_ImageNotFound e
              then raise (HTTPException 404 ImageNotFoundDetail)
              else raise (HTTPException 500 StartFailed)) w in
  (exists a, fst r = Ret a) \/
  fst r = Raise (HTTPException 404 ImageNotFoundDetail) \/
  fst r = Raise (HTTPException 500 StartFailed).
Proof.
  unfold try_except. destruct (m w) as [[a|e] w']; simpl; [eauto|].
  destruct (is_ImageNotFound e); simpl; auto.
Qed.


(** [container_start] for a name the registry has, from the point where
    the image name is known. *)
Lemma container_start_allowed_eq cpu env req w c b w0 :
  registry_profiles w !! ContainerStartRequest.container_name req = Some c ->
  get_docker_client env w = (Ret b, w0) ->
  container_start cpu env req w =
  (let! options :=
     container_options cpu req c
       (default ("jarvis-" ++ ContainerStartRequest.container_name req ++ ":latest")
          (image c)) in
   try_except (container_start_try env req c options) start_handler)
    (if b && truthy (build_context c)
     then log_call
            (CallBuild ("/app/containers/" ++ ContainerStartRequest.container_name req)
               (default ("jarvis-" ++ ContainerStartRequest.container_name req ++ ":latest")
                  (image c))) w0
     else w0).
Proof.
  intros Hc G. unfold container_start. unfold bind at 1.
  rewrite is_container_allowed_eq, (registry_profiles_ok _ _ _ Hc), Hc.
  cbn [negb]. unfold bind at 1.
  rewrite get_container_config_eq, (registry_profiles_ok _ _ _ Hc), Hc.
  unfold bind at 1. by rewrite (build_image_if_needed_eq _ _ _ _ _ _ G).
Qed.

Lemma container_start_allowed cpu env req w c :
  registry_profiles w !! ContainerStartRequest.container_name req = Some c ->
  match fst (serve (container_start cpu env req) w) with
  | OK _ => True
  | HTTPError s d =>
      (s = 404 /\ d = ImageNotFoundDetail) \/
      (s = 500 /\ (d = StartFailed \/ d = InternalServerError))
  end.
Proof.
  intros Hc.
  destruct (get_docker_client_returns env w) as (b & w0 & G).
  unfold serve. rewrite (container_start_allowed_eq _ _ _ _ _ _ _ Hc G).
  set (w1 := if b && _ then _ else _). set (img := default _ _).
  unfold bind at 1.
  destruct (container_options_cases cpu req c img w1) as [[o ->]| ->];
    [|simpl; auto].
  pose proof (start_handler_cases (container_start_try env req c o) w1) as H.
  fold start_handler in H. simpl in H.
  destruct (try_except _ start_handler w1) as [[a|e] w2]; simpl in *; [auto|].
  destruct H as [[a [=]]|[[= ->]|[= ->]]]; simpl; auto.
Qed.

(** A start for a name the registry file does not list, or for any name
    when the file is not well-formed, makes no call and changes nothing. *)
Lemma container_start_not_listed cpu env req w :
  registry_profiles w !! ContainerStartRequest.container_name req = None ->
  serve (container_start cpu env req) w =
  (if registry_ok w then HTTPError 403 NotInRegistry
   else HTTPError 500 InternalServerError, w).
Proof.
  intros Hc. unfold serve, container_start. unfold bind at 1.
  rewrite is_container_allowed_eq, Hc. by destruct (registry_ok w).
Qed.

(** On a registry file that is well-formed (or cannot be read), a start
    answers ProfileNotAllowed (403) exactly when the registry has no
    profile under the requested name, and then the world is left as it
    was. *)
Lemma start_forbidden_iff cpu env req w :
  let name := ContainerStartRequest.container_name req in
  let r := serve (container_start cpu env req) w in
  registry_ok w = true ->
  (fst r = HTTPError 403 NotInRegistry <-> registry_profiles w !! name = None) /\
  (http_status (fst r) = 403 <-> registry_profiles w !! name = None) /\
  (registry_profiles w !! name = None -> snd r = w).
Proof.
  intros name r Hok. subst r.
  destruct (registry_profiles w !! name) as [c|] eqn:Hc.
  - pose proof (container_start_allowed cpu env req w c Hc) as H.
    destruct (fst (serve (container_start cpu env req) w)) as [a|s d]; simpl.
    + repeat split; try done.
    + repeat split; try done; intros; destruct H as [[-> ->]|[-> [-> | ->]]]; done.
  - rewrite (container_start_not_listed _ _ _ _ Hc), Hok. simpl.
    repeat split; done.
Qed.

(** C1 (the code deviates).  When the registry file is empty
    ([yaml.safe_load] returns [None]) or is any other document that is not
    a mapping, or when its ["containers"] key holds no mapping (a key
    without value, a scalar, a list), the registry contains no profile
    under any name, yet no start is answered ProfileNotAllowed (403):
    [.get] raises [AttributeError] in [get_container_config], outside every
    [try], and the answer is 500.  Nothing is run and no record is
    created. *)
Theorem start_malformed_registry_is_500 cpu env req w :
  registry_file w = Some not_a_mapping \/
  (exists r, registry_file w = Some (mapping r) /\
             containers r = Some not_a_mapping) ->
  registry_profiles w = ∅ /\
  fst (is_container_allowed (ContainerStartRequest.container_name req) w)
    = Raise (OtherError "AttributeError") /\
  serve (container_start cpu env req) w
    = (HTTPError 500 InternalServerError, w).
Proof.
  intros Hbad.
  assert (Hok : registry_ok w = false /\ registry_profiles w = ∅).
  { unfold registry_ok, registry_profiles.
    destruct Hbad as [->|(r & -> & ->)]; by split. }
  destruct Hok as [Hok Hnone]. split; [exact Hnone|]. split.
  - by rewrite is_container_allowed_eq, Hok.
  - rewrite container_start_not_listed; [by rewrite Hok|].
    rewrite Hnone. apply lookup_empty.
Qed.

(** An empty registry file, read by a fresh process. *)
Lemma start_malformed_registry_is_500_witness :
  serve (container_start no_cpu_quota quiet_env
           (ContainerStartRequest.default "python-sandbox")) empty_registry_world
  = (HTTPError 500 InternalServerError, empty_registry_world).
Proof.
  apply (start_malformed_registry_is_500 no_cpu_quota quiet_env
           (ContainerStartRequest.default "python-sandbox") empty_registry_world).
  left. reflexivity.
Defined.

(** C4 (the code deviates).  For a name the registry allows, a start made
    while the engine client cannot be obtained answers 500, not 503: the
    503 raised inside the [try] is caught by the handler of [Exception]
    and re-raised as 500. *)
Theorem start_engine_unavailable_is_500 cpu env req w :
  fst (is_container_allowed (ContainerStartRequest.container_name req) w)
    = Ret true ->
  fst (get_docker_client env w) = Ret false ->
  http_status (fst (serve (container_start cpu env req) w)) = 500.
Proof.
  rewrite is_container_allowed_eq.
  destruct (registry_ok w); cbn [fst]; [|discriminate]. intros Hc Hg.
  destruct (registry_profiles w !! _) as [c|] eqn:Ec; [clear Hc|done].
  destruct (get_docker_client env w) as [o w0] eqn:G. simpl in Hg. subst o.
  unfold serve. rewrite (container_start_allowed_eq _ _ _ _ _ _ _ Ec G).
  cbn [andb]. unfold bind at 1.
  destruct (container_options_cases cpu req c
              (default ("jarvis-" ++ ContainerStartRequest.container_name req ++ ":latest")
                 (image c)) w0) as [[o ->]| ->]; [|done].
  unfold try_except, container_start_try. unfold bind at 1.
  rewrite (get_docker_client_false _ _ _ G env). done.
Qed.

(** The unreachable engine of [no_docker_env]: the answer is the 500 of
    the catch-all handler. *)
Lemma start_engine_unavailable_is_500_witness :
  fst (serve (container_start no_cpu_quota no_docker_env
                (ContainerStartRequest.default "python-sandbox")) fresh_world)
    = HTTPError 500 StartFailed /\
  http_status
    (fst (serve (container_start no_cpu_quota no_docker_env
                   (ContainerStartRequest.default "python-sandbox")) fresh_world))
    = 500.
Proof.
  split; [reflexivity|].
  apply start_engine_unavailable_is_500; reflexivity.
Defined.

(** A name the registry does not have: 403, and nothing has happened. *)
Example start_rogue :
  serve (container_start no_cpu_quota quiet_env
           (ContainerStartRequest.default "rogue")) fresh_world
  = (HTTPError 403 NotInRegistry, fresh_world).
Proof. reflexivity. Qed.

(** ** Start: the record, the one-shot collapse and the TTL *)

Lemma track_container_eq env cid info w :
  track_container env cid info w =
  (Ret tt, set_active_containers
             (dict_set cid (tracked_info env info) (active_containers w)) w).
Proof. reflexivity. Qed.

Lemma tracked_info_fields env info :
  ttl_seconds (tracked_info env info) = ttl_seconds info /\
  persistent (tracked_info env info) = persistent info /\
  is_Some (session_id (tracked_info env info)).
Proof.
  unfold tracked_info.
  destruct (session_id info) eqn:E1, (started_at info) eqn:E2,
    (last_activity info) eqn:E3; simpl; rewrite ?E1, ?E2, ?E3; simpl;
    rewrite ?E1, ?E2, ?E3; simpl; rewrite ?E1; eauto.
Qed.

(** What a run of the [try] body that returns has done. *)
Lemma container_start_try_Ret env req c o w body w' :
  container_start_try env req c o w = (Ret body, w') ->
  exists full,
    run_result env = inr full /\
    StartResponse.container_id body = short_id full /\
    (is_Some (StartResponse.execution_result body) <->
     truthy (ContainerStartRequest.code req) = true) /\
    (ContainerStartRequest.keep_alive req = false ->
     truthy (ContainerStartRequest.code req) = true ->
     stop_fault env (short_id full) = None ->
     remove_fault env (short_id full) = None ->
     dict_in (short_id full) (active_containers w') = false /\
     engine w' !! short_id full = None) /\
    (ContainerStartRequest.keep_alive req = true \/
     truthy (ContainerStartRequest.code req) = false ->
     exists info,
       dict_get (short_id full) (active_containers w') = Some info /\
       persistent info = ContainerStartRequest.keep_alive req /\
       engine w' !! short_id full = Some running) /\
    (forall info,
       dict_get (short_id full) (active_containers w') = Some info ->
       ttl_seconds info = Some (stored_ttl req)) /\
    (ContainerStartRequest.keep_alive req = true ->
     exists s, StartResponse.session body = Some s /\
               StartSession.ttl_seconds s = Some (stored_ttl req)).
Proof.
  intros Hrun. unfold container_start_try in Hrun. unfold bind at 1 in Hrun.
  destruct (get_docker_client env w) as [[[|]|e] w0] eqn:G; cbn [negb] in Hrun;
    [|discriminate..].
  unfold bind at 1 in Hrun. unfold ret at 1 in Hrun. cbv beta iota in Hrun.
  unfold bind at 1 in Hrun. unfold docker_run at 1 in Hrun.
  destruct (run_result env) as [e|full] eqn:Erun; [discriminate|].
  exists full. split; [done|].
  cbv beta iota in Hrun.
  set (cid := short_id full) in *.
  set (info0 := {| name := _ |}) in Hrun.
  set (w1 := set_engine _ _) in Hrun.
  assert (Hw1 : engine w1 !! cid = Some running) by apply lookup_insert_eq.
  unfold start_ttyd, run_code, docker_exec_run, get_container_session,
    get_world, bind, try_except, ret, raise in Hrun.
  repeat first
    [ exec1_in Hrun
    | rewrite track_container_eq in Hrun
    | rewrite dict_get_set_eq in Hrun
    | destruct_match_in Hrun ];
    try discriminate.
  all: injection Hrun as <- <-.
  all: cbn [StartResponse.container_id StartResponse.execution_result
            StartResponse.session].
  all: subst w1; world_simpl.
  all: split; [reflexivity|].
  all: split; [split; intros H; first [done | by eauto | by destruct H]|].
  all: split;
    [ intros H1 H2 Hs Hr; try discriminate;
      (split; [apply dict_in_del_eq|by rewrite lookup_delete_eq]) |].
  all: split;
    [ intros [H|H]; try discriminate;
      (eexists; split; [apply dict_get_set_eq|]);
      (split; [by rewrite (proj1 (proj2 (tracked_info_fields _ _)))
              |by rewrite lookup_insert_eq]) |].
  all: split;
    [ intros info Hget;
      rewrite ?dict_get_del_eq, ?dict_get_set_eq in Hget; try discriminate;
      injection Hget as <-;
      by rewrite (proj1 (tracked_info_fields _ _)) |].
  all: intros H; try discriminate; eexists; split; reflexivity.
Qed.

Lemma container_start_OK cpu env req w body w' :
  serve (container_start cpu env req) w = (OK body, w') ->
  exists c o w1, container_start_try env req c o w1 = (Ret body, w').
Proof.
  intros H. apply serve_OK in H.
  destruct (registry_profiles w !! ContainerStartRequest.container_name req)
    as [c|] eqn:Hc.
  - destruct (get_docker_client_returns env w) as (b & w0 & G).
    rewrite (container_start_allowed_eq _ _ _ _ _ _ _ Hc G) in H.
    set (w1 := if b && _ then _ else _) in H. set (img := default _ _) in H.
    unfold bind at 1 in H.
    destruct (container_options_cases cpu req c img w1) as [[o Ho]|Ho];
      rewrite Ho in H; [|discriminate].
    exists c, o, w1. unfold try_except in H.
    destruct (container_start_try env req c o w1) as [[a|e] w2]; [done|].
    unfold start_handler in H. by destruct (is_ImageNotFound e).
  - unfold container_start in H. unfold bind at 1 in H.
    rewrite is_container_allowed_eq, Hc in H. by destruct (registry_ok w).
Qed.

(** C3, as amended.  For a start with keep_alive=false that answers 200:
    when it carried (non-empty) code and the engine's stop and remove did
    not raise, the code was executed and on return the session table has no
    record for the produced container id and the engine no longer has the
    container; when it carried no code, nothing is cleaned up: the record
    stays in the table and the container keeps running. *)
Theorem start_one_shot cpu env req w body :
  fst (serve (container_start cpu env req) w) = OK body ->
  ContainerStartRequest.keep_alive req = false ->
  let w' := snd (serve (container_start cpu env req) w) in
  let cid := StartResponse.container_id body in
  (truthy (ContainerStartRequest.code req) = true ->
   stop_fault env cid = None -> remove_fault env cid = None ->
   is_Some (StartResponse.execution_result body) /\
   dict_in cid (active_containers w') = false /\
   engine w' !! cid = None) /\
  (truthy (ContainerStartRequest.code req) = false ->
   StartResponse.execution_result body = None /\
   exists info,
     dict_get cid (active_containers w') = Some info /\
     persistent info = false /\
     engine w' !! cid = Some running).
Proof.
  intros Hs Hk w' cid. subst w' cid.
  destruct (serve (container_start cpu env req) w) as [r w'] eqn:E.
  simpl in Hs. subst r. cbn [snd].
  apply container_start_OK in E as (c & o & w1 & E).
  apply container_start_try_Ret in E
    as (full & _ & -> & Hres & Hshot & Hleak & _ & _).
  split.
  - intros Hc Hf1 Hf2. split; [by apply Hres|]. by apply Hshot.
  - intros Hc. split.
    + destruct (StartResponse.execution_result body) eqn:Er; [|done].
      assert (is_Some (Some t)) as Hi by eauto.
      apply Hres in Hi. congruence.
    + destruct Hleak as (info & ? & ? & ?); [by right|].
      exists info. by rewrite <- Hk.
Qed.

Lemma stored_ttl_eq req :
  stored_ttl req =
  match ContainerStartRequest.ttl_seconds req with
  | Some v => if Z.eqb v 0 then DEFAULT_SESSION_TTL
              else Z.min v MAX_SESSION_TTL
  | None => DEFAULT_SESSION_TTL
  end.
Proof.
  unfold stored_ttl, py_or.
  destruct (ContainerStartRequest.ttl_seconds req) as [v|]; [|done].
  by destruct (Z.eqb v 0).
Qed.

(** C5, as amended.  After a start that answers 200, the record of the
    produced container (if it is still tracked) has ttl_seconds equal to
    DEFAULT_SESSION_TTL when no value or the value 0 was requested, and to
    min(requested, MAX_SESSION_TTL) otherwise; a persistent start has such
    a record and reports the same value; the stored value is at most
    MAX_SESSION_TTL (there is no lower bound). *)
Theorem start_ttl cpu env req w body :
  fst (serve (container_start cpu env req) w) = OK body ->
  let w' := snd (serve (container_start cpu env req) w) in
  let cid := StartResponse.container_id body in
  let ttl :=
    match ContainerStartRequest.ttl_seconds req with
    | Some v => if Z.eqb v 0 then DEFAULT_SESSION_TTL
                else Z.min v MAX_SESSION_TTL
    | None => DEFAULT_SESSION_TTL
    end in
  (forall info, dict_get cid (active_containers w') = Some info ->
                ttl_seconds info = Some ttl) /\
  (ContainerStartRequest.keep_alive req = true ->
   exists info s,
     dict_get cid (active_containers w') = Some info /\
     ttl_seconds info = Some ttl /\
     StartResponse.session body = Some s /\
     StartSession.ttl_seconds s = Some ttl) /\
  ttl <= MAX_SESSION_TTL.
Proof.
  intros Hs w' cid ttl. subst w' cid.
  destruct (serve (container_start cpu env req) w) as [r w'] eqn:E.
  simpl in Hs. subst r. cbn [snd].
  apply container_start_OK in E as (c & o & w1 & E).
  apply container_start_try_Ret in E
    as (full & _ & -> & _ & _ & Hleak & Httl & Hsess).
  assert (Heq : stored_ttl req = ttl) by apply stored_ttl_eq.
  rewrite Heq in *. repeat split.
  - done.
  - intros Hk. destruct Hleak as (info & Hi & _); [by left|].
    destruct (Hsess Hk) as (s & ? & ?). exists info, s. eauto.
  - rewrite <- Heq. unfold stored_ttl. lia.
Qed.

(** The one-shot run of the spec's first scenario. *)
Lemma start_one_shot_witness :
  is_Some (Some (ExecutionResult.mk 0 "4" "")) /\
  dict_in "0123456789ab"
    (active_containers
       (snd (serve (container_start no_cpu_quota quiet_env code_request)
               fresh_world))) = false /\
  engine (snd (serve (container_start no_cpu_quota quiet_env code_request)
                 fresh_world)) !! "0123456789ab" = None.
Proof.
  destruct (start_one_shot no_cpu_quota quiet_env code_request fresh_world
              (StartResponse.mk "started" "0123456789ab" "python-sandbox"
                 (Some (ExecutionResult.mk 0 "4" "")) None)
              eq_refl eq_refl) as [H _].
  apply H; reflexivity.
Defined.

(** C3 as stated fails: a start with keep_alive=false and no code answers
    200 and leaves both the record and the running container behind. *)
Lemma one_shot_without_code_leaks :
  let req := ContainerStartRequest.default "python-sandbox" in
  let r := serve (container_start no_cpu_quota quiet_env req) fresh_world in
  ContainerStartRequest.keep_alive req = false /\
  fst r = OK (StartResponse.mk "started" "0123456789ab" "python-sandbox"
                None None) /\
  dict_in "0123456789ab" (active_containers (snd r)) = true /\
  engine (snd r) !! "0123456789ab" = Some running.
Proof. vm_compute. repeat split. Qed.

(** A persistent start asking for two hours gets one. *)
Lemma start_ttl_witness :
  let r := serve (container_start no_cpu_quota quiet_env
                    (request_ttl (Some 7200))) fresh_world in
  (forall info,
     dict_get "0123456789ab" (active_containers (snd r)) = Some info ->
     ttl_seconds info = Some 3600) /\
  (exists info s,
     dict_get "0123456789ab" (active_containers (snd r)) = Some info /\
     ttl_seconds info = Some 3600 /\
     fst r = OK (StartResponse.mk "started" "0123456789ab" "python-sandbox" None
                   (Some s)) /\
     StartSession.ttl_seconds s = Some 3600).
Proof.
  intros r.
  destruct (start_ttl no_cpu_quota quiet_env (request_ttl (Some 7200))
              fresh_world
              (StartResponse.mk "started" "0123456789ab" "python-sandbox" None
                 (Some (StartSession.mk
                          (Some "6f1c2e0a-0000-4000-8000-000000000001")
                          true (Some 3600) None)))
              eq_refl) as (H1 & H2 & _).
  split; [exact H1|].
  destruct (H2 eq_refl) as (info & s & Hi & Ht & Hs & Hst).
  exists info, s. repeat split; try done.
  injection Hs as <-. reflexivity.
Defined.

(** C5 as stated fails: a requested ttl_seconds of 0 is stored as the
    default 300, and a requested -5 is stored as -5, below 0. *)
Lemma zero_ttl_is_replaced_by_default :
  let r0 := serve (container_start no_cpu_quota quiet_env
                     (request_ttl (Some 0))) fresh_world in
  let rn := serve (container_start no_cpu_quota quiet_env
                     (request_ttl (Some (-5)))) fresh_world in
  (ttl_seconds <$> dict_get "0123456789ab" (active_containers (snd r0)))
    = Some (Some 300) /\
  (ttl_seconds <$> dict_get "0123456789ab" (active_containers (snd rn)))
    = Some (Some (-5)).
Proof. vm_compute. split; reflexivity. Qed.

(** ** Exec touches first *)

Lemma update_container_activity_eq env cid w info :
  dict_get cid (active_containers w) = Some info ->
  update_container_activity env cid w = (Ret true, touched env cid info w).
Proof.
  intros H. unfold update_container_activity, bind, get_world, modify, ret.
  by rewrite H.
Qed.

Lemma container_exec_tracked env req w info :
  dict_get (ContainerExecRequest.container_id req) (active_containers w)
    = Some info ->
  container_exec env req w =
  try_except (container_exec_try env req)
    (container_exec_except (ContainerExecRequest.container_id req))
    (touched env (ContainerExecRequest.container_id req) info w).
Proof.
  intros H. unfold container_exec. unfold bind at 1.
  unfold is_container_tracked, bind, get_world, ret, dict_in. rewrite H.
  cbn [negb]. by rewrite (update_container_activity_eq _ _ _ _ H).
Qed.

(** The [try] body of an exec never changes the table. *)
Lemma container_exec_try_table env req w :
  active_containers (snd (container_exec_try env req w)) = active_containers w.
Proof.
  unfold container_exec_try. unfold bind at 1.
  destruct (get_docker_client env w) as [[b|e] w0] eqn:G.
  2:{ destruct (get_docker_client_returns env w) as (? & ? & ?). congruence. }
  destruct (get_docker_client_frame _ _ _ _ G) as (_ & <- & _).
  destruct b; cbn [negb]; [|done].
  unfold bind, ret, docker_exec_run. exec.
  destruct (get_fault env _); [done|]. destruct (engine w0 !! _); [|done].
  exec. destruct (exec_run_result env) as [e|r]; [done|].
  rewrite execution_result_of_eq. by destruct (execution_outcome r).
Qed.

(** C7, as amended.  An exec on an untracked id answers 404 (not tracked)
    and leaves the world as it was.  An exec on a tracked id first sets
    the record's last_activity to the current time, before any call to the
    engine, and then runs the [try] body from that world; the record is
    still touched when the exec answers 200 or fails with 500, and is
    removed only when the engine reports the container gone (404).  After
    a 200 the record's last_activity is the reading of the clock at the
    request, whatever it was before. *)
Theorem exec_touches_first env req w :
  let cid := ContainerExecRequest.container_id req in
  let r := serve (container_exec env req) w in
  (dict_in cid (active_containers w) = false ->
   r = (HTTPError 404 NotTracked, w)) /\
  (forall info,
     dict_get cid (active_containers w) = Some info ->
     (* the record is touched before anything is asked of the engine *)
     container_exec env req w =
       try_except (container_exec_try env req) (container_exec_except cid)
         (touched env cid info w) /\
     calls (touched env cid info w) = calls w /\
     dict_get cid (active_containers (touched env cid info w)) =
       Some (set_last_activity (clock env 0) info) /\
     (* and stays touched, unless the engine says the container is gone *)
     ((fst r = HTTPError 404 NoLongerExists /\
       dict_in cid (active_containers (snd r)) = false) \/
      (((exists body, fst r = OK body) \/ fst r = HTTPError 500 ExecFailed) /\
       dict_get cid (active_containers (snd r)) =
         Some (set_last_activity (clock env 0) info))) /\
     (* after a successful exec last_activity is the time of the request *)
     (forall body,
        fst r = OK body ->
        exists info',
          dict_get cid (active_containers (snd r)) = Some info' /\
          last_activity info' = Some (clock env 0))).
Proof.
  intros cid r. subst r. split.
  - intros H. unfold serve, container_exec. unfold bind at 1.
    unfold is_container_tracked, bind, get_world, ret. fold cid. by rewrite H.
  - intros info H.
    pose proof (container_exec_tracked env req w info H) as E. fold cid in E.
    assert (Htouch : dict_get cid (active_containers (touched env cid info w)) =
                     Some (set_last_activity (clock env 0) info))
      by apply dict_get_set_eq.
    assert (Hend :
      (fst (serve (container_exec env req) w) = HTTPError 404 NoLongerExists /\
       dict_in cid (active_containers (snd (serve (container_exec env req) w)))
         = false) \/
      (((exists body, fst (serve (container_exec env req) w) = OK body) \/
        fst (serve (container_exec env req) w) = HTTPError 500 ExecFailed) /\
       dict_get cid (active_containers (snd (serve (container_exec env req) w)))
         = Some (set_last_activity (clock env 0) info))).
    { unfold serve. rewrite E. unfold try_except.
      pose proof (container_exec_try_table env req (touched env cid info w)) as Ht.
      destruct (container_exec_try env req (touched env cid info w))
        as [[a|e] w1]; simpl in Ht.
      - right. simpl. rewrite Ht. eauto.
      - unfold container_exec_except.
        destruct (type_name_has_NotFound e).
        + left. unfold bind, raise. rewrite untrack_container_eq. simpl.
          split; [done|apply dict_in_del_eq].
        + right. simpl. rewrite Ht. eauto. }
    repeat split; try done.
    intros body Hb.
    destruct Hend as [[Hr _]|[_ Hg]]; [congruence|].
    eexists. split; [exact Hg|]. reflexivity.
Qed.

(** The spec's second scenario: an exec ten seconds after the start. *)
Lemma exec_touches_first_witness :
  exists info',
    dict_get "0123456789ab"
      (active_containers
         (snd (serve (container_exec (env_at 11000000) echo_request)
                 persistent_world))) = Some info' /\
    last_activity info' = Some 11000000.
Proof.
  destruct (exec_touches_first (env_at 11000000) echo_request persistent_world)
    as [_ H].
  destruct (dict_get "0123456789ab" (active_containers persistent_world))
    as [info|] eqn:E; [|vm_compute in E; discriminate].
  destruct (H info E) as (_ & _ & _ & _ & H5).
  destruct (serve (container_exec (env_at 11000000) echo_request)
              persistent_world) as [[body|s d] w'] eqn:Es;
    [|vm_compute in Es; discriminate].
  apply (H5 body). reflexivity.
Defined.

(** C7 as stated fails: a successful exec need not increase
    last_activity.  [datetime.now()] is the naive local wall clock, which
    is set back at the end of daylight saving time or by a clock
    correction: the session of [persistent_world] has last_activity
    1 000 000 (1 s), an exec served when the clock reads 400 000 (0.4 s)
    answers 200 and leaves last_activity 400 000. *)
Lemma successful_exec_can_decrease_last_activity :
  let r := serve (container_exec (env_at 400000) echo_request) persistent_world in
  (exists body, fst r = OK body) /\
  (last_activity <$>
     dict_get "0123456789ab" (active_containers persistent_world))
    = Some (Some 1000000) /\
  (last_activity <$> dict_get "0123456789ab" (active_containers (snd r)))
    = Some (Some 400000) /\
  ~ (1000000 < 400000).
Proof.
  vm_compute. split; [eexists; reflexivity|]. repeat split; discriminate.
Qed.

(** ** Extend *)

(** C6.  If no tracked record has the session id, an extend answers
    SessionNotFound (404) and leaves the world as it was.  Otherwise the
    first record with that session id is rewritten in one step: its
    ttl_seconds becomes min(old_ttl + delta, MAX_SESSION_TTL) and its
    last_activity the current time, every other record is unchanged, the
    response reports the new TTL, and the new TTL is at most
    MAX_SESSION_TTL. *)
Theorem extend_session_spec env sid req w :
  let delta := SessionExtendRequest.extend_seconds req in
  let r := serve (extend_session env sid req) w in
  ((forall cid info, (cid, info) ∈ active_containers w ->
                     session_id info <> Some sid) ->
   r = (HTTPError 404 SessionNotFound, w)) /\
  (forall cid0 info0,
     (cid0, info0) ∈ active_containers w -> session_id info0 = Some sid ->
     exists cid info,
       (cid, info) ∈ active_containers w /\ session_id info = Some sid /\
       let new_ttl := Z.min (ttl_of info + delta) MAX_SESSION_TTL in
       fst r = OK (ExtendResponse.mk sid delta new_ttl) /\
       snd r = set_active_containers
                 (dict_set cid (extended env delta info) (active_containers w)) w /\
       dict_get cid (active_containers (snd r)) = Some (extended env delta info) /\
       (forall k, k <> cid ->
          dict_get k (active_containers (snd r)) = dict_get k (active_containers w)) /\
       ttl_seconds (extended env delta info) = Some new_ttl /\
       last_activity (extended env delta info) = Some (clock env 0) /\
       new_ttl <= MAX_SESSION_TTL).
Proof.
  intros delta r. subst r. split.
  - intros Hno. apply find_session_None in Hno.
    unfold serve, extend_session, bind, get_world. by rewrite Hno.
  - intros cid0 info0 Hin Hsid.
    destruct (find_session sid (active_containers w)) as [[cid info]|] eqn:E.
    2:{ exfalso. eapply (proj1 (find_session_None _ _) E); eauto. }
    destruct (find_session_elem _ _ _ _ E) as [Hin' Hsid'].
    exists cid, info. split; [done|]. split; [done|].
    assert (Er : serve (extend_session env sid req) w =
      (OK (ExtendResponse.mk sid delta (Z.min (ttl_of info + delta) MAX_SESSION_TTL)),
       set_active_containers
         (dict_set cid (extended env delta info) (active_containers w)) w)).
    { unfold serve, extend_session, bind, get_world. rewrite E. reflexivity. }
    rewrite Er. cbn [fst snd set_active_containers active_containers].
    repeat split; try done.
    + apply dict_get_set_eq.
    + intros k Hk. by apply dict_get_set_ne.
    + lia.
Qed.

(** The spec's third scenario: 120 s extended by 600 s. *)
Lemma extend_session_spec_witness :
  let sid := "6f1c2e0a-0000-4000-8000-000000000001" in
  let r := serve (extend_session (env_at 11000000) sid (extend_request 600))
             persistent_world in
  fst r = OK (ExtendResponse.mk sid 600 720) /\
  exists info,
    dict_get "0123456789ab" (active_containers (snd r)) = Some info /\
    ttl_seconds info = Some 720 /\ last_activity info = Some 11000000.
Proof.
  intros sid r.
  destruct (extend_session_spec (env_at 11000000) sid (extend_request 600)
              persistent_world) as [_ H].
  destruct (dict_get "0123456789ab" (active_containers persistent_world))
    as [info|] eqn:E; [|vm_compute in E; discriminate].
  vm_compute in E. injection E as E.
  destruct (H "0123456789ab" info)
    as (cid & info' & Hin & _ & Hr & _ & Hg & _ & Ht & Hl & _).
  { rewrite <- E. vm_compute. apply list_elem_of_here. }
  { by rewrite <- E. }
  vm_compute in Hin. apply list_elem_of_singleton in Hin.
  injection Hin as -> ->.
  split; [exact Hr|]. eexists. split; [exact Hg|]. split; [exact Ht|exact Hl].
Defined.

(** ** The reaper *)

Lemma try_swallow (m : M unit) w :
  try_except m (fun _ => ret tt) w = (Ret tt, snd (m w)).
Proof. unfold try_except. by destruct (m w) as [[[]|e] w']. Qed.

Lemma docker_get_stop_remove_table env cid w :
  active_containers (snd (docker_get_stop_remove env cid w)) = active_containers w.
Proof.
  apply (keeps_snd (fun w' => active_containers w' = active_containers w));
    [|done].
  apply keeps_docker_get_stop_remove. by split.
Qed.

(** The loop of the reaper over the snapshot [l]: it may end early, with
    an exception; the records it has deleted by then are the expired ones
    before the first record at which it raises. *)
Lemma expire_loop env now l : forall w,
  exists o w',
    for_each l (fun '(k, i) => expire_session env now k i) w = (o, w') /\
    forall k, dict_get k (active_containers w') =
              if reaped now l k then None else dict_get k (active_containers w).
Proof.
  induction l as [|[k0 i0] l IH]; intros w.
  - exists (Ret tt), w. by split.
  - cbn [for_each reaped]. unfold bind at 1.
    unfold expire_session, record_aborts, record_expired.
    destruct (persistent i0) eqn:Hp; cbn [negb andb].
    2:{ unfold ret at 1. destruct (IH w) as (o & w' & E' & T').
        exists o, w'. split; [exact E'|]. intros k. rewrite T'.
        by rewrite andb_false_r. }
    destruct (last_activity_of i0) as [la|] eqn:Hl; [|by exists (Raise (OtherError "TypeError")), w].
    destruct (expires_at la (ttl_of i0)) as [e|];
      [|by exists (Raise (OtherError "OverflowError")), w].
    destruct (expired now la (ttl_of i0)).
    + unfold bind at 1. rewrite try_swallow. unfold bind at 1.
      rewrite untrack_container_eq. unfold ret at 1.
      set (w1 := set_active_containers _ _).
      destruct (IH w1) as (o & w' & E' & T'). exists o, w'. split; [exact E'|].
      intros k. rewrite T'. subst w1.
      cbn [active_containers set_active_containers].
      rewrite docker_get_stop_remove_table, andb_true_r.
      destruct (String.eqb_spec k k0) as [->|Hne]; cbn [orb].
      * rewrite dict_get_del_eq. by destruct (reaped now l k0).
      * by rewrite dict_get_del_ne.
    + unfold ret at 1. destruct (IH w) as (o & w' & E' & T').
      exists o, w'. split; [exact E'|]. intros k. rewrite T'.
      by rewrite andb_false_r.
Qed.

(** With a record in the snapshot whose expiry time cannot be computed,
    the loop ends with [OverflowError]. *)
Lemma expire_loop_raises env now l : forall w,
  (forall k i, (k, i) ∈ l -> is_Some (last_activity_of i)) ->
  (exists k i, (k, i) ∈ l /\ record_aborts i = true) ->
  fst (for_each l (fun '(k, i) => expire_session env now k i) w)
    = Raise (OtherError "OverflowError").
Proof.
  induction l as [|[k0 i0] l IH]; intros w Hla (k & i & Hin & Ha).
  - by apply elem_of_nil in Hin.
  - assert (Hla' : forall k i, (k, i) ∈ l -> is_Some (last_activity_of i)).
    { intros k' i' Hin'. apply (Hla k' i'). apply elem_of_cons. by right. }
    destruct (Hla k0 i0 (list_elem_of_here _ _)) as [la0 Hla0].
    assert (Htail : record_aborts i0 = false ->
                    exists k i, (k, i) ∈ l /\ record_aborts i = true).
    { intros Hna. apply elem_of_cons in Hin as [[= -> ->]|Hin]; [congruence|eauto]. }
    cbn [for_each]. unfold bind at 1. unfold expire_session.
    unfold record_aborts in Htail. rewrite Hla0 in Htail |- *.
    destruct (persistent i0); cbn [negb andb] in *.
    2:{ unfold ret at 1. apply IH; auto. }
    destruct (expires_at la0 (ttl_of i0)); [|done].
    destruct (expired now la0 (ttl_of i0)).
    + unfold bind at 1. rewrite try_swallow. unfold bind at 1.
      rewrite untrack_container_eq. unfold ret at 1. apply IH; auto.
    + unfold ret at 1. apply IH; auto.
Qed.

Lemma record_ok_last_activity_of i : record_ok i -> is_Some (last_activity_of i).
Proof. intros [[la Hla] _]. unfold last_activity_of. rewrite Hla. eauto. Qed.

(** A key the reaper evicts belongs to an expired record of the snapshot
    at which the loop does not raise. *)
Lemma reaped_elem now l k :
  reaped now l k = true ->
  exists i, (k, i) ∈ l /\ record_expired now i = true /\ record_aborts i = false.
Proof.
  induction l as [|[k0 i0] l IH]; cbn [reaped]; [done|].
  destruct (record_aborts i0) eqn:Ha; [done|].
  intros [H|H]%orb_true_iff.
  - apply andb_true_iff in H as [Hk He]. apply String.eqb_eq in Hk as ->.
    exists i0. split; [apply list_elem_of_here|done].
  - destruct (IH H) as (i & Hin & ?). exists i. split; [|done].
    apply elem_of_cons. by right.
Qed.

Lemma reaped_tracked now l k info :
  NoDup (map fst l) -> dict_get k l = Some info ->
  reaped now l k = true ->
  record_expired now info = true /\ record_aborts info = false.
Proof.
  intros Hnd Hget Hr. destruct (reaped_elem _ _ _ Hr) as (i & Hin & He & Ha).
  rewrite (elem_dict_get _ _ _ Hnd Hin) in Hget. by injection Hget as <-.
Qed.

(** What one wake-up does to the table. *)
Lemma reaper_tick_table env w :
  exists w',
    reaper_tick env w = (Ret tt, w') /\
    forall k,
      dict_get k (active_containers w') =
      if fst (get_docker_client env w) is Ret true
      then (if reaped (clock env 0) (active_containers w) k then None
            else dict_get k (active_containers w))
      else dict_get k (active_containers w).
Proof.
  unfold reaper_tick. rewrite try_swallow.
  eexists. split; [reflexivity|].
  unfold cleanup_expired_sessions. unfold bind at 1.
  destruct (get_docker_client_returns env w) as (b & w0 & G). rewrite G.
  destruct (get_docker_client_frame _ _ _ _ G) as (_ & Et & _).
  cbn [fst]. destruct b; cbn [negb]; [|intros k; by rewrite <- Et].
  unfold get_tracked_containers. unfold bind, get_world, ret. cbv beta iota zeta.
  destruct (expire_loop env (clock env 0) (active_containers w0) w0)
    as (o & w' & E & T).
  rewrite E. cbn [snd]. intros k. rewrite T. by rewrite Et.
Qed.

(** One wake-up leaves a tracked record as it is unless the record is
    expired and the loop does not raise at it. *)
Lemma reaper_tick_keeps env w cid info :
  reachable w ->
  dict_get cid (active_containers w) = Some info ->
  record_expired (clock env 0) info = false \/ record_aborts info = true ->
  dict_get cid (active_containers (snd (reaper_tick env w))) = Some info.
Proof.
  intros Hr Hget Hkeep. destruct (reachable_wf w Hr) as [[Hnd _] _].
  destruct (reaper_tick_table env w) as (w' & E & T).
  rewrite E. cbn [snd]. rewrite T.
  destruct (fst (get_docker_client env w)) as [[|]|]; try done.
  destruct (reaped (clock env 0) (active_containers w) cid) eqn:Er; [|done].
  destruct (reaped_tracked _ _ _ _ Hnd Hget Er) as [He Ha].
  destruct Hkeep; congruence.
Qed.

Lemma reaper_tick_reachable env w : reachable w -> reachable (snd (reaper_tick env w)).
Proof. intros H. eapply reachable_step; [exact H|apply step_reaper]. Qed.

Lemma session_cleanup_loop_cons env ticks w :
  snd (session_cleanup_loop (env :: ticks) w) =
  snd (session_cleanup_loop ticks (snd (reaper_tick env w))).
Proof.
  cbn [session_cleanup_loop]. unfold bind at 1.
  assert (E : reaper_tick env w = (Ret tt, snd (reaper_tick env w))).
  { unfold reaper_tick. by rewrite try_swallow. }
  by rewrite E.
Qed.

Lemma session_cleanup_loop_reachable ticks : forall w,
  reachable w -> reachable (snd (session_cleanup_loop ticks w)).
Proof.
  induction ticks as [|env ticks IH]; intros w Hr; [done|].
  rewrite session_cleanup_loop_cons. by apply IH, reaper_tick_reachable.
Qed.

(** On a reachable world that tracks a persistent record whose expiry
    time cannot be computed, [cleanup_expired_sessions] raises. *)
Lemma cleanup_expired_sessions_raises env w cid info la :
  reachable w ->
  dict_get cid (active_containers w) = Some info ->
  persistent info = true ->
  last_activity_of info = Some la ->
  expires_at la (ttl_of info) = None ->
  fst (cleanup_expired_sessions env w) = Raise (OtherError "OverflowError").
Proof.
  intros Hr Hget Hp Hla Hov. destruct (reachable_wf w Hr) as [[_ Hrec] Hd].
  assert (Hdock : docker_ok w).
  { apply Hd. intros Hnil. by rewrite Hnil in Hget. }
  unfold cleanup_expired_sessions. unfold bind at 1.
  rewrite (get_docker_client_ok env w Hdock). cbn [negb].
  unfold get_tracked_containers. unfold bind, get_world, ret.
  cbv beta iota zeta. apply expire_loop_raises.
  - intros k i Hin. eapply record_ok_last_activity_of, Hrec, Hin.
  - exists cid, info. split; [by apply dict_get_elem|].
    unfold record_aborts. by rewrite Hp, Hla, Hov.
Qed.

(** A key the table does not have is not brought back by the reaper. *)
Lemma session_cleanup_loop_absent ticks : forall w k,
  reachable w -> dict_get k (active_containers w) = None ->
  dict_get k (active_containers (snd (session_cleanup_loop ticks w))) = None.
Proof.
  induction ticks as [|env ticks IH]; intros w k Hr Hk; [done|].
  rewrite session_cleanup_loop_cons. apply IH; [by apply reaper_tick_reachable|].
  destruct (reaper_tick_table env w) as (w' & E & T).
  rewrite E. cbn [snd]. rewrite T, Hk.
  destruct (fst (get_docker_client env w)) as [[|]|]; try done.
  by destruct (reaped _ _ _).
Qed.

(** On a table without a record at which the loop raises, the first
    wake-up with an engine client evicts a persistent record for which
    now > last_activity + ttl_seconds, whatever the engine's get,
    stop(timeout=5) and remove answer or raise, and leaves a record that is
    not persistent as it is. *)
Lemma reaper_tick_evicts env w cid info la :
  reachable w ->
  dict_get cid (active_containers w) = Some info ->
  (forall k i, (k, i) ∈ active_containers w -> record_aborts i = false) ->
  persistent info = true ->
  last_activity_of info = Some la ->
  clock env 0 - la > timedelta_seconds (ttl_of info) ->
  dict_in cid (active_containers (snd (reaper_tick env w))) = false.
Proof.
  intros Hr Hget Hok Hp Hla Hexp.
  destruct (reachable_wf w Hr) as [[Hnd _] Hd].
  assert (Hdock : docker_ok w).
  { apply Hd. intros Hnil. by rewrite Hnil in Hget. }
  destruct (reaper_tick_table env w) as (w' & E & T).
  rewrite E. cbn [snd]. unfold dict_in. rewrite T.
  rewrite (get_docker_client_ok env w Hdock). cbn [fst].
  assert (Hreaped : reaped (clock env 0) (active_containers w) cid = true);
    [|by rewrite Hreaped].
  assert (He : record_expired (clock env 0) info = true).
  { pose proof (Hok cid info (dict_get_elem _ _ _ Hget)) as Ha.
    unfold record_aborts, record_expired in *. rewrite Hp, Hla in *.
    cbn [andb] in *. destruct (expires_at la (ttl_of info)); [|done].
    unfold expired. apply Z.ltb_lt. lia. }
  clear T E Hnd Hd Hdock Hr. revert Hget Hok.
  induction (active_containers w) as [|[k0 i0] l IH]; cbn [dict_get reaped];
    [done|].
  intros Hget Hok. rewrite (Hok k0 i0 (list_elem_of_here _ _)).
  destruct (String.eqb_spec cid k0) as [->|Hne]; cbn [andb orb].
  - injection Hget as ->. by rewrite He.
  - apply IH; [done|]. intros k i Hin. apply (Hok k i). apply elem_of_cons. by right.
Qed.

Lemma persistent_world_reachable : reachable persistent_world.
Proof.
  apply (reachable_step fresh_world); [apply reachable_initial|].
  apply (step_start no_cpu_quota quiet_env (request_ttl (Some 120))).
Qed.

(** C8 (the code deviates).  A persistent record whose expiry time
    [last_activity + timedelta(seconds=ttl)] cannot be computed, because
    the TTL is beyond the range of [timedelta] or the sum is not a
    [datetime], is never evicted: [cleanup_expired_sessions] raises
    [OverflowError] when its loop reaches the record, outside the inner
    [try], and the background task prints and drops the exception.  So in
    a reachable world such a record is still in the session table,
    unchanged, after any number of wake-ups, at whatever times they
    happen, and the next [cleanup_expired_sessions] raises again; for a
    hugely negative TTL this is so although
    now - last_activity > ttl_seconds holds at every wake-up. *)
Theorem reaper_never_evicts_out_of_range ticks w cid info la :
  reachable w ->
  dict_get cid (active_containers w) = Some info ->
  persistent info = true ->
  last_activity_of info = Some la ->
  expires_at la (ttl_of info) = None ->
  dict_get cid (active_containers (snd (session_cleanup_loop ticks w)))
    = Some info /\
  forall env,
    fst (cleanup_expired_sessions env (snd (session_cleanup_loop ticks w)))
    = Raise (OtherError "OverflowError").
Proof.
  intros Hr Hget Hp Hla Hov.
  assert (Hkept : dict_get cid
                    (active_containers (snd (session_cleanup_loop ticks w)))
                  = Some info).
  { revert w Hr Hget. induction ticks as [|env ticks IH]; intros w Hr Hget;
      [done|].
    rewrite session_cleanup_loop_cons.
    apply IH; [by apply reaper_tick_reachable|].
    apply reaper_tick_keeps; [done..|]. right.
    unfold record_aborts. by rewrite Hp, Hla, Hov. }
  split; [exact Hkept|]. intros env.
  by apply (cleanup_expired_sessions_raises env _ cid info la);
    [apply session_cleanup_loop_reachable|..].
Qed.

(** A session with last activity at 1 s, extended by minus 10^14 seconds:
    its TTL is -99999999999880 s, so now - last_activity > ttl_seconds at
    the wake-up one [CLEANUP_INTERVAL] later, and it is still tracked after
    the wake-ups one and two [CLEANUP_INTERVAL]s later. *)
Lemma reaper_never_evicts_out_of_range_witness :
  (ttl_seconds <$> dict_get "0123456789ab" (active_containers stuck_world))
    = Some (Some (-99999999999880)) /\
  (1000000 + timedelta_seconds CLEANUP_INTERVAL) - 1000000
    > timedelta_seconds (-99999999999880) /\
  dict_in "0123456789ab"
    (active_containers
       (snd (session_cleanup_loop
               [env_at (1000000 + timedelta_seconds CLEANUP_INTERVAL);
                env_at (1000000 + timedelta_seconds (2 * CLEANUP_INTERVAL))]
               stuck_world)))
  = true.
Proof.
  split; [reflexivity|]. split; [reflexivity|].
  destruct (dict_get "0123456789ab" (active_containers stuck_world))
    as [info|] eqn:E; [|vm_compute in E; discriminate].
  assert (Hr : reachable stuck_world).
  { eapply reachable_step; [exact persistent_world_reachable|].
    apply (step_extend quiet_env (uuid4 quiet_env)
             (extend_request (-100000000000000))). }
  pose proof E as E'. vm_compute in E'. injection E' as E'.
  destruct (reaper_never_evicts_out_of_range
              [env_at (1000000 + timedelta_seconds CLEANUP_INTERVAL);
               env_at (1000000 + timedelta_seconds (2 * CLEANUP_INTERVAL))]
              stuck_world "0123456789ab" info 1000000 Hr E) as [H _].
  1-3: by rewrite <- E'.
  unfold dict_in. by rewrite H.
Defined.

(** ** Remaining seconds *)

(** Within a day of the last activity the reported value is the one the
    spec gives, with the elapsed time in whole seconds. *)
Lemma remaining_seconds_within_a_day now la ttl :
  0 <= now - la < 86400000000 ->
  remaining_seconds now la ttl = Z.max 0 (ttl - (now - la) / 1000000).
Proof.
  intros H. unfold remaining_seconds, td_seconds.
  by rewrite Z.mod_small.
Qed.

(** C9 (the code deviates).  [(now - last_activity).seconds] drops the
    whole days of the elapsed time: for a session with a TTL of 120 s whose
    last activity was one day and ten seconds ago, both [list_sessions]
    and [container_status] report 110 remaining seconds, where
    max(0, ttl - elapsed) is 0. *)
Theorem remaining_seconds_wraps_after_a_day :
  let now := 1000000 + 86410 * 1000000 in
  let elapsed_seconds := (now - 1000000) / 1000000 in
  (exists e,
     fst (serve (list_sessions (env_at now)) persistent_world) = OK [e] /\
     SessionEntry.ttl_seconds e = 120 /\
     SessionEntry.last_activity e = Some 1000000 /\
     SessionEntry.remaining_seconds e = 110) /\
  (exists e s,
     fst (serve (container_status (env_at now)) persistent_world) = OK (Some [e]) /\
     StatusEntry.session e = Some s /\
     StatusSession.remaining_seconds s = 110) /\
  elapsed_seconds = 86410 /\
  Z.max 0 (120 - elapsed_seconds) = 0.
Proof.
  vm_compute. split; [|split; [|done]].
  - eexists. split; [reflexivity|]. done.
  - eexists _, _. split; [reflexivity|]. done.
Qed.

(** * Further properties of the container manager *)

(** ** The engine client is decided once *)

(** X1.  The verdict of [get_docker_client] is final: once a call has
    returned a client, or has returned none, every later call returns the
    same without changing the world, so without asking the engine again,
    whatever the engine would answer by then. *)
Theorem get_docker_client_sticky env w b w' :
  get_docker_client env w = (Ret b, w') ->
  forall env', get_docker_client env' w' = (Ret b, w').
Proof.
  intros G env'. destruct b.
  - apply get_docker_client_ok. eapply get_docker_client_true, G.
  - eapply get_docker_client_false, G.
Qed.

(** An engine that was unreachable at the first call and is back later. *)
Lemma get_docker_client_sticky_witness :
  get_docker_client quiet_env (snd (get_docker_client no_docker_env fresh_world))
  = (Ret false, snd (get_docker_client no_docker_env fresh_world)).
Proof.
  apply (get_docker_client_sticky no_docker_env fresh_world). reflexivity.
Defined.

(** ** Output truncation *)

Lemma substring_length n s :
  String.length (String.substring 0 n s) = Nat.min n (String.length s).
Proof.
  revert s. induction n as [|n IH]; intros [|c s]; simpl; auto.
Qed.

Lemma execution_result_of_bounded r P :
  triple P (execution_result_of r) (fun result _ => output_bounded result)
    (fun _ => any).
Proof.
  intros w _. rewrite execution_result_of_eq. unfold execution_outcome.
  destruct (decodable _ && decodable _); [|done].
  unfold output_bounded, truncate_output. simpl.
  rewrite !substring_length. lia.
Qed.

Lemma container_exec_try_bounded env req :
  triple any (container_exec_try env req)
    (fun body _ => output_bounded (ExecResponse.result body)) (fun _ => any).
Proof.
  unfold container_exec_try.
  eapply triple_bind; [apply triple_any|]. intros b.
  eapply triple_bind; [apply triple_any|]. intros ?.
  eapply triple_bind; [apply triple_any|]. intros ?.
  eapply triple_bind; [apply triple_any|]. intros r.
  eapply triple_bind; [apply execution_result_of_bounded|]. intros result.
  apply triple_ret. intros w Hw. exact Hw.
Qed.

Lemma container_start_try_bounded env req c o :
  triple any (container_start_try env req c o)
    (fun body _ => forall r, StartResponse.execution_result body = Some r ->
                             output_bounded r) (fun _ => any).
Proof.
  unfold container_start_try.
  eapply triple_bind; [apply triple_any|]. intros b.
  eapply triple_bind; [apply triple_any|]. intros ?.
  eapply triple_bind; [apply triple_any|]. intros full.
  eapply triple_bind; [apply triple_any|]. intros info.
  eapply triple_bind; [apply triple_any|]. intros ?.
  eapply triple_bind; [apply triple_any|]. intros tracked.
  eapply triple_bind; [apply triple_any|]. intros sid.
  eapply triple_bind with
    (R := fun result _ => forall r, result = Some r -> output_bounded r).
  - destruct (truthy (ContainerStartRequest.code req)).
    + unfold run_code.
      eapply triple_bind; [|intros r0; apply triple_ret; intros w0 Hw0; exact Hw0].
      eapply triple_bind; [apply triple_any|]. intros ?.
      eapply triple_bind; [apply triple_any|]. intros r1.
      eapply triple_conseq; [apply (execution_result_of_bounded r1 any)|auto| |auto].
      by intros res w0 Hb r [= <-].
    + apply triple_ret. intros w0 _ r [=].
  - intros result. intros w0 Hres.
    match goal with |- context [bind ?m ?k w0] =>
      unfold bind at 1; destruct (m w0) as [[x|e] w1]; [|done] end.
    simpl. exact Hres.
Qed.

(** X2.  Every exec response, and every execution result of a start
    response, carries at most [MAX_OUTPUT_LENGTH] characters of stdout and
    of stderr. *)
Theorem output_truncated :
  (forall env req w body,
     fst (serve (container_exec env req) w) = OK body ->
     output_bounded (ExecResponse.result body)) /\
  (forall cpu env req w body r,
     fst (serve (container_start cpu env req) w) = OK body ->
     StartResponse.execution_result body = Some r ->
     output_bounded r).
Proof.
  split.
  - intros env req w body H.
    destruct (serve (container_exec env req) w) as [x w'] eqn:E.
    simpl in H. subst x. apply serve_OK in E.
    unfold container_exec in E. unfold bind at 1 in E.
    unfold is_container_tracked, bind, get_world, ret in E.
    cbv beta iota in E.
    destruct (dict_in _ _); cbn [negb] in E; [|discriminate].
    destruct (update_container_activity env _ w) as [[u|e] w1]; [|discriminate].
    unfold try_except in E.
    pose proof (container_exec_try_bounded env req w1 I) as Hb.
    destruct (container_exec_try env req w1) as [[a|e] w2].
    + by injection E as <- _.
    + unfold container_exec_except in E.
      destruct (type_name_has_NotFound e); [|discriminate].
      unfold bind in E. by destruct (untrack_container _ w2) as [[?|?] ?].
  - intros cpu env req w body r H Hr.
    destruct (serve (container_start cpu env req) w) as [x w'] eqn:E.
    simpl in H. subst x.
    apply container_start_OK in E as (c & o & w1 & E).
    pose proof (container_start_try_bounded env req c o w1 I) as Hb.
    rewrite E in Hb. by apply Hb.
Qed.

(** The one-shot run: its output is short. *)
Lemma output_truncated_witness :
  output_bounded (ExecutionResult.mk 0 "4" "").
Proof.
  destruct output_truncated as [_ H].
  apply (H no_cpu_quota quiet_env code_request fresh_world
           (StartResponse.mk "started" "0123456789ab" "python-sandbox"
              (Some (ExecutionResult.mk 0 "4" "")) None)); reflexivity.
Defined.

(** ** The invariant of the reachable worlds *)

(** X3.  In every world the service can reach, the session table has one
    record per container id, every record carries a session id, a start
    time and a last activity, and when the table is not empty the engine
    client is available: [get_docker_client] returns it and leaves the
    world as it is. *)
Theorem reachable_table_invariant w :
  reachable w ->
  NoDup (map fst (active_containers w)) /\
  (forall k i, dict_get k (active_containers w) = Some i ->
     is_Some (session_id i) /\ is_Some (started_at i) /\
     is_Some (last_activity i)) /\
  (active_containers w <> [] ->
     forall env, get_docker_client env w = (Ret true, w)).
Proof.
  intros Hr. destruct (reachable_wf w Hr) as [[Hnd Hrec] Hd].
  split; [done|]. split.
  - intros k i Hk. destruct (Hrec k i (dict_get_elem _ _ _ Hk)) as (?&?&?).
    done.
  - intros Hne env. by apply get_docker_client_ok, Hd.
Qed.

(** The world after one persistent start. *)
Lemma reachable_table_invariant_witness :
  NoDup (map fst (active_containers persistent_world)) /\
  get_docker_client no_docker_env persistent_world = (Ret true, persistent_world).
Proof.
  destruct (reachable_table_invariant persistent_world
              persistent_world_reachable) as (H1 & _ & H3).
  split; [exact H1|]. apply H3. discriminate.
Defined.

(** ** What stop, close and cleanup do to the table *)

Lemma get_docker_client_table env w :
  active_containers (snd (get_docker_client env w)) = active_containers w.
Proof.
  destruct (get_docker_client_returns env w) as (b & w' & G). rewrite G.
  simpl. by destruct (get_docker_client_frame _ _ _ _ G) as (_ & Et & _).
Qed.

(** The sweep of [container_cleanup]: it returns, its list of stopped ids
    is drawn from [ids], and the table loses exactly the keys of [ids]. *)
Lemma container_cleanup_loop_spec env ids : forall w,
  exists stopped w',
    container_cleanup_loop env ids w = (Ret stopped, w') /\
    (forall k, k ∈ stopped -> k ∈ ids) /\
    (forall k, dict_get k (active_containers w') =
               if existsb (String.eqb k) ids then None
               else dict_get k (active_containers w)).
Proof.
  induction ids as [|cid ids IH]; intros w.
  - exists [], w. repeat split; try done.
  - cbn [container_cleanup_loop]. unfold bind at 1.
    assert (Hone : exists ok w1,
      try_except (docker_get_stop_remove env cid ;; ret true)
        (fun _ => ret false) w = (Ret ok, w1) /\
      active_containers w1 = active_containers w).
    { pose proof (docker_get_stop_remove_table env cid w) as Ht.
      unfold try_except, bind, ret.
      destruct (docker_get_stop_remove env cid w) as [[[]|e] w1];
        simpl in Ht; eauto. }
    destruct Hone as (ok & w1 & -> & T1).
    unfold bind at 1. rewrite untrack_container_eq.
    set (w2 := set_active_containers _ w1).
    destruct (IH w2) as (stopped & w' & E & Hsub & Ht).
    unfold bind at 1. rewrite E. unfold ret.
    eexists _, w'. split; [reflexivity|]. split.
    + intros k Hk. destruct ok.
      * apply elem_of_cons in Hk as [->|Hk]; apply elem_of_cons; auto.
      * apply elem_of_cons. auto.
    + intros k. rewrite Ht. subst w2. cbn [active_containers set_active_containers].
      rewrite T1. cbn [existsb].
      destruct (String.eqb_spec k cid) as [->|Hne]; cbn [orb].
      * rewrite dict_get_del_eq. by destruct (existsb _ ids).
      * by rewrite dict_get_del_ne.
Qed.

Lemma existsb_keys {V} k (d : list (string * V)) v :
  dict_get k d = Some v -> existsb (String.eqb k) (map fst d) = true.
Proof.
  induction d as [|[k0 v0] d IH]; simpl; [done|].
  destruct (String.eqb_spec k k0); simpl; auto.
Qed.

Lemma dict_all_None {V} (d : list (string * V)) :
  (forall k, dict_get k d = None) -> d = [].
Proof.
  destruct d as [|[k v] d]; [done|]. intros H. specialize (H k).
  simpl in H. by rewrite String.eqb_refl in H.
Qed.

(** X5.  The cleanup endpoint never fails and always leaves the session
    table empty, whatever the engine does.  With a client, the ids it
    reports as stopped are tracked ids and [count] is their number;
    without one, nothing is reported as stopped, [cleared_tracking] is the
    number of records dropped, and no engine container is touched.  On a
    reachable world that number can only be 0: records exist only once a
    client was obtained, and a client once obtained is kept. *)
Theorem container_cleanup_empties env w :
  exists body w',
    serve (container_cleanup env) w = (OK body, w') /\
    active_containers w' = [] /\
    CleanupResponse.count body = Z.of_nat (length (CleanupResponse.stopped body)) /\
    (forall k, k ∈ CleanupResponse.stopped body -> k ∈ map fst (active_containers w)) /\
    (fst (get_docker_client env w) = Ret false ->
     CleanupResponse.stopped body = [] /\
     CleanupResponse.cleared_tracking body =
       Some (Z.of_nat (length (active_containers w))) /\
     engine w' = engine w) /\
    (reachable w ->
     forall n, CleanupResponse.cleared_tracking body = Some n -> n = 0).
Proof.
  destruct (get_docker_client_returns env w) as (b & w0 & G).
  destruct (get_docker_client_frame _ _ _ _ G) as (Eg & Et & _).
  unfold serve, container_cleanup. unfold bind at 1. rewrite G. cbn [fst].
  destruct b; cbn [negb].
  - unfold get_tracked_containers. unfold bind, get_world, ret.
    cbv beta iota.
    destruct (container_cleanup_loop_spec env (map fst (active_containers w0)) w0)
      as (stopped & w' & E & Hsub & Ht).
    rewrite E. eexists _, w'. split; [reflexivity|].
    cbn [CleanupResponse.count CleanupResponse.stopped
         CleanupResponse.cleared_tracking].
    repeat split; try done.
    + apply dict_all_None. intros k. rewrite Ht.
      destruct (dict_get k (active_containers w0)) as [v|] eqn:Ek.
      * by rewrite (existsb_keys _ _ _ Ek).
      * by destruct (existsb _ _).
    + intros k Hk. rewrite <- Et. by apply Hsub.
  - unfold bind, get_world, modify, ret. cbv beta iota.
    eexists _, _. split; [reflexivity|]. cbn. rewrite Et, Eg.
    repeat split; try done.
    + intros k Hk. by apply elem_of_nil in Hk.
    + intros Hr n [= <-]. destruct (reachable_wf w Hr) as [_ Hd].
      destruct (active_containers w) as [|p t]; [done|].
      rewrite (get_docker_client_ok env w) in G; [discriminate|].
      by apply Hd.
Qed.

(** A cleanup in a fresh process that cannot reach the engine. *)
Lemma container_cleanup_empties_witness :
  exists body w',
    serve (container_cleanup no_docker_env) fresh_world = (OK body, w') /\
    CleanupResponse.cleared_tracking body = Some 0.
Proof.
  destruct (container_cleanup_empties no_docker_env fresh_world)
    as (body & w' & Hs & _ & _ & _ & Hno & _).
  exists body, w'. split; [exact Hs|].
  destruct Hno as (_ & Hc & _); [reflexivity|]. rewrite Hc. reflexivity.
Defined.

(** What [close_session] answers and does to the table, by the first
    record that has the session id. *)
Lemma close_session_run env sid w :
  exists w',
    serve (close_session env sid) w =
      (match find_session sid (active_containers w) with
       | Some (cid, _) => OK (CloseResponse.mk sid cid "closed")
       | None => HTTPError 404 SessionNotFound
       end, w') /\
    active_containers w' =
      match find_session sid (active_containers w) with
      | Some (cid, _) => dict_del cid (active_containers w)
      | None => active_containers w
      end.
Proof.
  destruct (get_docker_client_returns env w) as (b & w0 & G).
  destruct (get_docker_client_frame _ _ _ _ G) as (_ & Et & _).
  unfold serve, close_session. unfold bind at 1. rewrite G.
  unfold get_tracked_containers. unfold bind at 1. unfold bind at 1.
  unfold get_world at 1, ret at 1. cbv beta iota. rewrite Et.
  destruct (find_session sid (active_containers w)) as [[cid info]|];
    [|by exists w0].
  unfold bind at 1.
  assert (Hone : exists w1,
    (if b then try_except (docker_get_stop_remove env cid) (fun _ => ret tt)
     else ret tt) w0 = (Ret tt, w1) /\
    active_containers w1 = active_containers w0).
  { destruct b; [|by exists w0]. rewrite try_swallow. eexists. split; [done|].
    apply docker_get_stop_remove_table. }
  destruct Hone as (w1 & -> & T1). unfold bind, ret.
  rewrite untrack_container_eq. eexists. split; [reflexivity|].
  cbn. by rewrite T1, Et.
Qed.

(** X6.  Closing a session: when no tracked record has the session id the
    answer is SessionNotFound (404) and the table is as it was; otherwise
    the answer is ["closed"] for the container of a record with that
    session id and exactly that container's record is deleted from the
    table, whether or not the engine could stop and remove the container. *)
Theorem close_session_spec env sid w :
  let r := serve (close_session env sid) w in
  ((forall cid info, (cid, info) ∈ active_containers w ->
                     session_id info <> Some sid) ->
   fst r = HTTPError 404 SessionNotFound /\
   active_containers (snd r) = active_containers w) /\
  (forall cid0 info0,
     (cid0, info0) ∈ active_containers w -> session_id info0 = Some sid ->
     exists cid info,
       (cid, info) ∈ active_containers w /\ session_id info = Some sid /\
       fst r = OK (CloseResponse.mk sid cid "closed") /\
       active_containers (snd r) = dict_del cid (active_containers w) /\
       dict_in cid (active_containers (snd r)) = false).
Proof.
  intros r. subst r.
  destruct (close_session_run env sid w) as (w' & Hr & Ht).
  rewrite Hr. cbn [fst snd]. rewrite Ht. clear Hr Ht.
  split.
  - intros Hno. apply find_session_None in Hno. by rewrite Hno.
  - intros cid0 info0 Hin Hsid.
    destruct (find_session sid (active_containers w)) as [[cid info]|] eqn:E.
    2:{ exfalso. eapply (proj1 (find_session_None _ _) E); eauto. }
    destruct (find_session_elem _ _ _ _ E) as [Hin' Hsid'].
    exists cid, info. repeat split; try done. apply dict_in_del_eq.
Qed.

(** Closing the session of [persistent_world] while the engine's stop
    fails. *)
Lemma close_session_spec_witness :
  fst (serve (close_session stop_fails_env (uuid4 quiet_env)) persistent_world)
    = OK (CloseResponse.mk (uuid4 quiet_env) "0123456789ab" "closed") /\
  active_containers
    (snd (serve (close_session stop_fails_env (uuid4 quiet_env)) persistent_world))
    = [].
Proof.
  destruct (close_session_spec stop_fails_env (uuid4 quiet_env) persistent_world)
    as [_ H].
  destruct (dict_get "0123456789ab" (active_containers persistent_world))
    as [info|] eqn:E; [|vm_compute in E; discriminate].
  vm_compute in E. injection E as E.
  destruct (H "0123456789ab" info) as (cid & info' & Hin & _ & Hr & Ht & _).
  { rewrite <- E. vm_compute. apply list_elem_of_here. }
  { by rewrite <- E. }
  vm_compute in Hin. apply list_elem_of_singleton in Hin.
  injection Hin as -> ->.
  split; [exact Hr|]. rewrite Ht. vm_compute. reflexivity.
Defined.

Lemma dict_del_set {V} k (v : V) d : dict_del k (dict_set k v d) = dict_del k d.
Proof.
  induction d as [|[k0 v0] d IH]; simpl.
  - by rewrite String.eqb_refl.
  - destruct (String.eqb k k0) eqn:E; simpl; rewrite E; [done|]. by rewrite IH.
Qed.

Lemma dict_in_nonempty {V} k (d : list (string * V)) :
  dict_in k d = true -> d <> [].
Proof. by destruct d. Qed.

(** X7.  On a reachable world an exec on a tracked container always gets
    the engine client, so its answer is decided by the engine alone (the
    503 branch cannot be taken): if the engine no longer has the container
    the answer is NoLongerExists (404) and the record is deleted; if it
    has it, a returning [exec_run] is answered 200 with the truncated
    result when both of its streams decode and ExecFailed (500) when one
    does not, and a raising one 500 (404, with the record deleted, when
    the exception's type name contains NotFound); otherwise the record
    stays, touched.  The engine's containers are never changed. *)
Theorem exec_on_reachable env req w info :
  let cid := ContainerExecRequest.container_id req in
  reachable w ->
  dict_get cid (active_containers w) = Some info ->
  get_fault env cid = None ->
  exists w',
    serve (container_exec env req) w =
      (match engine w !! cid, exec_run_result env with
       | None, _ => HTTPError 404 NoLongerExists
       | Some _, inr r =>
           match execution_outcome r with
           | Ret result =>
               OK (ExecResponse.mk cid (ContainerExecRequest.command req) result)
           | Raise _ => HTTPError 500 ExecFailed
           end
       | Some _, inl e =>
           if type_name_has_NotFound e then HTTPError 404 NoLongerExists
           else HTTPError 500 ExecFailed
       end, w') /\
    engine w' = engine w /\
    active_containers w' =
      match engine w !! cid, exec_run_result env with
      | Some _, inr _ =>
          dict_set cid (set_last_activity (clock env 0) info) (active_containers w)
      | Some _, inl e =>
          if type_name_has_NotFound e then dict_del cid (active_containers w)
          else dict_set cid (set_last_activity (clock env 0) info)
                 (active_containers w)
      | None, _ => dict_del cid (active_containers w)
      end.
Proof.
  intros cid Hr Hget Hf.
  assert (Hd : docker_ok w).
  { apply (reachable_wf _ Hr). intros E. by rewrite E in Hget. }
  unfold serve. rewrite (container_exec_tracked _ _ _ _ Hget). fold cid.
  assert (Hd' : docker_ok (touched env cid info w)) by exact Hd.
  unfold try_except, container_exec_try. unfold bind at 1.
  rewrite (get_docker_client_ok _ _ Hd'). cbn [negb].
  unfold bind at 1. unfold ret at 1. cbv beta iota.
  unfold bind at 1. fold cid. rewrite docker_containers_get_eq, Hf.
  cbn [engine touched set_active_containers log_call].
  destruct (engine w !! cid) as [st|] eqn:Est.
  - unfold bind, docker_exec_run, ret.
    destruct (exec_run_result env) as [e|r].
    + unfold container_exec_except.
      destruct (type_name_has_NotFound e).
      * unfold bind, raise. rewrite untrack_container_eq.
        eexists. split; [reflexivity|]. cbn. by rewrite dict_del_set.
      * eexists. split; [reflexivity|]. by cbn.
    + rewrite execution_result_of_eq. unfold execution_outcome.
      destruct (decodable _ && decodable _).
      * eexists. split; [reflexivity|]. by cbn.
      * eexists. split; [reflexivity|]. by cbn.
  - unfold container_exec_except. cbn [type_name_has_NotFound].
    unfold bind, raise. rewrite untrack_container_eq.
    eexists. split; [reflexivity|]. cbn. by rewrite dict_del_set.
Qed.

(** An exec in the session of [persistent_world] on a quiet engine. *)
Lemma exec_on_reachable_witness :
  exists body w',
    serve (container_exec quiet_env echo_request) persistent_world = (OK body, w') /\
    ExecResponse.container_id body = "0123456789ab".
Proof.
  destruct (dict_get "0123456789ab" (active_containers persistent_world))
    as [info|] eqn:E; [|vm_compute in E; discriminate].
  destruct (exec_on_reachable quiet_env echo_request persistent_world info
              persistent_world_reachable E eq_refl) as (w' & Hs & _).
  change (engine persistent_world !! ContainerExecRequest.container_id echo_request)
    with (Some running) in Hs.
  eexists _, w'. split; [exact Hs|reflexivity].
Defined.

Lemma container_start_try_run_fails env req c o w e :
  run_result env = inl e ->
  exists e' w',
    container_start_try env req c o w = (Raise e', w') /\
    active_containers w' = active_containers w /\ engine w' = engine w /\
    (fst (get_docker_client env w) = Ret true -> e' = e).
Proof.
  intros Hrun. unfold container_start_try. unfold bind at 1.
  destruct (get_docker_client_returns env w) as (b & w0 & G). rewrite G.
  destruct (get_docker_client_frame _ _ _ _ G) as (Eg & Et & _).
  destruct b; cbn [negb].
  - unfold bind at 1. unfold ret at 1. cbv beta iota.
    unfold bind at 1. unfold docker_run. rewrite Hrun.
    eexists _, _. split; [reflexivity|]. by cbn.
  - eexists _, _. split; [reflexivity|]. cbn. repeat split; try done.
Qed.

(** X8.  A start whose [containers.run] raises is never answered 200,
    adds no record to the table and no container to the engine.  For an
    allowed profile with valid options and an engine client, the answer is
    ImageNotFound (404) when the exception is [ImageNotFound] and
    StartFailed (500) for any other exception. *)
Theorem start_run_failure cpu env req w e :
  run_result env = inl e ->
  exists resp w',
    serve (container_start cpu env req) w = (resp, w') /\
    (forall body, resp <> OK body) /\
    active_containers w' = active_containers w /\
    engine w' = engine w /\
    (forall c,
       registry_profiles w !! ContainerStartRequest.container_name req = Some c ->
       (truthy (cpus (resources c)) = true ->
        is_Some (cpu (default "" (cpus (resources c))))) ->
       fst (get_docker_client env w) = Ret true ->
       resp = if is_ImageNotFound e then HTTPError 404 ImageNotFoundDetail
              else HTTPError 500 StartFailed).
Proof.
  intros Hrun.
  destruct (registry_profiles w !! ContainerStartRequest.container_name req)
    as [c|] eqn:Hc.
  - destruct (get_docker_client_returns env w) as (b & w0 & G).
    destruct (get_docker_client_frame _ _ _ _ G) as (Eg & Et & _).
    unfold serve. rewrite (container_start_allowed_eq _ _ _ _ _ _ _ Hc G).
    set (w1 := if b && _ then _ else _). set (img := default _ _).
    assert (E1 : active_containers w1 = active_containers w /\ engine w1 = engine w).
    { subst w1. by destruct (b && _). }
    assert (G1 : fst (get_docker_client env w) = Ret true ->
                 fst (get_docker_client env w1) = Ret true).
    { rewrite G. intros [= ->]. subst w1.
      pose proof (get_docker_client_true _ _ _ G) as Hd.
      destruct (true && _); [|by rewrite (get_docker_client_ok _ _ Hd)].
      by rewrite get_docker_client_ok. }
    destruct E1 as [Et1 Eg1]. clearbody w1.
    unfold bind at 1.
    destruct (container_options_cases cpu req c img w1) as [[o Ho]|Ho]; rewrite Ho.
    + destruct (container_start_try_run_fails env req c o w1 e Hrun)
        as (e' & w' & Hs & Ht & He & Hee).
      unfold try_except. rewrite Hs. unfold start_handler.
      exists (if is_ImageNotFound e' then HTTPError 404 ImageNotFoundDetail
              else HTTPError 500 StartFailed), w'.
      split; [|split; [|split; [|split]]].
      * destruct (is_ImageNotFound e'); reflexivity.
      * intros body. by destruct (is_ImageNotFound e').
      * destruct (is_ImageNotFound e'); cbn; congruence.
      * destruct (is_ImageNotFound e'); cbn; congruence.
      * intros c' [= <-] _ Hg. rewrite (Hee (G1 Hg)).
        by destruct (is_ImageNotFound e).
    + eexists _, w1. split; [reflexivity|]. repeat split; try done.
      intros c' [= <-] Hcpu _. exfalso.
      unfold container_options, bind, ret, raise in Ho.
      destruct (truthy (cpus (resources c))); [|discriminate].
      destruct (Hcpu eq_refl) as [q Hq]. by rewrite Hq in Ho.
  - unfold serve, container_start. unfold bind at 1.
    rewrite is_container_allowed_eq, Hc. destruct (registry_ok w); cbn.
    all: eexists _, w; (split; [reflexivity|]); repeat split; try done.
Qed.

(** A start of the sample profile when the image is missing. *)
Lemma start_run_failure_witness :
  exists w',
    serve (container_start no_cpu_quota image_missing_env (request_ttl (Some 120)))
      fresh_world = (HTTPError 404 ImageNotFoundDetail, w') /\
    active_containers w' = [].
Proof.
  destruct (start_run_failure no_cpu_quota image_missing_env
              (request_ttl (Some 120)) fresh_world ImageNotFound eq_refl)
    as (resp & w' & Hs & _ & Ht & _ & Hr).
  exists w'. rewrite Hs, Ht. split; [|reflexivity]. f_equal.
  apply (Hr python_sandbox); [reflexivity|discriminate|reflexivity].
Defined.

(** ** Every stored TTL is capped *)

Lemma ttl_ok_engine_blind : engine_blind ttl_ok.
Proof. split; intros w x Hw; exact Hw. Qed.

Lemma keeps_ttl_get_docker_client env : keeps ttl_ok (get_docker_client env).
Proof.
  intros w Hw. destruct (get_docker_client_returns env w) as (b & w0 & G).
  rewrite G. destruct (get_docker_client_frame _ _ _ _ G) as (_ & Et & _).
  unfold ttl_ok. by rewrite Et.
Qed.

Lemma keeps_ttl_untrack k : keeps ttl_ok (untrack_container k).
Proof.
  intros w Hw. unfold untrack_container, bind, get_world, modify, ret.
  destruct (dict_in k (active_containers w)); simpl; [|done].
  intros k' i Hin. eapply Hw, elem_dict_del, Hin.
Qed.

Lemma ttl_ok_set k i w :
  ttl_ok w -> ttl_bounded i ->
  ttl_ok (set_active_containers (dict_set k i (active_containers w)) w).
Proof.
  intros Hw Hi k' i' Hin. simpl in Hin.
  apply elem_dict_set in Hin as [Heq|Hin]; [|eauto]. by inversion Heq; subst.
Qed.

Lemma keeps_ttl_update_container_activity env k :
  keeps ttl_ok (update_container_activity env k).
Proof.
  intros w Hw. unfold update_container_activity, bind, get_world, modify, ret.
  destruct (dict_get k (active_containers w)) as [info|] eqn:E; simpl; [|done].
  apply ttl_ok_set; [done|]. apply (Hw k info). by apply dict_get_elem.
Qed.

Lemma keeps_ttl_track_container env k info :
  ttl_bounded info -> keeps ttl_ok (track_container env k info).
Proof.
  intros Hi w Hw. unfold track_container, modify. simpl.
  apply ttl_ok_set; [done|].
  destruct info as [n c p ttl sid st la tp te tu]; simpl in *.
  by destruct sid, st, la.
Qed.

Section HandlersKeepTtl.
Variable cpu_quota_of : string -> option Z.

Lemma keeps_ttl_container_start_try env req c o :
  keeps ttl_ok (container_start_try env req c o).
Proof.
  pose proof ttl_ok_engine_blind. pose proof keeps_ttl_get_docker_client.
  pose proof keeps_ttl_untrack.
  unfold container_start_try.
  apply keeps_bind; [eauto with keeps|]. intros b.
  apply keeps_bind; [destruct (negb b); eauto with keeps|]. intros _.
  apply keeps_bind; [eauto with keeps|]. intros full.
  set (base := Build_SessionInfo _ _ _ _ _ _ _ _ _ _).
  eapply triple_bind with
    (R := fun si w => ttl_ok w /\ ttl_seconds si = ttl_seconds base).
  { destruct (ContainerStartRequest.enable_ttyd req).
    - eapply triple_bind with (R := fun _ => ttl_ok).
      + unfold start_ttyd. keeps_walk.
      + intros hp. apply triple_ret. by intros w Hw.
    - apply triple_ret. by intros w Hw. }
  intros si.
  assert (Hb : ttl_seconds si = ttl_seconds base -> ttl_bounded si).
  { intros Heq. unfold ttl_bounded. rewrite Heq.
    eexists. split; [reflexivity|]. apply Z.le_min_r. }
  eapply triple_bind with (R := fun _ => ttl_ok).
  { intros w [Hw Hsi]. by apply keeps_ttl_track_container; [apply Hb|]. }
  intros _. unfold run_code. keeps_walk.
Qed.

Lemma keeps_ttl_container_start env req :
  keeps ttl_ok (container_start cpu_quota_of env req).
Proof.
  pose proof ttl_ok_engine_blind. pose proof keeps_ttl_get_docker_client.
  pose proof (keeps_container_options cpu_quota_of ttl_ok).
  pose proof keeps_ttl_container_start_try.
  unfold container_start, build_image_if_needed. keeps_walk.
Qed.
End HandlersKeepTtl.

Lemma keeps_ttl_extend_session env sid req :
  keeps ttl_ok (extend_session env sid req).
Proof.
  intros w Hw. unfold extend_session, bind, get_world, modify, ret, raise.
  destruct (find_session sid (active_containers w)) as [[cid info]|] eqn:E;
    simpl; [|done].
  apply ttl_ok_set; [done|]. eexists. split; [reflexivity|]. apply Z.le_min_r.
Qed.

Lemma step_ttl_ok w w' : ttl_ok w -> step w w' -> ttl_ok w'.
Proof.
  pose proof ttl_ok_engine_blind. pose proof keeps_ttl_get_docker_client.
  pose proof keeps_ttl_untrack. pose proof keeps_ttl_update_container_activity.
  intros Hw Hs. destruct Hs; try exact Hw; apply keeps_snd; try done.
  - apply keeps_ttl_container_start.
  - unfold container_exec, container_exec_try, container_exec_except. keeps_walk.
  - unfold container_stop. keeps_walk.
  - unfold container_status. apply keeps_bind; [done|]. intros b.
    destruct (negb b); [apply keeps_ret|].
    apply keeps_bind; [eauto with keeps|]. intros tracked.
    apply keeps_bind; [|intros; apply keeps_ret].
    generalize 0%nat. induction tracked as [|[cid info] tracked IH]; intros n; simpl.
    + apply keeps_ret.
    + pose proof (keeps_status_session ttl_ok). keeps_walk.
  - unfold container_cleanup. apply keeps_bind; [done|]. intros b.
    destruct (negb b).
    + apply keeps_bind; [eauto with keeps|]. intros w0.
      apply keeps_bind; [|intros; apply keeps_ret].
      apply keeps_modify. intros w1 _ k i Hk. by apply elem_of_nil in Hk.
    + apply keeps_bind; [eauto with keeps|]. intros tracked.
      apply keeps_bind; [|intros; apply keeps_ret].
      induction (map fst tracked) as [|cid ids IH]; simpl.
      * apply keeps_ret.
      * keeps_walk.
  - pose proof (keeps_list_sessions_loop ttl_ok). unfold list_sessions. keeps_walk.
  - pose proof (keeps_session_entry ttl_ok). unfold get_session. keeps_walk.
  - apply keeps_ttl_extend_session.
  - unfold close_session. keeps_walk.
  - unfold health. keeps_walk.
  - unfold reaper_tick, cleanup_expired_sessions, expire_session. keeps_walk.
Qed.

Lemma reachable_ttl_ok w : reachable w -> ttl_ok w.
Proof.
  induction 1 as [r g|w w' _ IH Hs].
  - intros k i H. by apply elem_of_nil in H.
  - eapply step_ttl_ok; eauto.
Qed.

(** X9.  In every reachable world each tracked record carries a TTL, and
    it is at most [MAX_SESSION_TTL]: neither a start nor any number of
    extensions can push a session's TTL above the cap.  So the fallback to
    [DEFAULT_SESSION_TTL] for a record without a TTL is never taken. *)
Theorem reachable_ttl_capped w cid info :
  reachable w ->
  dict_get cid (active_containers w) = Some info ->
  exists t, ttl_seconds info = Some t /\ ttl_of info = t /\ t <= MAX_SESSION_TTL.
Proof.
  intros Hr Hget.
  destruct (reachable_ttl_ok w Hr cid info (dict_get_elem _ _ _ Hget))
    as (t & Ht & Hle).
  exists t. unfold ttl_of. rewrite Ht. by repeat split.
Qed.

(** The session of [persistent_world], extended by far more than the cap
    allows. *)
Lemma reachable_ttl_capped_witness :
  exists info t,
    dict_get "0123456789ab"
      (active_containers
         (snd (extend_session quiet_env (uuid4 quiet_env) (extend_request 100000)
                 persistent_world))) = Some info /\
    ttl_seconds info = Some t /\ t <= MAX_SESSION_TTL.
Proof.
  destruct (dict_get "0123456789ab"
      (active_containers
         (snd (extend_session quiet_env (uuid4 quiet_env) (extend_request 100000)
                 persistent_world)))) as [info|] eqn:E;
    [|vm_compute in E; discriminate].
  destruct (reachable_ttl_capped _ "0123456789ab" info
              (reachable_step _ _ persistent_world_reachable
                 (step_extend quiet_env (uuid4 quiet_env) (extend_request 100000)
                    persistent_world)) E) as (t & Ht & _ & Hle).
  exists info, t. by repeat split.
Defined.

Lemma not_expired_record now info la :
  last_activity_of info = Some la ->
  now <= la + timedelta_seconds (ttl_of info) ->
  record_expired now info = false.
Proof.
  intros Hla Hle. unfold record_expired, expired. rewrite Hla.
  destruct (persistent info); [|done]. simpl.
  destruct (expires_at la (ttl_of info)); [|done]. apply Z.ltb_ge. lia.
Qed.

(** X10.  The background task only ever deletes records: whatever is in
    the table after any number of wake-ups was there before, unchanged. *)
Theorem reaper_only_deletes ticks : forall w k i,
  reachable w ->
  dict_get k (active_containers (snd (session_cleanup_loop ticks w))) = Some i ->
  dict_get k (active_containers w) = Some i.
Proof.
  induction ticks as [|env ticks IH]; intros w k i Hr; [done|].
  rewrite session_cleanup_loop_cons. intros H.
  apply IH in H; [|by apply reaper_tick_reachable].
  destruct (reaper_tick_table env w) as (w' & E & T).
  rewrite E in H. cbn [snd] in H. rewrite T in H.
  destruct (fst (get_docker_client env w)) as [[|]|]; try done.
  by destruct (reaped _ _ _).
Qed.

(** A wake-up at 60 s finds the session of [persistent_world]; it was
    there before. *)
Lemma reaper_only_deletes_witness :
  is_Some (dict_get "0123456789ab" (active_containers persistent_world)).
Proof.
  destruct (dict_get "0123456789ab"
              (active_containers
                 (snd (session_cleanup_loop [env_at 60000000] persistent_world))))
    as [i|] eqn:E; [|vm_compute in E; discriminate].
  rewrite (reaper_only_deletes [env_at 60000000] persistent_world
             "0123456789ab" i persistent_world_reachable E).
  by exists i.
Defined.

(** One wake-up leaves a record whose TTL has not run out as it is. *)
Lemma reaper_tick_spares env w cid info la :
  reachable w ->
  dict_get cid (active_containers w) = Some info ->
  last_activity_of info = Some la ->
  clock env 0 <= la + timedelta_seconds (ttl_of info) ->
  dict_get cid (active_containers (snd (reaper_tick env w))) = Some info.
Proof.
  intros Hr Hget Hla Hlive. apply reaper_tick_keeps; [done..|]. left.
  by apply (not_expired_record _ _ la).
Qed.

(** X11.  The background task spares a live session: a tracked record
    whose TTL has not run out at any of the wake-ups
    (now <= last_activity + ttl_seconds, the boundary included) is still
    in the table afterwards, unchanged. *)
Theorem reaper_spares_live ticks : forall w cid info la,
  reachable w ->
  dict_get cid (active_containers w) = Some info ->
  last_activity_of info = Some la ->
  (forall env, env ∈ ticks ->
     clock env 0 <= la + timedelta_seconds (ttl_of info)) ->
  dict_get cid (active_containers (snd (session_cleanup_loop ticks w)))
    = Some info.
Proof.
  induction ticks as [|env ticks IH]; intros w cid info la Hr Hget Hla Hlive;
    [done|].
  rewrite session_cleanup_loop_cons.
  apply (IH _ _ _ la); [by apply reaper_tick_reachable| |done|].
  - apply (reaper_tick_spares _ _ _ _ la); try done.
    apply Hlive, list_elem_of_here.
  - intros env' Hin. apply Hlive. apply elem_of_cons. by right.
Qed.

(** The session of [persistent_world] (TTL 120 s, last activity at 1 s)
    at wake-ups at 60 s and at exactly 121 s. *)
Lemma reaper_spares_live_witness :
  dict_in "0123456789ab"
    (active_containers
       (snd (session_cleanup_loop [env_at 60000000; env_at 121000000]
               persistent_world))) = true.
Proof.
  destruct (dict_get "0123456789ab" (active_containers persistent_world))
    as [info|] eqn:E; [|vm_compute in E; discriminate].
  unfold dict_in.
  rewrite (reaper_spares_live [env_at 60000000; env_at 121000000]
             persistent_world "0123456789ab" info 1000000
             persistent_world_reachable E); [done| |].
  - vm_compute in E. injection E as <-. reflexivity.
  - vm_compute in E. injection E as <-. intros env Hin.
    apply elem_of_cons in Hin as [->|Hin]; [vm_compute; discriminate|].
    apply list_elem_of_singleton in Hin as ->. vm_compute. discriminate.
Defined.

(** ** Reported remaining time *)

Lemma td_seconds_range td : 0 <= td_seconds td < 86400.
Proof.
  unfold td_seconds.
  pose proof (Z.mod_pos_bound td 86400000000 ltac:(lia)) as H.
  split; [apply Z.div_pos; lia|].
  apply Z.div_lt_upper_bound; lia.
Qed.

Lemma remaining_seconds_range now la ttl :
  0 <= remaining_seconds now la ttl <= Z.max 0 ttl /\
  ttl - 86399 <= remaining_seconds now la ttl.
Proof.
  unfold remaining_seconds. pose proof (td_seconds_range (now - la)). lia.
Qed.

(** X12.  The reaper's test and the reported remaining time agree within
    a day of the last activity: a session the reaper would evict is
    reported with 0 remaining seconds, and one reported with a positive
    remaining time is not evicted.  (At any elapsed time the reported value
    lies between 0 and max(0, ttl) and is at least ttl - 86399.) *)
Theorem expired_reports_zero now la ttl :
  0 <= now - la < 86400000000 ->
  (expired now la ttl = true -> remaining_seconds now la ttl = 0) /\
  (0 < remaining_seconds now la ttl -> expired now la ttl = false) /\
  0 <= remaining_seconds now la ttl <= Z.max 0 ttl.
Proof.
  intros Hday.
  assert (Hz : expired now la ttl = true -> remaining_seconds now la ttl = 0).
  { rewrite (remaining_seconds_within_a_day _ _ _ Hday).
    unfold expired, timedelta_seconds. intros H%Z.ltb_lt.
    assert (ttl <= (now - la) / 1000000); [|lia].
    apply Z.div_le_lower_bound; lia. }
  split; [exact Hz|]. split; [|apply remaining_seconds_range].
  intros Hpos. destruct (expired now la ttl); [|done].
  rewrite Hz in Hpos; [lia|done].
Qed.

Lemma expired_reports_zero_witness :
  remaining_seconds 200000000 1000000 120 = 0.
Proof.
  apply (expired_reports_zero 200000000 1000000 120); [lia|reflexivity].
Defined.

Lemma session_entry_spec now cid info w :
  is_Some (last_activity_of info) ->
  exists e, session_entry now cid info w = (Ret e, w) /\ entry_of e cid info.
Proof.
  intros [la Hla]. unfold session_entry. rewrite Hla.
  eexists. split; [reflexivity|]. repeat split; try done;
    apply remaining_seconds_range.
Qed.

Lemma list_sessions_loop_spec env tracked : forall n w,
  (forall k i, (k, i) ∈ tracked -> is_Some (last_activity_of i)) ->
  exists es,
    list_sessions_loop env n tracked w = (Ret es, w) /\
    Forall2 (fun e p => entry_of e (fst p) (snd p)) es
      (filter (fun p => persistent (snd p) = true) tracked).
Proof.
  induction tracked as [|[cid info] tracked IH]; intros n w Hla.
  - exists []. split; [done|]. constructor.
  - assert (Hla' : forall k i, (k, i) ∈ tracked -> is_Some (last_activity_of i)).
    { intros k i Hin. apply (Hla k i). apply elem_of_cons. by right. }
    cbn [list_sessions_loop]. rewrite filter_cons. cbn [snd].
    destruct (persistent info) eqn:Hp.
    + destruct (session_entry_spec (clock env n) cid info w) as (e & He & Hent).
      { apply (Hla cid info), list_elem_of_here. }
      destruct (IH (S n) w Hla') as (es & Hes & Hall).
      unfold bind at 1. rewrite He. unfold bind, ret. rewrite Hes.
      exists (e :: es). split; [done|].
      rewrite decide_True by done. by constructor.
    + destruct (IH n w Hla') as (es & Hes & Hall).
      exists es. split; [done|]. by rewrite decide_False by done.
Qed.

Lemma entry_capped e cid info :
  entry_of e cid info -> ttl_bounded info ->
  0 <= SessionEntry.remaining_seconds e <= MAX_SESSION_TTL.
Proof.
  intros (_ & _ & _ & _ & Hrem) (t & Ht & Hle).
  unfold ttl_of in Hrem. rewrite Ht in Hrem. simpl in Hrem.
  unfold MAX_SESSION_TTL in *. lia.
Qed.

Lemma entries_capped es ps :
  Forall2 (fun e p => entry_of e (fst p) (snd p)) es ps ->
  (forall p, p ∈ ps -> ttl_bounded (snd p)) ->
  Forall (fun e => 0 <= SessionEntry.remaining_seconds e <= MAX_SESSION_TTL) es.
Proof.
  induction 1 as [|e p es ps Hent _ IH]; intros Hsub; constructor.
  - eapply entry_capped; [exact Hent|]. apply Hsub, list_elem_of_here.
  - apply IH. intros q Hq. apply Hsub. apply elem_of_cons. by right.
Qed.

(** X13.  On a reachable world [list_sessions] cannot fail and changes
    nothing; it lists exactly the persistent records, in table order, one
    entry per record with that record's container id, session id,
    last_activity and TTL, and a remaining time between 0 and the TTL,
    which is itself at most [MAX_SESSION_TTL]. *)
Theorem list_sessions_spec env w :
  reachable w ->
  exists es,
    serve (list_sessions env) w = (OK es, w) /\
    Forall2 (fun e p => entry_of e (fst p) (snd p)) es
      (filter (fun p => persistent (snd p) = true) (active_containers w)) /\
    Forall (fun e => 0 <= SessionEntry.remaining_seconds e <= MAX_SESSION_TTL) es.
Proof.
  intros Hr. pose proof (reachable_wf w Hr) as [[_ Hrec] _].
  pose proof (reachable_ttl_ok w Hr) as Httl.
  destruct (list_sessions_loop_spec env (active_containers w) 0 w) as (es & Hes & Hall).
  { intros k i Hin. eapply record_ok_last_activity_of, Hrec, Hin. }
  exists es. split; [|split; [exact Hall|]].
  - unfold serve, list_sessions, get_tracked_containers.
    unfold bind, get_world, ret. cbv beta iota. by rewrite Hes.
  - eapply entries_capped; [exact Hall|].
    intros [k i] Hin. apply list_elem_of_filter in Hin as [_ Hin]. eauto.
Qed.

Lemma list_sessions_spec_witness :
  exists es,
    serve (list_sessions (env_at 60000000)) persistent_world
      = (OK es, persistent_world) /\
    length es = 1%nat.
Proof.
  destruct (list_sessions_spec (env_at 60000000) persistent_world
              persistent_world_reachable) as (es & Hs & Hall & _).
  exists es. split; [exact Hs|].
  apply Forall2_length in Hall. rewrite Hall. reflexivity.
Defined.

(** X14.  On a reachable world [get_session] changes nothing and answers
    SessionNotFound (404) exactly when no tracked record has the session
    id; otherwise it answers 200 with the entry of a tracked record that
    has this session id, whose remaining time is between 0 and
    [MAX_SESSION_TTL].  It answers 404 exactly when [extend_session] and
    [close_session] do. *)
Theorem get_session_spec env sid w :
  reachable w ->
  exists resp,
    serve (get_session env sid) w = (resp, w) /\
    (resp = HTTPError 404 SessionNotFound <->
     forall cid info, (cid, info) ∈ active_containers w ->
                      session_id info <> Some sid) /\
    (resp = HTTPError 404 SessionNotFound \/
     exists e cid info,
       resp = OK e /\ (cid, info) ∈ active_containers w /\
       session_id info = Some sid /\ entry_of e cid info /\
       SessionEntry.remaining_seconds e <= MAX_SESSION_TTL) /\
    (resp = HTTPError 404 SessionNotFound <->
     forall env' req,
       fst (serve (extend_session env' sid req) w) = HTTPError 404 SessionNotFound) /\
    (resp = HTTPError 404 SessionNotFound <->
     forall env',
       fst (serve (close_session env' sid) w) = HTTPError 404 SessionNotFound).
Proof.
  intros Hr. pose proof (reachable_wf w Hr) as [[_ Hrec] _].
  pose proof (reachable_ttl_ok w Hr) as Httl.
  assert (Hext : forall env' req,
    fst (serve (extend_session env' sid req) w) = HTTPError 404 SessionNotFound <->
    find_session sid (active_containers w) = None).
  { intros env' req. unfold serve, extend_session, bind, get_world, modify, ret, raise.
    by destruct (find_session sid (active_containers w)) as [[cid info]|]. }
  assert (Hclose : forall env',
    fst (serve (close_session env' sid) w) = HTTPError 404 SessionNotFound <->
    find_session sid (active_containers w) = None).
  { intros env'. destruct (close_session_run env' sid w) as (w' & -> & _).
    cbn [fst]. by destruct (find_session sid (active_containers w)) as [[cid info]|]. }
  unfold serve, get_session, get_tracked_containers.
  unfold bind, get_world, ret. cbv beta iota.
  destruct (find_session sid (active_containers w)) as [[cid info]|] eqn:E.
  - destruct (find_session_elem _ _ _ _ E) as [Hin Hsid].
    destruct (session_entry_spec (clock env 0) cid info w) as (e & -> & Hent).
    { eapply record_ok_last_activity_of, Hrec, Hin. }
    exists (OK e). split; [done|]. split; [|split; [|split]].
    + split; [done|]. intros Hno. exfalso. by eapply Hno.
    + right. exists e, cid, info. repeat split; try done; try apply Hent.
      eapply entry_capped; [exact Hent|]. by eapply Httl.
    + split; [done|]. intros H. specialize (H env (SessionExtendRequest.mk sid 0)).
      apply Hext in H. discriminate.
    + split; [done|]. intros H. specialize (H env). apply Hclose in H. discriminate.
  - exists (HTTPError 404 SessionNotFound). split; [done|].
    split; [|split; [|split]].
    + split; [|done]. intros _. by apply find_session_None.
    + by left.
    + split; [|done]. intros _ env' req. by apply Hext.
    + split; [|done]. intros _ env'. by apply Hclose.
Qed.

Lemma get_session_spec_witness :
  exists e,
    serve (get_session (env_at 60000000) (uuid4 quiet_env)) persistent_world
      = (OK e, persistent_world) /\
    SessionEntry.container_id e = "0123456789ab".
Proof.
  destruct (get_session_spec (env_at 60000000) (uuid4 quiet_env) persistent_world
              persistent_world_reachable) as (resp & Hs & _ & [->|H] & _).
  - vm_compute in Hs. discriminate.
  - destruct H as (e & cid & info & -> & Hin & _ & Hent & _).
    exists e. split; [exact Hs|]. destruct Hent as (-> & _).
    vm_compute in Hin. apply list_elem_of_singleton in Hin. by injection Hin.
Defined.

(** ** container_status *)

Lemma status_session_returns now info w :
  is_Some (last_activity_of info) ->
  exists s, status_session now info w = (Ret s, w).
Proof.
  intros [la Hla]. unfold status_session. rewrite Hla.
  destruct (persistent info); eauto.
Qed.

(** The loop of [container_status] when [get] raises nothing but
    [NotFound]: it returns, lists the records whose container the engine
    has, and deletes the others from the table. *)
Lemma container_status_loop_spec env tracked : forall n w,
  (forall k, get_fault env k = None) ->
  (forall k i, (k, i) ∈ tracked -> is_Some (last_activity_of i)) ->
  exists es w',
    container_status_loop env n tracked w = (Ret es, w') /\
    engine w' = engine w /\
    map StatusEntry.container_id es =
      map fst (filter (fun p => engine_has w (fst p) = true) tracked) /\
    (forall k, dict_get k (active_containers w') =
               if existsb (fun p => String.eqb k (fst p) && negb (engine_has w (fst p)))
                    tracked
               then None else dict_get k (active_containers w)).
Proof.
  induction tracked as [|[cid info] tracked IH]; intros n w Hf Hla.
  - exists [], w. by repeat split.
  - assert (Hla' : forall k i, (k, i) ∈ tracked -> is_Some (last_activity_of i)).
    { intros k i Hin. apply (Hla k i). apply elem_of_cons. by right. }
    cbn [container_status_loop]. rewrite filter_cons. cbn [fst existsb].
    unfold bind at 1. unfold try_except at 1. unfold bind at 1.
    rewrite docker_containers_get_eq, Hf.
    assert (Hh : engine_has w cid =
                 match engine w !! cid with Some _ => true | None => false end)
      by reflexivity.
    destruct (engine w !! cid) as [st|] eqn:Est.
    + destruct (status_session_returns (clock env n) info
                  (log_call (CallGet cid) w)) as (s & Hs).
      { apply (Hla cid info), list_elem_of_here. }
      unfold bind at 1. rewrite Hs. unfold ret at 1.
      destruct (IH (if persistent info then S n else n)
                  (log_call (CallGet cid) w) Hf Hla')
        as (es & w' & Hes & Heng & Hids & Ht).
      unfold bind, ret. cbv beta iota zeta. rewrite Hes.
      eexists _, w'. split; [reflexivity|]. split; [done|]. split.
      * rewrite decide_True by done. cbn. by rewrite Hids.
      * intros k. rewrite Ht, Hh. by rewrite andb_false_r.
    + cbn [is_NotFound]. unfold bind at 1. unfold bind at 1.
      rewrite untrack_container_eq. unfold ret at 1. cbv beta iota.
      set (w1 := set_active_containers _ _).
      destruct (IH n w1 Hf Hla') as (es & w' & Hes & Heng & Hids & Ht).
      unfold bind, ret. cbv beta iota zeta. rewrite Hes.
      eexists _, w'. split; [reflexivity|]. split; [done|]. split.
      * rewrite decide_False; [done|]. by rewrite Hh.
      * intros k. rewrite Ht, Hh. subst w1. cbn. rewrite andb_true_r.
        destruct (String.eqb_spec k cid) as [->|Hne]; cbn [orb].
        -- rewrite dict_get_del_eq. by destruct (existsb _ tracked).
        -- by rewrite dict_get_del_ne.
Qed.

Lemma purged_get {V} (has : string -> bool) (d : list (string * V)) k :
  (if existsb (fun p => String.eqb k (fst p) && negb (has (fst p))) d
   then None else dict_get k d) =
  if has k then dict_get k d else None.
Proof.
  induction d as [|[k0 v0] d IH]; simpl; [by destruct (has k)|].
  destruct (String.eqb_spec k k0) as [->|Hne]; simpl; [|exact IH].
  destruct (has k0) eqn:Eh; simpl; [|done].
  destruct (existsb _ d) eqn:Ex; [|done].
  apply existsb_exists in Ex as ([k1 v1] & _ & Hp). simpl in Hp.
  destruct (String.eqb_spec k0 k1) as [->|]; [|done]. by rewrite Eh in Hp.
Qed.

(** X15.  On a reachable world, when the engine's [get] raises nothing
    but [NotFound], the status endpoint answers 200.  Without an engine
    client the body is the error body and the table is as it was.  With
    one, the body lists, in table order, exactly the tracked containers
    the engine still has, and the records of the others are deleted from
    the table: afterwards a record is tracked exactly when it was tracked
    before and the engine has its container.  The engine's containers are
    not changed. *)
Theorem container_status_purges env w :
  reachable w ->
  (forall k, get_fault env k = None) ->
  exists body w',
    serve (container_status env) w = (OK body, w') /\
    engine w' = engine w /\
    (fst (get_docker_client env w) = Ret false ->
     body = None /\ active_containers w' = active_containers w) /\
    (fst (get_docker_client env w) = Ret true ->
     exists es,
       body = Some es /\
       map StatusEntry.container_id es =
         map fst (filter (fun p => engine_has w (fst p) = true)
                    (active_containers w)) /\
       forall k, dict_get k (active_containers w') =
                 if engine_has w k then dict_get k (active_containers w)
                 else None).
Proof.
  intros Hr Hf. pose proof (reachable_wf w Hr) as [[_ Hrec] _].
  destruct (get_docker_client_returns env w) as (b & w0 & G).
  destruct (get_docker_client_frame _ _ _ _ G) as (Eg & Et & _).
  unfold serve, container_status. unfold bind at 1. rewrite G. cbn [fst].
  destruct b; cbn [negb].
  - unfold get_tracked_containers. unfold bind at 1. unfold bind at 1.
    unfold get_world at 1, ret at 1. cbv beta iota.
    destruct (container_status_loop_spec env (active_containers w0) 0 w0 Hf)
      as (es & w' & Hes & Heng & Hids & Ht).
    { rewrite Et. intros k i Hin.
      destruct (Hrec k i Hin) as [[la Hla] _].
      unfold last_activity_of. rewrite Hla. eauto. }
    unfold bind, ret. rewrite Hes.
    eexists _, w'. split; [reflexivity|]. split; [congruence|].
    split; [done|]. intros _. exists es. split; [done|].
    assert (Hh : engine_has w0 = engine_has w).
    { unfold engine_has. by rewrite Eg. }
    rewrite Hh, Et in *. split; [exact Hids|].
    intros k. rewrite Ht. apply (purged_get (engine_has w)).
  - eexists _, w0. split; [reflexivity|]. split; [done|]. split; [done|].
    intros [=].
Qed.

(** The status of [persistent_world] after its container was removed
    behind the manager's back: nothing is listed and the record is
    dropped. *)
Lemma container_status_purges_witness :
  exists w',
    serve (container_status quiet_env) (set_engine ∅ persistent_world)
      = (OK (Some []), w') /\
    dict_get "0123456789ab" (active_containers w') = None.
Proof.
  destruct (container_status_purges quiet_env (set_engine ∅ persistent_world))
    as (body & w' & Hs & _ & _ & Hyes).
  - eapply reachable_step; [exact persistent_world_reachable|apply step_engine].
  - reflexivity.
  - destruct (Hyes eq_refl) as (es & -> & Hids & Ht).
    exists w'. split; [|by rewrite Ht].
    rewrite Hs. destruct es; [done|]. discriminate Hids.
Defined.

(** ** The session table's own operations *)

(** X16.  Round trip through the table: after [track_container] the
    record can be read back under its id, with a session id, a start time
    and a last activity (the given ones are kept, missing ones are filled
    in); [untrack_container] then reports [True] and the id is no longer
    tracked, a second [untrack_container] reports [False] and changes
    nothing, and if the id was not tracked before, the table is back to
    what it was. *)
Theorem track_untrack_round_trip env k info w :
  let w1 := snd (track_container env k info w) in
  let w2 := snd (untrack_container k w1) in
  (exists stored,
     get_container_session k w1 = (Ret (Some stored), w1) /\
     is_Some (session_id stored) /\ is_Some (started_at stored) /\
     is_Some (last_activity stored) /\
     (forall s, session_id info = Some s -> session_id stored = Some s) /\
     name stored = name info /\ ttl_seconds stored = ttl_seconds info /\
     persistent stored = persistent info) /\
  is_container_tracked k w1 = (Ret true, w1) /\
  untrack_container k w1 = (Ret true, w2) /\
  is_container_tracked k w2 = (Ret false, w2) /\
  untrack_container k w2 = (Ret false, w2) /\
  (dict_in k (active_containers w) = false -> w2 = w).
Proof.
  intros w1 w2. subst w2 w1. rewrite track_container_eq. cbn [snd].
  rewrite untrack_container_eq. cbn [snd active_containers set_active_containers].
  unfold get_container_session, is_container_tracked, bind, get_world, ret.
  cbn [active_containers set_active_containers]. unfold dict_in.
  rewrite dict_get_set_eq, dict_del_set. split; [|split; [done|split; [done|]]].
  - eexists. split; [reflexivity|].
    destruct info as [n c p ttl sid st la tp te tu]; unfold tracked_info; simpl.
    destruct sid, st, la; simpl; repeat split; eauto; by intros s [= ->].
  - rewrite untrack_container_eq. cbn [active_containers set_active_containers].
    unfold dict_in. rewrite !dict_get_del_eq. split; [done|].
    split.
    + destruct w. cbn. by rewrite (dict_del_absent k (dict_del k _)) by apply dict_in_del_eq.
    + intros Hno. destruct (dict_get k (active_containers w)) eqn:E; [done|].
      destruct w. cbn in *. rewrite dict_del_absent; [done|].
      unfold dict_in. by rewrite E.
Qed.

(** Tracking and untracking a container in a fresh process. *)
Lemma track_untrack_round_trip_witness :
  snd (untrack_container "0123456789ab"
         (snd (track_container quiet_env "0123456789ab" sample_info fresh_world)))
  = fresh_world.
Proof.
  destruct (track_untrack_round_trip quiet_env "0123456789ab" sample_info
              fresh_world) as (_ & _ & _ & _ & _ & H).
  apply H. reflexivity.
Defined.

(** ** Endpoints used one after the other *)

Lemma find_session_set sid cid info info' t :
  NoDup (map fst t) ->
  find_session sid t = Some (cid, info) ->
  session_id info' = Some sid ->
  find_session sid (dict_set cid info' t) = Some (cid, info').
Proof.
  intros Hnd Hfind Hsid. induction t as [|[k i] t IH]; simpl in *; [done|].
  apply NoDup_cons in Hnd as [Hk Hnd].
  case_bool_decide as Hs.
  - injection Hfind as -> ->. rewrite String.eqb_refl. simpl.
    by rewrite bool_decide_true.
  - destruct (String.eqb_spec cid k) as [->|Hne].
    + exfalso. apply Hk. apply find_session_elem in Hfind as [Hin _].
      by apply (elem_keys _ info).
    + simpl. rewrite bool_decide_false by done. by apply IH.
Qed.

Lemma find_session_set_fresh sid cid info t :
  (forall k i, (k, i) ∈ t -> session_id i <> Some sid) ->
  session_id info = Some sid ->
  find_session sid (dict_set cid info t) = Some (cid, info).
Proof.
  intros Hno Hsid. induction t as [|[k i] t IH]; simpl.
  - by rewrite bool_decide_true.
  - destruct (String.eqb_spec cid k) as [->|Hne]; simpl.
    + by rewrite bool_decide_true.
    + rewrite bool_decide_false.
      * apply IH. intros k' i' Hin. apply (Hno k' i'). apply elem_of_cons. by right.
      * apply (Hno k i), list_elem_of_here.
Qed.

(** X17.  Extend, then read: on a reachable world, after an extension
    that answered 200, [get_session] for the same session id answers 200
    for the same session, reports as [ttl_seconds] the [new_ttl] of the
    extension's answer and, within a day, as remaining time that TTL less
    the whole seconds elapsed since the extension (not below 0). *)
Theorem extend_then_get env sid req w resp env' :
  reachable w ->
  fst (serve (extend_session env sid req) w) = OK resp ->
  0 <= clock env' 0 - clock env 0 < 86400000000 ->
  exists e,
    fst (serve (get_session env' sid)
           (snd (serve (extend_session env sid req) w))) = OK e /\
    SessionEntry.session_id e = Some sid /\
    SessionEntry.ttl_seconds e = ExtendResponse.new_ttl resp /\
    SessionEntry.last_activity e = Some (clock env 0) /\
    SessionEntry.remaining_seconds e =
      Z.max 0 (ExtendResponse.new_ttl resp
               - (clock env' 0 - clock env 0) / 1000000).
Proof.
  intros Hr Hok Hday. pose proof (reachable_wf w Hr) as [[Hnd _] _].
  assert (Hrun : exists w1, serve (extend_session env sid req) w =
    (match find_session sid (active_containers w) with
     | Some (cid, info) =>
         OK (ExtendResponse.mk sid (SessionExtendRequest.extend_seconds req)
               (Z.min (ttl_of info + SessionExtendRequest.extend_seconds req)
                  MAX_SESSION_TTL))
     | None => HTTPError 404 SessionNotFound
     end, w1) /\
    active_containers w1 =
      match find_session sid (active_containers w) with
      | Some (cid, info) =>
          dict_set cid (extended env (SessionExtendRequest.extend_seconds req) info)
            (active_containers w)
      | None => active_containers w
      end).
  { unfold serve, extend_session, bind, get_world, modify, ret, raise.
    destruct (find_session sid (active_containers w)) as [[cid info]|];
      eexists; split; reflexivity. }
  destruct Hrun as (w1 & Hs & Ht). rewrite Hs in *. cbn [fst snd] in *.
  destruct (find_session sid (active_containers w)) as [[cid info]|] eqn:E;
    [|discriminate].
  injection Hok as <-. cbn [ExtendResponse.new_ttl].
  destruct (find_session_elem _ _ _ _ E) as [Hin Hsid].
  unfold serve, get_session, get_tracked_containers.
  unfold bind, get_world, ret. cbv beta iota. rewrite Ht.
  rewrite (find_session_set sid cid info _ _ Hnd E) by exact Hsid.
  unfold session_entry, last_activity_of, extended. cbn.
  eexists. split; [reflexivity|]. cbn. repeat split; try done.
  by rewrite remaining_seconds_within_a_day.
Qed.

(** Extending the session of [persistent_world] by 60 s at 1 s and
    reading it at 11 s. *)
Lemma extend_then_get_witness :
  exists e,
    fst (serve (get_session (env_at 11000000) (uuid4 quiet_env))
           (snd (serve (extend_session quiet_env (uuid4 quiet_env)
                          (extend_request 60)) persistent_world))) = OK e /\
    SessionEntry.ttl_seconds e = 180 /\
    SessionEntry.remaining_seconds e = 170.
Proof.
  destruct (extend_then_get quiet_env (uuid4 quiet_env) (extend_request 60)
              persistent_world
              (ExtendResponse.mk (uuid4 quiet_env) 60 180) (env_at 11000000)
              persistent_world_reachable)
    as (e & He & _ & Httl & _ & Hrem).
  - reflexivity.
  - vm_compute. split; [discriminate|reflexivity].
  - exists e. split; [exact He|]. split; [exact Httl|]. rewrite Hrem. reflexivity.
Defined.

(** What a persistent start that returns has put in the table. *)
Lemma container_start_try_persistent env req c o w body w' :
  container_start_try env req c o w = (Ret body, w') ->
  ContainerStartRequest.keep_alive req = true ->
  exists info,
    active_containers w' =
      dict_set (StartResponse.container_id body) info (active_containers w) /\
    session_id info = Some (uuid4 env) /\
    last_activity info = Some (clock env 1) /\
    ttl_seconds info = Some (stored_ttl req) /\
    exists s, StartResponse.session body = Some s /\
              StartSession.session_id s = Some (uuid4 env).
Proof.
  intros Hrun Hk. unfold container_start_try in Hrun. unfold bind at 1 in Hrun.
  destruct (get_docker_client env w) as [[[|]|e] w0] eqn:G; cbn [negb] in Hrun;
    [|discriminate..].
  destruct (get_docker_client_frame _ _ _ _ G) as (_ & Et & _).
  unfold bind at 1 in Hrun. unfold ret at 1 in Hrun. cbv beta iota in Hrun.
  unfold bind at 1 in Hrun. unfold docker_run at 1 in Hrun.
  destruct (run_result env) as [e|full] eqn:Erun; [discriminate|].
  cbv beta iota in Hrun. rewrite Hk in Hrun. cbn [negb andb] in Hrun.
  set (cid := short_id full) in *.
  set (info0 := {| name := _ |}) in Hrun.
  set (w1 := set_engine _ _) in Hrun.
  unfold start_ttyd, run_code, docker_exec_run, get_container_session,
    get_world, bind, try_except, ret, raise in Hrun.
  repeat first
    [ exec1_in Hrun
    | rewrite track_container_eq in Hrun
    | rewrite dict_get_set_eq in Hrun
    | destruct_match_in Hrun ];
    try discriminate.
  all: injection Hrun as <- <-.
  all: repeat match goal with
       | H : session_id (tracked_info _ _) = Some _ |- _ =>
           unfold tracked_info in H; subst info0; cbn in H; injection H as <-
       end.
  all: cbn [StartResponse.container_id StartResponse.session].
  all: subst w1; world_simpl; rewrite Et.
  all: eexists; split; [reflexivity|].
  all: unfold tracked_info; cbn.
  all: repeat split; eexists; split; reflexivity.
Qed.

(** X18.  The session of a persistent start can be used at once: after a
    start with keep_alive that answered 200, the answer carries a session
    id, and, provided no other tracked record already has that id,
    [get_session] for it answers 200 for the container just started, with
    the TTL the start stored and the start's time as last activity. *)
Theorem start_then_get cpu env req w body w' env' :
  serve (container_start cpu env req) w = (OK body, w') ->
  ContainerStartRequest.keep_alive req = true ->
  (forall k i, (k, i) ∈ active_containers w -> session_id i <> Some (uuid4 env)) ->
  exists s e,
    StartResponse.session body = Some s /\
    StartSession.session_id s = Some (uuid4 env) /\
    serve (get_session env' (uuid4 env)) w' = (OK e, w') /\
    SessionEntry.container_id e = StartResponse.container_id body /\
    SessionEntry.ttl_seconds e = stored_ttl req /\
    SessionEntry.last_activity e = Some (clock env 1).
Proof.
  intros Hs Hk Hfresh.
  assert (Htry : exists c o w1,
    container_start_try env req c o w1 = (Ret body, w') /\
    active_containers w1 = active_containers w).
  { apply serve_OK in Hs.
    destruct (registry_profiles w !! ContainerStartRequest.container_name req)
      as [c|] eqn:Hc.
    - destruct (get_docker_client_returns env w) as (b & w0 & G).
      destruct (get_docker_client_frame _ _ _ _ G) as (_ & Et & _).
      rewrite (container_start_allowed_eq _ _ _ _ _ _ _ Hc G) in Hs.
      set (w1 := if b && _ then _ else _) in Hs. set (img := default _ _) in Hs.
      assert (Et1 : active_containers w1 = active_containers w).
      { subst w1. by destruct (b && _). }
      clearbody w1.
      unfold bind at 1 in Hs.
      destruct (container_options_cases cpu req c img w1) as [[o Ho]|Ho];
        rewrite Ho in Hs; [|discriminate].
      exists c, o, w1. split; [|done]. unfold try_except in Hs.
      destruct (container_start_try env req c o w1) as [[a|e] w2]; [done|].
      unfold start_handler in Hs. by destruct (is_ImageNotFound e).
    - unfold container_start in Hs. unfold bind at 1 in Hs.
      rewrite is_container_allowed_eq, Hc in Hs. by destruct (registry_ok w). }
  destruct Htry as (c & o & w1 & Htry & Et1).
  destruct (container_start_try_persistent _ _ _ _ _ _ _ Htry Hk)
    as (info & Ht & Hsid & Hla & Httl & s & Hsess & Hssid).
  exists s. unfold serve, get_session, get_tracked_containers.
  unfold bind, get_world, ret. cbv beta iota. rewrite Ht, Et1.
  rewrite (find_session_set_fresh _ _ _ _ Hfresh Hsid).
  unfold session_entry, last_activity_of, ttl_of. rewrite Hla, Httl.
  eexists. repeat split; done.
Qed.

(** The first persistent start of a fresh process. *)
Lemma start_then_get_witness :
  exists e,
    serve (get_session (env_at 11000000) (uuid4 quiet_env)) persistent_world
      = (OK e, persistent_world) /\
    SessionEntry.container_id e = "0123456789ab" /\
    SessionEntry.ttl_seconds e = 120.
Proof.
  destruct (serve (container_start no_cpu_quota quiet_env (request_ttl (Some 120)))
              fresh_world) as [[body|s d] w'] eqn:E; [|vm_compute in E; discriminate].
  assert (Hw : w' = persistent_world).
  { unfold persistent_world. by rewrite E. }
  assert (Hb : StartResponse.container_id body = "0123456789ab").
  { vm_compute in E. by injection E as <- _. }
  destruct (start_then_get no_cpu_quota quiet_env (request_ttl (Some 120))
              fresh_world body w' (env_at 11000000) E eq_refl)
    as (s & e & _ & _ & Hg & Hc & Httl & _).
  - intros k i Hin. by apply elem_of_nil in Hin.
  - exists e. rewrite <- Hw, <- Hb. by repeat split.
Defined.

(** ** The options a start runs the container with *)

(** Invariants that only look at the call log. *)
Section LogOnly.
Variable I : World -> Prop.
Hypothesis Hlog : forall w c, I w -> I (log_call c w).
Hypothesis Hcalls : forall w w', calls w' = calls w -> I w -> I w'.

Lemma log_only_engine_blind : engine_blind I.
Proof. split; [exact Hlog|]. intros w g. by apply Hcalls. Qed.

Lemma keeps_log_get_docker_client env : keeps I (get_docker_client env).
Proof.
  intros w Hw. unfold get_docker_client.
  destruct (_docker_available w) as [[|]|]; destruct (_docker_client w); simpl;
    try destruct (from_env_fault env); try destruct (ping_fault env);
    try done;
    repeat first [ apply Hlog | eapply Hcalls; [|eassumption]; reflexivity
                 | eapply (Hcalls (log_call _ _)); [reflexivity|] ];
    try done.
Qed.

Lemma keeps_log_untrack k : keeps I (untrack_container k).
Proof.
  intros w Hw. rewrite untrack_container_eq. by apply (Hcalls w).
Qed.

Lemma keeps_log_track env k info : keeps I (track_container env k info).
Proof. intros w Hw. rewrite track_container_eq. by apply (Hcalls w). Qed.
End LogOnly.

Lemma ran_since_log w0 o w c : ran_since w0 o w -> ran_since w0 o (log_call c w).
Proof.
  intros (l1 & l2 & E). exists l1, (l2 ++ [c])%list. simpl. rewrite E.
  by rewrite <- !app_assoc.
Qed.

Lemma ran_since_calls w0 o w w' : calls w' = calls w -> ran_since w0 o w -> ran_since w0 o w'.
Proof. intros E (l1 & l2 & H). exists l1, l2. by rewrite E. Qed.

Lemma calls_since_log w0 w c : calls_since w0 w -> calls_since w0 (log_call c w).
Proof.
  intros (l & E). exists (l ++ [c])%list. simpl. rewrite E. by rewrite <- app_assoc.
Qed.

Lemma calls_since_calls w0 w w' : calls w' = calls w -> calls_since w0 w -> calls_since w0 w'.
Proof. intros E (l & H). exists l. by rewrite E. Qed.

(** A start whose [try] body returns has called [containers.run] with the
    options it was given, after the calls made before. *)
Lemma container_start_try_ran env req c o w0 :
  triple (calls_since w0) (container_start_try env req c o)
    (fun _ => ran_since w0 o) (fun _ _ => True).
Proof.
  pose proof (log_only_engine_blind _ (ran_since_log w0 o) (ran_since_calls w0 o)).
  pose proof (keeps_log_get_docker_client _ (ran_since_log w0 o) (ran_since_calls w0 o)).
  pose proof (keeps_log_untrack _ (ran_since_calls w0 o)).
  pose proof (keeps_log_track _ (ran_since_calls w0 o)).
  unfold container_start_try.
  eapply triple_bind with (R := fun _ => calls_since w0).
  { eapply triple_conseq;
      [apply (keeps_log_get_docker_client _ (calls_since_log w0) (calls_since_calls w0))
      |auto..]. }
  intros b. eapply triple_bind with (R := fun _ => calls_since w0).
  { destruct (negb b); [by apply triple_raise|by apply triple_ret]. }
  intros _. eapply triple_bind with (R := fun _ => ran_since w0 o).
  { intros w (l & E). unfold docker_run.
    destruct (run_result env); [done|]. exists l, []. simpl. rewrite E.
    by rewrite <- app_assoc. }
  intros full.
  eapply triple_conseq with (P' := ran_since w0 o) (Q' := fun _ => ran_since w0 o)
    (E' := fun _ => ran_since w0 o); [|auto|auto|done].
  unfold start_ttyd, run_code. keeps_walk.
Qed.

(** X19.  A start that answers 200 has called [containers.run] once its
    options were built from the profile: the network mode passed is
    ["none"] exactly when the profile's network mode is ["none"] (the
    default) and ttyd was not requested, and is left out otherwise (a
    request for ttyd drops the isolation, and any other network mode of
    the profile is not passed on); port 7681 is published exactly when
    ttyd was requested; the container is not auto-removed; the memory
    limit and the read-only flag are the profile's. *)
Theorem start_options cpu env req w body w' c :
  serve (container_start cpu env req) w = (OK body, w') ->
  registry_profiles w !! ContainerStartRequest.container_name req = Some c ->
  exists o,
    ran_since w o w' /\
    opt_network_mode o =
      (if negb (ContainerStartRequest.enable_ttyd req) &&
          String.eqb (default "none" (network_mode (security c))) "none"
       then Some "none" else None) /\
    opt_ports o =
      (if ContainerStartRequest.enable_ttyd req
       then Some ("7681/tcp", None) else None) /\
    opt_remove o = false /\ opt_detach o = true /\
    opt_mem_limit o =
      (if truthy (memory (resources c)) then memory (resources c) else None) /\
    opt_read_only o = (if read_only (security c) then Some true else None).
Proof.
  intros Hs Hc. apply serve_OK in Hs.
  destruct (get_docker_client_returns env w) as (b & w0 & G).
  destruct (get_docker_client_frame _ _ _ _ G) as (_ & _ & _ & l & El).
  rewrite (container_start_allowed_eq _ _ _ _ _ _ _ Hc G) in Hs.
  set (w1 := if b && _ then _ else _) in Hs. set (img := default _ _) in Hs.
  assert (Hsince : calls_since w w1).
  { subst w1. destruct (b && _); [apply calls_since_log|]; by exists l. }
  clearbody w1. unfold bind at 1 in Hs.
  destruct (container_options_cases cpu req c img w1) as [[o Ho]|Ho];
    rewrite Ho in Hs; [|discriminate].
  exists o. split.
  - pose proof (container_start_try_ran env req c o w w1 Hsince) as Hran.
    unfold try_except in Hs.
    destruct (container_start_try env req c o w1) as [[a|e] w2].
    + by injection Hs as -> ->.
    + unfold start_handler in Hs. by destruct (is_ImageNotFound e).
  - clear Hs. unfold container_options, bind, ret, raise in Ho.
    destruct (truthy (cpus (resources c))).
    + destruct (cpu _); [|discriminate]. injection Ho as <-. cbn.
      destruct (ContainerStartRequest.enable_ttyd req),
        (String.eqb (default "none" (network_mode (security c))) "none"); by cbn.
    + injection Ho as <-. cbn.
      destruct (ContainerStartRequest.enable_ttyd req),
        (String.eqb (default "none" (network_mode (security c))) "none"); by cbn.
Qed.

(** The persistent start of [persistent_world]: the sample profile has
    network mode none and no ttyd was asked for. *)
Lemma start_options_witness :
  exists o, ran_since fresh_world o persistent_world /\
            opt_network_mode o = Some "none" /\ opt_ports o = None.
Proof.
  destruct (serve (container_start no_cpu_quota quiet_env (request_ttl (Some 120)))
              fresh_world) as [[body|s d] w'] eqn:E; [|vm_compute in E; discriminate].
  assert (Hw : w' = persistent_world).
  { unfold persistent_world. by rewrite E. }
  destruct (start_options no_cpu_quota quiet_env (request_ttl (Some 120))
              fresh_world body w' python_sandbox E eq_refl)
    as (o & Hran & Hnet & Hports & _).
  exists o. rewrite <- Hw. by repeat split.
Defined.

(** ** Containers the manager leaves alone *)

Section EngineFrame.
Variable k : string.
Variable g : option Status.

Lemma keeps_at_engine_call c f : keeps (engine_at k g) (engine_call c f).
Proof. intros w Hw. rewrite engine_call_eq. by destruct f. Qed.

Lemma keeps_at_docker_containers_get env cid :
  keeps (engine_at k g) (docker_containers_get env cid).
Proof.
  intros w Hw. rewrite docker_containers_get_eq.
  destruct (get_fault env cid); [done|]. by destruct (engine w !! cid).
Qed.

Lemma keeps_at_docker_stop env cid t :
  cid <> k -> keeps (engine_at k g) (docker_stop env cid t).
Proof.
  intros Hne w Hw. rewrite docker_stop_eq.
  destruct (stop_fault env cid); [done|].
  destruct (engine w !! cid); [|done].
  unfold engine_at. simpl. by rewrite lookup_insert_ne.
Qed.

Lemma keeps_at_docker_remove env cid :
  cid <> k -> keeps (engine_at k g) (docker_remove env cid).
Proof.
  intros Hne w Hw. rewrite docker_remove_eq.
  destruct (remove_fault env cid); [done|].
  destruct (engine w !! cid); [|done].
  unfold engine_at. simpl. by rewrite lookup_delete_ne.
Qed.

Lemma keeps_at_docker_get_stop_remove env cid :
  cid <> k -> keeps (engine_at k g) (docker_get_stop_remove env cid).
Proof.
  intros Hne. unfold docker_get_stop_remove.
  apply keeps_bind; [apply keeps_at_docker_containers_get|]. intros _.
  apply keeps_bind; [by apply keeps_at_docker_stop|]. intros _.
  by apply keeps_at_docker_remove.
Qed.

Lemma keeps_at_get_docker_client env : keeps (engine_at k g) (get_docker_client env).
Proof.
  intros w Hw. destruct (get_docker_client_returns env w) as (b & w0 & G).
  rewrite G. destruct (get_docker_client_frame _ _ _ _ G) as (Eg & _).
  unfold engine_at. by rewrite Eg.
Qed.

Lemma keeps_at_untrack cid : keeps (engine_at k g) (untrack_container cid).
Proof. intros w Hw. by rewrite untrack_container_eq. Qed.

Lemma keeps_at_for_each {A} (xs : list A) (body : A -> M unit) :
  (forall x, x ∈ xs -> keeps (engine_at k g) (body x)) -> keeps (engine_at k g) (for_each xs body).
Proof.
  induction xs as [|x xs IH]; intros Hb; simpl.
  - apply keeps_ret.
  - apply keeps_bind; [apply Hb, list_elem_of_here|]. intros _.
    apply IH. intros y Hy. apply Hb. apply elem_of_cons. by right.
Qed.

Lemma keeps_at_container_cleanup_loop env ids :
  k ∉ ids -> keeps (engine_at k g) (container_cleanup_loop env ids).
Proof.
  induction ids as [|cid ids IH]; intros Hk; simpl.
  - apply keeps_ret.
  - assert (cid <> k /\ k ∉ ids) as [Hne Hk'].
    { split; [intros ->|intros Hin]; apply Hk; apply elem_of_cons; auto. }
    pose proof (keeps_at_docker_get_stop_remove env cid Hne).
    pose proof keeps_at_untrack. specialize (IH Hk').
    keeps_walk.
Qed.
End EngineFrame.

Lemma elem_dict_in {V} k (v : V) d : (k, v) ∈ d -> dict_in k d = true.
Proof.
  intros Hin. unfold dict_in. destruct (dict_get k d) eqn:E; [done|].
  apply dict_get_None_keys in E. exfalso. apply E. by apply (elem_keys _ v).
Qed.

Lemma not_in_keys {V} k (d : list (string * V)) :
  dict_in k d = false -> k ∉ map fst d.
Proof.
  intros H. apply dict_get_None_keys. unfold dict_in in H.
  by destruct (dict_get k d).
Qed.

Lemma untracked_ne {V} k cid (v : V) d :
  dict_in k d = false -> (cid, v) ∈ d -> cid <> k.
Proof. intros Hk Hin ->. apply elem_dict_in in Hin. congruence. Qed.

(** X20.  The manager stops and removes on its own initiative only
    containers it tracks: neither the cleanup endpoint, nor closing a
    session, nor the background task changes the engine's entry for a
    container id that is not in the session table. *)
Theorem untracked_containers_untouched env sid k w :
  dict_in k (active_containers w) = false ->
  engine (snd (container_cleanup env w)) !! k = engine w !! k /\
  engine (snd (close_session env sid w)) !! k = engine w !! k /\
  engine (snd (reaper_tick env w)) !! k = engine w !! k.
Proof.
  intros Hk.
  set (J := engine_at k (engine w !! k)).
  destruct (get_docker_client_returns env w) as (b & w0 & G).
  destruct (get_docker_client_frame _ _ _ _ G) as (Eg & Et & _).
  assert (Hw0 : J w0) by (unfold J, engine_at; by rewrite Eg).
  pose proof (keeps_at_untrack k (engine w !! k)) as Hu.
  split; [|split].
  - unfold container_cleanup. unfold bind at 1. rewrite G.
    destruct b; cbn [negb]; [|exact Hw0].
    unfold get_tracked_containers. unfold bind at 1. unfold bind at 1.
    unfold get_world at 1, ret at 1. cbv beta iota.
    apply (keeps_snd J); [|exact Hw0].
    apply keeps_bind; [|intros; apply keeps_ret].
    apply keeps_at_container_cleanup_loop. rewrite Et. by apply not_in_keys.
  - unfold close_session. unfold bind at 1. rewrite G.
    unfold get_tracked_containers. unfold bind at 1. unfold bind at 1.
    unfold get_world at 1, ret at 1. cbv beta iota. rewrite Et.
    destruct (find_session sid (active_containers w)) as [[cid info]|] eqn:E;
      [|exact Hw0].
    apply find_session_elem in E as [Hin _].
    pose proof (keeps_at_docker_get_stop_remove k (engine w !! k) env cid
                  (untracked_ne _ _ _ _ Hk Hin)).
    apply (keeps_snd J); [|exact Hw0]. keeps_walk.
  - unfold reaper_tick. rewrite try_swallow. cbn [snd].
    unfold cleanup_expired_sessions. unfold bind at 1. rewrite G.
    destruct b; cbn [negb]; [|exact Hw0].
    unfold get_tracked_containers. unfold bind at 1. unfold bind at 1.
    unfold get_world at 1, ret at 1. cbv beta iota. rewrite Et.
    apply (keeps_snd J); [|exact Hw0].
    apply keeps_at_for_each. intros [cid info] Hin.
    pose proof (keeps_at_docker_get_stop_remove k (engine w !! k) env cid
                  (untracked_ne _ _ _ _ Hk Hin)).
    unfold expire_session. keeps_walk.
Qed.

(** The container of [foreign_world], which the manager never started,
    survives a cleanup. *)
Lemma untracked_containers_untouched_witness :
  engine (snd (container_cleanup quiet_env foreign_world)) !! "feedfacecafe"
    = Some running.
Proof.
  destruct (untracked_containers_untouched quiet_env "" "feedfacecafe"
              foreign_world eq_refl) as (H & _).
  rewrite H. reflexivity.
Defined.

(** ** What a stop touches *)

(** X4.  A stop changes the session table in exactly one way, whatever
    the engine does: the record of the given container id is deleted; the
    records of all other containers are left as they are.  In the engine,
    too, no container other than the given one is changed. *)
Theorem container_stop_frame env cid w :
  active_containers (snd (container_stop env cid w)) =
    dict_del cid (active_containers w) /\
  forall k, k <> cid ->
    dict_get k (active_containers (snd (container_stop env cid w))) =
      dict_get k (active_containers w) /\
    engine (snd (container_stop env cid w)) !! k = engine w !! k.
Proof.
  assert (H : active_containers (snd (container_stop env cid w)) =
              dict_del cid (active_containers w)).
  { set (T := active_containers w).
    pose (I := fun w' : World => active_containers w' = T).
    assert (HI : engine_blind I) by (by split).
    assert (Hend : forall (r : StopResponse.t) E,
      triple I (untrack_container cid ;; ret r)
        (fun _ w' => active_containers w' = dict_del cid T) E).
    { intros r E w0 Hw0. unfold bind. rewrite untrack_container_eq. simpl.
      by rewrite Hw0. }
    assert (Ht : triple I (container_stop env cid)
      (fun _ w' => active_containers w' = dict_del cid T)
      (fun _ w' => active_containers w' = dict_del cid T)).
    { unfold container_stop.
      eapply triple_bind with (R := fun _ => I).
      - intros w0 Hw0. pose proof (get_docker_client_table env w0) as Hg.
        destruct (get_docker_client_returns env w0) as (b & w1 & G).
        rewrite G in *. simpl in Hg. unfold I. congruence.
      - intros b. destruct b; cbn [negb]; [|apply Hend].
        eapply triple_try with (R := fun _ => I).
        + eapply triple_bind with (R := fun _ => I);
            [apply keeps_docker_containers_get, HI|]. intros st.
          eapply triple_bind with (R := fun _ => I); [|intros ?; apply Hend].
          pose proof (keeps_docker_remove I HI env cid).
          pose proof (keeps_docker_stop I HI env cid 5).
          destruct st; keeps_walk.
        + intros e. destruct (is_NotFound e); [|destruct (is_APIError e)];
            apply Hend. }
    specialize (Ht w eq_refl).
    by destruct (container_stop env cid w) as [[a|e] w']. }
  split; [exact H|]. intros k Hk. split.
  - rewrite H. by apply dict_get_del_ne.
  - apply (keeps_snd (engine_at k (engine w !! k))); [|done].
    assert (Hne : cid <> k) by congruence.
    pose proof (keeps_at_get_docker_client k (engine w !! k)).
    pose proof (keeps_at_untrack k (engine w !! k)).
    pose proof (keeps_at_docker_containers_get k (engine w !! k)).
    pose proof (keeps_at_docker_stop k (engine w !! k) env cid 5 Hne).
    pose proof (keeps_at_docker_remove k (engine w !! k) env cid Hne).
    unfold container_stop. keeps_walk.
Qed.

(** Stopping the foreign container next to the session of
    [persistent_world]. *)
Lemma container_stop_frame_witness :
  dict_get "0123456789ab"
    (active_containers (snd (container_stop quiet_env "feedfacecafe" persistent_world)))
  = dict_get "0123456789ab" (active_containers persistent_world).
Proof.
  destruct (container_stop_frame quiet_env "feedfacecafe" persistent_world)
    as [_ H].
  destruct (H "0123456789ab") as [Ht _]; [discriminate|exact Ht].
Defined.

(** ** Activity keeps a session alive *)

Lemma container_exec_OK_touched env req w info body w' :
  dict_get (ContainerExecRequest.container_id req) (active_containers w)
    = Some info ->
  serve (container_exec env req) w = (OK body, w') ->
  active_containers w' =
    dict_set (ContainerExecRequest.container_id req)
      (set_last_activity (clock env 0) info) (active_containers w).
Proof.
  intros Hget Hs. apply serve_OK in Hs.
  rewrite (container_exec_tracked _ _ _ _ Hget) in Hs.
  pose proof (container_exec_try_table env req
    (touched env (ContainerExecRequest.container_id req) info w)) as Ht.
  unfold try_except in Hs.
  destruct (container_exec_try env req _) as [[a|e] w1].
  - injection Hs as _ <-. exact Ht.
  - unfold container_exec_except in Hs.
    destruct (type_name_has_NotFound e); [|discriminate].
    unfold bind, raise in Hs. rewrite untrack_container_eq in Hs. discriminate.
Qed.

(** X21.  Activity keeps a session alive: on a reachable world, after an
    exec that answered 200 at time [t], the background task does not evict
    the session at any wake-up up to [t + ttl_seconds], however long ago
    the session was started; the record it leaves is the touched one. *)
Theorem exec_keeps_alive env req w info body w' ticks :
  reachable w ->
  dict_get (ContainerExecRequest.container_id req) (active_containers w)
    = Some info ->
  serve (container_exec env req) w = (OK body, w') ->
  (forall env', env' ∈ ticks ->
     clock env' 0 <= clock env 0 + timedelta_seconds (ttl_of info)) ->
  dict_get (ContainerExecRequest.container_id req)
    (active_containers (snd (session_cleanup_loop ticks w')))
  = Some (set_last_activity (clock env 0) info).
Proof.
  intros Hr Hget Hs Hlive.
  set (cid := ContainerExecRequest.container_id req) in *.
  set (info' := set_last_activity (clock env 0) info).
  assert (Hr' : reachable w').
  { replace w' with (snd (container_exec env req w)).
    - eapply reachable_step; [exact Hr|apply step_exec].
    - apply serve_OK in Hs. by rewrite Hs. }
  assert (Hget' : dict_get cid (active_containers w') = Some info').
  { rewrite (container_exec_OK_touched _ _ _ _ _ _ Hget Hs). apply dict_get_set_eq. }
  clear Hs Hget Hr. revert w' Hr' Hget'.
  induction ticks as [|env1 ticks IH]; intros w1 Hr1 Hget1; [done|].
  rewrite session_cleanup_loop_cons. apply IH.
  - intros env' Hin. apply Hlive. apply elem_of_cons. by right.
  - by apply reaper_tick_reachable.
  - apply (reaper_tick_spares _ _ _ _ (clock env 0)); try done.
    apply Hlive, list_elem_of_here.
Qed.

(** The session of [persistent_world] (TTL 120 s, started at 1 s): an
    exec at 100 s, and wake-ups at 150 s and 220 s. *)
Lemma exec_keeps_alive_witness :
  dict_in "0123456789ab"
    (active_containers
       (snd (session_cleanup_loop [env_at 150000000; env_at 220000000]
               (snd (serve (container_exec (env_at 100000000) echo_request)
                       persistent_world))))) = true.
Proof.
  destruct (dict_get "0123456789ab" (active_containers persistent_world))
    as [info|] eqn:E; [|vm_compute in E; discriminate].
  destruct (serve (container_exec (env_at 100000000) echo_request)
              persistent_world) as [[body|s d] w'] eqn:Es;
    [|vm_compute in Es; discriminate].
  unfold dict_in. cbn [snd].
  pose proof (exec_keeps_alive (env_at 100000000) echo_request persistent_world
                info body w' [env_at 150000000; env_at 220000000]
                persistent_world_reachable E Es) as H.
  change (ContainerExecRequest.container_id echo_request)
    with "0123456789ab" in H.
  rewrite H; [done|].
  vm_compute in E. injection E as <-. intros env Hin.
  apply elem_of_cons in Hin as [->|Hin]; [vm_compute; discriminate|].
  apply list_elem_of_singleton in Hin as ->. vm_compute. discriminate.
Defined.

(** ** A failed image build *)

(** X22.  A start ignores the outcome of the image build: whether
    [images.build] returns or raises (any exception), the start gives the
    same answer and leaves the same world; [build_image_if_needed] itself
    never raises and returns the profile's image name, or
    [jarvis-<name>:latest] when the profile names none. *)
Theorem build_failure_ignored cpu env e req w :
  serve (container_start cpu (with_build_fault e env) req) w =
    serve (container_start cpu env req) w /\
  forall n c,
    fst (build_image_if_needed (with_build_fault e env) n c w) =
      Ret (default ("jarvis-" ++ n ++ ":latest") (image c)).
Proof.
  destruct (get_docker_client_returns env w) as (b & w0 & G).
  assert (G' : get_docker_client (with_build_fault e env) w = (Ret b, w0))
    by exact G.
  split.
  - assert (H : container_start cpu (with_build_fault e env) req w =
                container_start cpu env req w); [|unfold serve; by rewrite H].
    destruct (registry_profiles w !! ContainerStartRequest.container_name req)
      as [c|] eqn:Hc.
    + rewrite (container_start_allowed_eq _ _ _ _ _ _ _ Hc G).
      rewrite (container_start_allowed_eq _ _ _ _ _ _ _ Hc G').
      reflexivity.
    + unfold container_start, bind.
      rewrite !is_container_allowed_eq, Hc. by destruct (registry_ok w).
  - intros n c. by rewrite (build_image_if_needed_eq _ _ _ _ _ _ G').
Qed.
